(** * MP4 Video Splitter: the clip loop of [SplitWorker.run] and its callers

    A shallow embedding of [src/main.py]:
    - [FFmpegValidator.check_ffmpeg] and [FFmpegValidator.get_video_info],
    - [SplitWorker.run] (set-up, clip arithmetic, the clip loop, the final
      report),
    - [VideoSplitterApp.start_splitting], up to the start of the worker,
    - [ModernButton.adjust_color] and the name of a clip's output file,
    - the window of [VideoSplitterApp]: [check_system_requirements],
      [set_controls_enabled], [log_message], [stop_splitting] and the slots
      of the worker's signals.

    Conventions.  Python [int] is [Z].  Python [float] is an exact rational
    ([Q]): the rounding of binary floating point is not modelled, and neither
    are the floats that are no numbers ([inf], [nan]) nor an int too large
    to become a float.  A theorem whose statement depends on the value of a
    float that the code rounds says so in its hypotheses: it bounds the clip
    length and the duration ([2 ^ 31] and [2 ^ 52] seconds) and, where the
    code adds the overlap to the duration, asks that the sum be a float
    ([Py.is_float]); within these bounds the quotients of the clip count
    round without reaching the next integer.
    The comparisons the clip arithmetic makes ([start >= total_duration],
    [end - start < 1.0]) are between an integer and the probed duration and
    are exact in floating point as well; a [progress] value can be one less
    in floating point than here, in the same order.
    Everything outside the Python code (sub-processes, the file system, the
    thread that calls [stop], the builtin [eval] on text other than
    [num/den]) is gathered in an environment record; the code is a function
    of that environment and returns the ordered list of what it did
    (signals emitted, sub-processes spawned). *)

From Stdlib Require Import ZArith QArith Qround Qminmax List String Ascii Bool Lia Lqa.
From Stdlib Require Import Sorted DecimalString DecimalPos DecimalN.
Import ListNotations.

Open Scope Z_scope.

(* ------------------------------------------------------------------ *)
(** ** Python numbers *)

Module Py.

(** [int(x)] on a float: truncation toward zero. *)
Definition int (x : Q) : Z := Z.quot (Qnum x) (Z.pos (Qden x)).

(** Exceptions the modelled code can meet. *)
Inductive exn :=
| ZeroDivisionError
| SyntaxError
| ValueError
| OSError
| TimeoutExpired
| OverflowError.

(** [a / b]: true division, raising on a zero divisor. *)
Definition truediv (a b : Q) : exn + Q :=
  if Qeq_bool b 0 then inl ZeroDivisionError else inr (a / b)%Q.

(** [a % b] on floats: the remainder takes the sign of the divisor. *)
Definition mod_ (a b : Q) : Q := (a - b * inject_Z (Qfloor (a / b)))%Q.

(** [a < b] and [a >= b] as tests. *)
Definition lt (a b : Q) : bool := negb (Qle_bool b a).
Definition ge (a b : Q) : bool := Qle_bool b a.

(** [min(a, b)]: the second argument only when it is strictly smaller. *)
Definition min (a b : Q) : Q := if lt b a then b else a.

(** The rationals a float holds exactly: [m * 2 ^ e] with a mantissa of
    53 bits. *)
Definition is_float (x : Q) : Prop :=
  exists m e : Z,
    Z.abs m < 2 ^ 53 /\ -1074 <= e <= 971 /\ (x == inject_Z m * 2 ^ e)%Q.

(** [n / d] on two ints that are not negative is too large for a float
    when it rounds above the largest one, [2 ^ 1024 - 2 ^ 971]: from
    [2 ^ 1024 - 2 ^ 970] on. *)
Definition too_large (n d : Z) : bool :=
  (2 ^ 1024 - 2 ^ 970) * d <=? n.

(** [posixpath.join] of two paths. *)
Fixpoint ends_with_sep (a : string) : bool :=
  match a with
  | EmptyString => false
  | String c EmptyString => Ascii.eqb c "/"
  | String _ rest => ends_with_sep rest
  end.

Definition posix_join (a b : string) : string :=
  match b with
  | String "/" _ => b
  | _ =>
      match a with
      | EmptyString => b
      | _ => if ends_with_sep a then (a ++ b)%string
             else (a ++ String "/" b)%string
      end
  end.

End Py.

(* ------------------------------------------------------------------ *)
(** ** What the code does: signals and sub-processes *)

(** The text of [status_update] messages, by format string. *)
Inductive StatusMsg :=
| Analyzing                                   (* "Analyzing video file..." *)
| VideoSummary (total_duration : Q)           (* "Video: ...s, WxH, v/a" *)
| Creating (actual_clips : Z)                 (* "Creating n clips..." *)
| Stopping                                    (* "Stopping..." *)
| Processing (clip_number actual_clips : Z) (start : Z) (end_ : Q)
| Success (clips_created : Z)                 (* "Successfully created n clips!" *)
| Stopped (clips_created : Z).                (* "Operation stopped. n clips created." *)

(** What the [except Exception as e] of the clip loop can catch. *)
Inductive ClipExn :=
| FfmpegStderr                                (* "FFmpeg error: ..." *)
| MissingOrTooSmall                           (* "Output file is missing or too small" *)
| Other (e : Py.exn).

(** The text of [error] messages, by format string. *)
Inductive ErrorMsg :=
| FfmpegValidationFailed                      (* "FFmpeg validation failed: ..." *)
| AnalyzeFailed                               (* "Failed to analyze video file. ..." *)
| InvalidDuration                             (* "Invalid video duration detected." *)
| TooShort                                    (* "Video too short. ..." *)
| ClipTimeout (clip_number : Z)               (* "Timeout processing clip n" *)
| ClipFailed (clip_number : Z) (e : ClipExn)  (* "Failed to create clip n: ..." *)
| NoClips                                     (* "No clips were created successfully." *)
| Unexpected (e : Py.exn).                    (* "Unexpected error: ..." *)

(** The five Qt signals of [SplitWorker]. *)
Inductive Signal :=
| progress (percent : Z)
| finished (output_dir : string) (clips_created : Z)
| error (msg : ErrorMsg)
| status_update (msg : StatusMsg)
| clip_completed (clip_number : Z) (size_bytes : Z).

(** The encoder settings of the re-encode branch. *)
Inductive Codec :=
| StreamCopy
| Libx264 (preset : string) (crf : Z).

(** External commands. *)
Inductive Command :=
| FfmpegVersion                                (* ffmpeg -version *)
| Ffprobe (file_path : string)                 (* ffprobe ... file_path *)
| FfmpegClip (clip_number : Z) (ss : Z) (t : Q) (codec : Codec).

Inductive Action :=
| Emit (s : Signal)
| Subprocess (c : Command)
| Makedirs (dir : string).

(** Results of [subprocess.run]. *)
Inductive RunResult :=
| RunRaises (e : Py.exn)                       (* TimeoutExpired, OSError, ... *)
| RunExit (returncode : Z).

(* ------------------------------------------------------------------ *)
(** ** [FFmpegValidator] *)

Module FFmpegValidator.

Inductive CheckMsg := NotFound | Found | TestFailed | TimedOut | CheckError.

(** [check_ffmpeg]: [which] says whether [shutil.which('ffmpeg')] finds
    the tool, [version] is the result of running [ffmpeg -version]. *)
Definition check_ffmpeg (which : bool) (version : RunResult)
  : (bool * CheckMsg) * list Action :=
  if negb which then ((false, NotFound), [])
  else
    match version with
    | RunExit returncode =>
        if returncode =? 0 then ((true, Found), [Subprocess FfmpegVersion])
        else ((false, TestFailed), [Subprocess FfmpegVersion])
    | RunRaises Py.TimeoutExpired => ((false, TimedOut), [Subprocess FfmpegVersion])
    | RunRaises _ => ((false, CheckError), [Subprocess FfmpegVersion])
    end.

(** *** The builtin [eval] on a frame-rate text ([py_eval] here: [eval] is
    reserved in Rocq)

    [eval] is modelled on the texts of the form [num/den] with two decimal
    integer literals (a literal with a leading zero is valid Python only
    when it is all zeros) of at most 4300 digits each, the length from
    which an interpreter may refuse a literal; on them it is Python's true
    division of two ints, which raises on a zero divisor and on a quotient
    too large for a float.  On any other text the outcome is whatever the
    environment's [eval_rest] says: nothing is assumed about it. *)

Inductive EvalResult :=
| Value (v : Q)
| Raises (e : Py.exn).

Definition digit_of (c : ascii) : option Z :=
  let n := Z.of_nat (nat_of_ascii c) in
  if (48 <=? n) && (n <=? 57) then Some (n - 48) else None.

Fixpoint digits_value (s : string) (acc : Z) : option Z :=
  match s with
  | EmptyString => Some acc
  | String c s' =>
      match digit_of c with
      | Some d => digits_value s' (10 * acc + d)
      | None => None
      end
  end.

Definition int_literal (s : string) : option Z :=
  match s with
  | EmptyString => None
  | String c s' =>
      if Ascii.eqb c "0" then
        match digits_value s' 0 with
        | Some 0 => Some 0
        | _ => None
        end
      else digits_value s 0
  end.

Fixpoint split_slash (s : string) : option (string * string) :=
  match s with
  | EmptyString => None
  | String c s' =>
      if Ascii.eqb c "/" then Some (EmptyString, s')
      else
        match split_slash s' with
        | Some (a, b) => Some (String c a, b)
        | None => None
        end
  end.

Definition short_literal (s : string) : bool := (String.length s <=? 4300)%nat.

Definition parse_ratio (s : string) : option (Z * Z) :=
  match split_slash s with
  | Some (a, b) =>
      if short_literal a && short_literal b then
        match int_literal a, int_literal b with
        | Some n, Some d => Some (n, d)
        | _, _ => None
        end
      else None
  | None => None
  end.

Definition py_eval (eval_rest : string -> EvalResult) (s : string) : EvalResult :=
  match parse_ratio s with
  | Some (n, d) =>
      match Py.truediv (inject_Z n) (inject_Z d) with
      | inl e => Raises e
      | inr v => if Py.too_large n d then Raises Py.OverflowError else Value v
      end
  | None => eval_rest s
  end.

(** *** The output of ffprobe, as [json.loads] returns it *)

(** A numeric field read through [float(d.get(k, 0))] or [int(d.get(k, 0))]. *)
Inductive Field (A : Type) :=
| Absent                       (* key missing: the default 0 is used *)
| Malformed                    (* the conversion raises ValueError *)
| Present (v : A).
Arguments Absent {A}.
Arguments Malformed {A}.
Arguments Present {A} v.

Record Stream := {
  codec_type : option string;
  codec_name : option string;
  width : option Z;
  height : option Z;
  r_frame_rate : option string
}.

Record ProbeData := {
  format_duration : Field Q;
  format_size : Field Z;
  streams : list Stream
}.

(** The result of running ffprobe: [stdout] is [None] when [json.loads]
    raises. *)
Inductive ProbeResult :=
| ProbeRaises (e : Py.exn)
| ProbeExit (returncode : Z) (stdout : option ProbeData).

Record VideoInfo := {
  duration : Q;
  size : Z;
  video_codec : option string;      (* [None] is Python's None *)
  audio_codec : option string;
  vwidth : option Z;
  vheight : option Z;
  fps : Q
}.

Definition is_type (ty : string) (s : Stream) : bool :=
  match codec_type s with
  | Some t => String.eqb t ty
  | None => false
  end.

(** The [for stream in ...] loop: it keeps the first video stream and
    the first audio stream. *)
Definition unset (s : option Stream) : bool :=
  match s with
  | None => true
  | Some _ => false
  end.

Fixpoint find_streams (l : list Stream) (video_stream audio_stream : option Stream)
  : option Stream * option Stream :=
  match l with
  | [] => (video_stream, audio_stream)
  | stream :: l' =>
      if is_type "video" stream && unset video_stream then
        find_streams l' (Some stream) audio_stream
      else if is_type "audio" stream && unset audio_stream then
        find_streams l' video_stream (Some stream)
      else find_streams l' video_stream audio_stream
  end.

Definition read_field {A} (default : A) (f : Field A) : Py.exn + A :=
  match f with
  | Absent => inr default
  | Malformed => inl Py.ValueError
  | Present v => inr v
  end.

(** The body of the [try] of [get_video_info]; [inl] is an exception. *)
Definition get_video_info_body (eval_rest : string -> EvalResult) (r : ProbeResult)
  : Py.exn + option VideoInfo :=
  match r with
  | ProbeRaises e => inl e
  | ProbeExit returncode stdout =>
      if returncode =? 0 then
        match stdout with
        | None => inl Py.ValueError
        | Some data =>
            match read_field 0%Q (format_duration data) with
            | inl e => inl e
            | inr duration =>
                match read_field 0 (format_size data) with
                | inl e => inl e
                | inr size =>
                    let '(video_stream, audio_stream) :=
                      find_streams (streams data) None None in
                    let fps :=
                      match video_stream with
                      | Some v =>
                          py_eval eval_rest
                            (match r_frame_rate v with
                             | Some s => s
                             | None => "0/1"%string
                             end)
                      | None => Value 0
                      end in
                    match fps with
                    | Raises e => inl e
                    | Value fps =>
                        inr (Some
                          {| duration := duration;
                             size := size;
                             video_codec :=
                               match video_stream with
                               | Some v => codec_name v
                               | None => Some "unknown"%string
                               end;
                             audio_codec :=
                               match audio_stream with
                               | Some a => codec_name a
                               | None => Some "none"%string
                               end;
                             vwidth :=
                               match video_stream with
                               | Some v => width v
                               | None => Some 0
                               end;
                             vheight :=
                               match video_stream with
                               | Some v => height v
                               | None => Some 0
                               end;
                             fps := fps |})
                    end
                end
            end
        end
      else inr None
  end.

(** [get_video_info]: every exception is caught and turned into [None]. *)
Definition get_video_info (eval_rest : string -> EvalResult) (r : ProbeResult)
  : option VideoInfo :=
  match get_video_info_body eval_rest r with
  | inl _ => None
  | inr info => info
  end.

End FFmpegValidator.

(* ------------------------------------------------------------------ *)
(** ** [SplitWorker] *)

Module SplitWorker.

Import FFmpegValidator.

(** The attributes set by [__init__]; [should_stop] starts [False] and
    is threaded through [run] below. *)
Record Worker := {
  input_file : string;
  clip_duration : Z;
  num_clips : Z;
  output_dir : string;
  overlap : Z;
  use_copy : bool;
  quality : string
}.

(** The result of one clip's [subprocess.run] followed by the look at the
    output file: [output] is the size of the file at [output_path], or
    [None] when [os.path.exists] is false. *)
Inductive EncodeResult :=
| Raised (e : Py.exn)
| Returned (returncode : Z) (output : option Z).

(** Where [run] reads [self.should_stop]: at the top of iteration [i],
    and once after the loop. *)
Inductive Checkpoint :=
| AtIteration (i : Z)
| AfterLoop.

(** Everything outside the worker.  [stop_called c] says that the owner
    of the worker called [stop()] after the previous read of the flag and
    before the read at [c]; the flag is never cleared. *)
Record Env := {
  which_ffmpeg : bool;
  ffmpeg_version : RunResult;
  eval_rest : string -> EvalResult;
  ffprobe : ProbeResult;
  makedirs : option Py.exn;
  encoder : Z -> EncodeResult;
  stop_called : Checkpoint -> bool
}.

(** [quality_settings.get(self.quality, quality_settings['medium'])]. *)
Definition quality_settings (q : string) : Codec :=
  if String.eqb q "fast" then Libx264 "ultrafast" 28
  else if String.eqb q "high" then Libx264 "slow" 18
  else Libx264 "medium" 23.

Definition codec (w : Worker) : Codec :=
  if use_copy w then StreamCopy else quality_settings (quality w).

(** *** Calculate clips (lines 137-145) *)

Definition actual_clips (w : Worker) (total_duration : Q) : Py.exn + Z :=
  if 0 <? overlap w then
    match Py.truediv (total_duration + inject_Z (overlap w))
                     (inject_Z (clip_duration w - overlap w)) with
    | inl e => inl e
    | inr q => inr (Z.min (num_clips w) (Py.int q))
    end
  else
    match Py.truediv total_duration (inject_Z (clip_duration w)) with
    | inl e => inl e
    | inr q =>
        let max_possible_clips := Py.int q in
        let max_possible_clips :=
          if Py.lt 0 (Py.mod_ total_duration (inject_Z (clip_duration w)))
          then max_possible_clips + 1 else max_possible_clips in
        inr (Z.min (num_clips w) max_possible_clips)
    end.

(** *** Calculate timing (lines 160-165) *)

Definition clip_start (w : Worker) (i : Z) : Z :=
  if 0 <? overlap w then Z.max 0 (i * (clip_duration w - overlap w))
  else i * clip_duration w.

Definition clip_end (w : Worker) (total_duration : Q) (start : Z) : Q :=
  Py.min (inject_Z (start + clip_duration w)) total_duration.

(** [int(((i + 1) / actual_clips) * 100)], in exact arithmetic; the
    divisor is at least 1 wherever the loop body runs. *)
Definition progress_percent (i actual_clips : Z) : Z :=
  Py.int ((inject_Z (i + 1) / inject_Z actual_clips) * 100)%Q.

(** The verification of the output file (line 221). *)
Definition verified (output : option Z) : option Z :=
  match output with
  | Some size => if 1024 <? size then Some size else None
  | None => None
  end.

(** *** The clip loop (lines 153-237)

    [remaining] counts the indices of [range(actual_clips)] still to
    visit and [i] is the current one.  The result is the flag, the value
    of [clips_created] and what was done, in order. *)
Fixpoint clip_loop (env : Env) (w : Worker) (total_duration : Q) (actual_clips : Z)
    (remaining : nat) (i : Z) (should_stop : bool) (clips_created : Z)
  : bool * Z * list Action :=
  match remaining with
  | O => (should_stop, clips_created, [])
  | S remaining' =>
      let should_stop := should_stop || stop_called env (AtIteration i) in
      if should_stop then
        (should_stop, clips_created, [Emit (status_update Stopping)])
      else
        let start := clip_start w i in
        let end_ := clip_end w total_duration start in
        if Py.ge (inject_Z start) total_duration then
          (should_stop, clips_created, [])
        else
          let clip_duration_actual := (end_ - inject_Z start)%Q in
          if Py.lt clip_duration_actual 1 then
            clip_loop env w total_duration actual_clips remaining' (i + 1)
                      should_stop clips_created
          else
            let attempt :=
              [Emit (status_update (Processing (i + 1) actual_clips start end_));
               Subprocess (FfmpegClip (i + 1) start clip_duration_actual (codec w))] in
            let break e :=
              (should_stop, clips_created, attempt ++ [Emit (error e)]) in
            match encoder env i with
            | Raised Py.TimeoutExpired => break (ClipTimeout (i + 1))
            | Raised e => break (ClipFailed (i + 1) (Other e))
            | Returned returncode output =>
                if negb (returncode =? 0) then
                  break (ClipFailed (i + 1) FfmpegStderr)
                else
                  match verified output with
                  | None => break (ClipFailed (i + 1) MissingOrTooSmall)
                  | Some size =>
                      let '(stop', created', rest) :=
                        clip_loop env w total_duration actual_clips remaining'
                                  (i + 1) should_stop (clips_created + 1) in
                      (stop', created',
                       attempt
                         ++ Emit (clip_completed (i + 1) size)
                         :: Emit (progress (progress_percent i actual_clips))
                         :: rest)
                  end
            end
  end.

(** *** After the loop (lines 239-245) *)
Definition report (env : Env) (w : Worker) (should_stop : bool) (clips_created : Z)
  : list Action :=
  let should_stop := should_stop || stop_called env AfterLoop in
  if negb should_stop && (0 <? clips_created) then
    [Emit (status_update (Success clips_created));
     Emit (finished (output_dir w) clips_created)]
  else if clips_created =? 0 then
    [Emit (error NoClips)]
  else
    [Emit (status_update (Stopped clips_created))].

(** *** Before the loop (lines 111-151) *)
Inductive Setup :=
| Abort (did : list Action)
| Ready (total_duration : Q) (actual_clips : Z) (did : list Action).

Definition setup (env : Env) (w : Worker) : Setup :=
  let '((ffmpeg_ok, _), checked) :=
    check_ffmpeg (which_ffmpeg env) (ffmpeg_version env) in
  if negb ffmpeg_ok then
    Abort (checked ++ [Emit (error FfmpegValidationFailed)])
  else
    let probing :=
      checked ++ [Emit (status_update Analyzing); Subprocess (Ffprobe (input_file w))] in
    match get_video_info (eval_rest env) (ffprobe env) with
    | None => Abort (probing ++ [Emit (error AnalyzeFailed)])
    | Some video_info =>
        let total_duration := duration video_info in
        if Qle_bool total_duration 0 then
          Abort (probing ++ [Emit (error InvalidDuration)])
        else
          let prepared :=
            probing ++ [Emit (status_update (VideoSummary total_duration));
                        Makedirs (output_dir w)] in
          match makedirs env with
          | Some e => Abort (prepared ++ [Emit (error (Unexpected e))])
          | None =>
              match actual_clips w total_duration with
              | inl e => Abort (prepared ++ [Emit (error (Unexpected e))])
              | inr n =>
                  if n =? 0 then Abort (prepared ++ [Emit (error TooShort)])
                  else Ready total_duration n
                             (prepared ++ [Emit (status_update (Creating n))])
              end
          end
    end.

(** *** [run] *)
Definition run (env : Env) (w : Worker) : list Action :=
  match setup env w with
  | Abort did => did
  | Ready total_duration n did =>
      let '(should_stop, clips_created, looped) :=
        clip_loop env w total_duration n (Z.to_nat n) 0 false 0 in
      did ++ looped ++ report env w should_stop clips_created
  end.

End SplitWorker.

(* ------------------------------------------------------------------ *)
(** ** [VideoSplitterApp.start_splitting] *)

Module VideoSplitterApp.

Import FFmpegValidator.

(** The widgets and attributes [start_splitting] reads. *)
Record App := {
  input_file : option string;
  output_dir : option string;
  duration_input : Z;            (* QSpinBox, range 1..3600 *)
  num_clips_input : Z;           (* QSpinBox, range 1..1000 *)
  overlap_input : Z;             (* QSpinBox, range 0..60 *)
  mode_index : Z;                (* mode_combo.currentIndex() *)
  quality_lower : string         (* quality_combo.currentText().lower() *)
}.

(** What surrounds the application when the button is pressed. *)
Record Desk := {
  path_exists : bool;            (* os.path.exists(self.input_file) *)
  which_ffmpeg : bool;
  ffmpeg_version : RunResult;
  free_bytes : option Q;         (* [None]: shutil.disk_usage raises *)
  reply_no : bool;               (* the answer to "Continue anyway?" *)
  timestamp : string;            (* now().strftime("%Y%m%d_%H%M%S") *)
  path_join : string -> string -> string
                                 (* os.path.join: posixpath's or ntpath's *)
}.

Inductive MessageBox :=
| NoFile
| NoFolder
| FileMissing
| FFmpegErrorBox (msg : CheckMsg)
| InvalidOverlap
| LowDiskSpace.

Inductive Step :=
| Did (a : Action)
| Box (b : MessageBox)
| StartWorker (w : SplitWorker.Worker).

(** Python truth of a path attribute: [None] and the empty string are
    false. *)
Definition truthy (p : option string) : option string :=
  match p with
  | Some EmptyString => None
  | _ => p
  end.

(** [os.path.join(self.output_dir, f"clips_{clip_duration}s_{timestamp}")]. *)
Definition output_subdir (join : string -> string -> string) (dir : string)
    (clip_duration : Z) (stamp : string) : string :=
  join dir
       ("clips_" ++ DecimalString.NilZero.string_of_int (Z.to_int clip_duration)
          ++ "s_" ++ stamp)%string.

Definition low_space (d : Desk) : bool :=
  match free_bytes d with
  | Some free => Py.lt (free / inject_Z (1024 ^ 3)) 1
  | None => false
  end.

Definition start_splitting (a : App) (d : Desk) : list Step :=
  match truthy (input_file a) with
  | None => [Box NoFile]
  | Some file =>
      match truthy (output_dir a) with
      | None => [Box NoFolder]
      | Some dir =>
          if negb (path_exists d) then [Box FileMissing]
          else
            let '((ffmpeg_ok, ffmpeg_msg), checked) :=
              check_ffmpeg (which_ffmpeg d) (ffmpeg_version d) in
            if negb ffmpeg_ok then map Did checked ++ [Box (FFmpegErrorBox ffmpeg_msg)]
            else
              let clip_duration := duration_input a in
              let num_clips := num_clips_input a in
              let overlap := overlap_input a in
              let use_copy := mode_index a =? 0 in
              let quality := quality_lower a in
              if clip_duration <=? overlap then map Did checked ++ [Box InvalidOverlap]
              else if low_space d && reply_no d then map Did checked ++ [Box LowDiskSpace]
              else
                map Did checked
                  ++ (if low_space d then [Box LowDiskSpace] else [])
                  ++ [StartWorker
                        {| SplitWorker.input_file := file;
                           SplitWorker.clip_duration := clip_duration;
                           SplitWorker.num_clips := num_clips;
                           SplitWorker.output_dir :=
                             output_subdir (path_join d) dir clip_duration
                                           (timestamp d);
                           SplitWorker.overlap := overlap;
                           SplitWorker.use_copy := use_copy;
                           SplitWorker.quality := quality |}]
      end
  end.

End VideoSplitterApp.

(* ------------------------------------------------------------------ *)
(** ** Reading a trace *)

Module Trace.

Definition signals (l : list Action) : list Signal :=
  flat_map (fun a => match a with Emit s => [s] | _ => [] end) l.

Definition commands (l : list Action) : list Command :=
  flat_map (fun a => match a with Subprocess c => [c] | _ => [] end) l.

(** The clip invocations, in order. *)
Definition clips (l : list Action) : list Command :=
  filter (fun c => match c with FfmpegClip _ _ _ _ => true | _ => false end)
         (commands l).

(** The values a consumer of [progress] sees, in order. *)
Definition percents (l : list Action) : list Z :=
  flat_map (fun s => match s with progress p => [p] | _ => [] end) (signals l).

(** The clip numbers a consumer of [clip_completed] sees, in order. *)
Definition completed (l : list Action) : list Z :=
  flat_map (fun s => match s with clip_completed k _ => [k] | _ => [] end) (signals l).

Definition errors (l : list Action) : list ErrorMsg :=
  flat_map (fun s => match s with error e => [e] | _ => [] end) (signals l).

(** The [clips_created] argument of every [finished]. *)
Definition finishes (l : list Action) : list Z :=
  flat_map (fun s => match s with finished _ c => [c] | _ => [] end) (signals l).

(** Clip number [k] was handed to the encoder. *)
Definition attempted (l : list Action) (k : Z) : Prop :=
  exists ss t cd, In (Subprocess (FfmpegClip k ss t cd)) l.

End Trace.

(* ------------------------------------------------------------------ *)
(** ** The windows of the clip loop *)

Module Plan.

Import SplitWorker.

Record ClipSpec := {
  index : Z;                 (* the clip number, [i + 1] *)
  startSeconds : Z;
  endSeconds : Q
}.

(** The window computed at index [i] (lines 160-165). *)
Definition window (w : Worker) (total_duration : Q) (i : Z) : ClipSpec :=
  {| index := i + 1;
     startSeconds := clip_start w i;
     endSeconds := clip_end w total_duration (clip_start w i) |}.

Definition past_end (total_duration : Q) (c : ClipSpec) : bool :=
  Py.ge (inject_Z (startSeconds c)) total_duration.

Definition too_short (c : ClipSpec) : bool :=
  Py.lt (endSeconds c - inject_Z (startSeconds c)) 1.

(** Lines 154-174 of [run] with the stop check and the encoder taken
    out: the windows the loop hands to the encoder when nothing stops it.
    [clip_loop_clips_prefix] below ties it to [clip_loop]. *)
Fixpoint plan_loop (w : Worker) (total_duration : Q) (remaining : nat) (i : Z)
  : list ClipSpec :=
  match remaining with
  | O => []
  | S remaining' =>
      let c := window w total_duration i in
      if past_end total_duration c then []
      else if too_short c then plan_loop w total_duration remaining' (i + 1)
      else c :: plan_loop w total_duration remaining' (i + 1)
  end.

Definition plan (w : Worker) (total_duration : Q) : list ClipSpec :=
  match actual_clips w total_duration with
  | inr n => plan_loop w total_duration (Z.to_nat n) 0
  | inl _ => []
  end.

(** The command the loop builds for a window. *)
Definition command (w : Worker) (c : ClipSpec) : Command :=
  FfmpegClip (index c) (startSeconds c)
             (endSeconds c - inject_Z (startSeconds c)) (codec w).

(** [range]: the indices [i, i+1, ..., i+n-1]. *)
Fixpoint range (i : Z) (n : nat) : list Z :=
  match n with
  | O => []
  | S n' => i :: range (i + 1) n'
  end.

Fixpoint take_while {A} (f : A -> bool) (l : list A) : list A :=
  match l with
  | [] => []
  | x :: l' => if f x then x :: take_while f l' else []
  end.

(** The stride between two starts. *)
Definition stride (w : Worker) : Z :=
  if 0 <? overlap w then clip_duration w - overlap w else clip_duration w.

End Plan.

(* ------------------------------------------------------------------ *)
(** ** One iteration of the clip loop, classified *)

Module Iteration.

Import SplitWorker.

Inductive Outcome :=
| SawStop                     (* the flag was set: "Stopping...", break *)
| PastEnd                     (* start >= total_duration: break *)
| Skipped                     (* shorter than a second: continue *)
| Failed (e : ErrorMsg)       (* an except branch: error, break *)
| Done (size : Z).            (* verified: counted, next iteration *)

Definition outcome (env : Env) (w : Worker) (total_duration : Q) (i : Z)
    (should_stop : bool) : Outcome :=
  if should_stop || stop_called env (AtIteration i) then SawStop
  else
    let c := Plan.window w total_duration i in
    if Plan.past_end total_duration c then PastEnd
    else if Plan.too_short c then Skipped
    else
      match encoder env i with
      | Raised Py.TimeoutExpired => Failed (ClipTimeout (i + 1))
      | Raised e => Failed (ClipFailed (i + 1) (Other e))
      | Returned returncode output =>
          if negb (returncode =? 0) then Failed (ClipFailed (i + 1) FfmpegStderr)
          else
            match verified output with
            | None => Failed (ClipFailed (i + 1) MissingOrTooSmall)
            | Some size => Done size
            end
      end.

(** What the loop does before it waits for the encoder. *)
Definition attempt (w : Worker) (total_duration : Q) (actual_clips i : Z)
  : list Action :=
  let c := Plan.window w total_duration i in
  [Emit (status_update
     (Processing (i + 1) actual_clips (Plan.startSeconds c) (Plan.endSeconds c)));
   Subprocess (Plan.command w c)].

(** The size [clip_completed] reports for index [k]. *)
Definition size_at (env : Env) (k : Z) : Z :=
  match encoder env k with
  | Returned _ (Some size) => size
  | _ => 0
  end.

(** A whole successful iteration. *)
Definition success (env : Env) (w : Worker) (total_duration : Q)
    (actual_clips k : Z) : list Action :=
  attempt w total_duration actual_clips k
    ++ [Emit (clip_completed (k + 1) (size_at env k));
        Emit (progress (progress_percent k actual_clips))].

(** How the loop is left. *)
Inductive Ending :=
| Exhausted                           (* the range ran out, or start >= duration *)
| Cancel                              (* the flag was seen *)
| Fail (j : Z) (e : ErrorMsg).        (* the encoder failed at index [j] *)

Definition ending_trace (w : Worker) (total_duration : Q) (actual_clips : Z)
    (e : Ending) : list Action :=
  match e with
  | Exhausted => []
  | Cancel => [Emit (status_update Stopping)]
  | Fail j msg => attempt w total_duration actual_clips j ++ [Emit (error msg)]
  end.

Definition is_cancel (e : Ending) : bool :=
  match e with
  | Cancel => true
  | _ => false
  end.

(** The encoder result that lets a clip count. *)
Definition passes (env : Env) (k : Z) : Prop :=
  exists size, encoder env k = Returned 0 (Some size) /\ 1024 < size.

End Iteration.

(* ------------------------------------------------------------------ *)
(** ** Concrete jobs *)

Module Scenario.

Import FFmpegValidator SplitWorker.

Definition video (rate : string) : Stream :=
  {| codec_type := Some "video"%string;
     codec_name := Some "h264"%string;
     width := Some 1920;
     height := Some 1080;
     r_frame_rate := Some rate |}.

Definition probe (total_duration : Q) (rate : string) : ProbeResult :=
  ProbeExit 0 (Some {| format_duration := Present total_duration;
                       format_size := Present 1048576;
                       streams := [video rate] |}).

(** No scenario hands [eval] a text outside [num/den]. *)
Definition no_other_text (s : string) : EvalResult := Raises Py.SyntaxError.

Definition env (total_duration : Q) (enc : Z -> EncodeResult)
    (stops : Checkpoint -> bool) : Env :=
  {| which_ffmpeg := true;
     ffmpeg_version := RunExit 0;
     eval_rest := no_other_text;
     ffprobe := probe total_duration "30/1";
     makedirs := None;
     encoder := enc;
     stop_called := stops |}.

Definition worker (L N O : Z) : Worker :=
  {| input_file := "in.mp4";
     clip_duration := L;
     num_clips := N;
     output_dir := "out";
     overlap := O;
     use_copy := true;
     quality := "medium" |}.

(** Every invocation exits 0 and leaves a 2 KiB file. *)
Definition all_ok (i : Z) : EncodeResult := Returned 0 (Some 2048).

(** The invocation at index [k] exits with code 1. *)
Definition fails_at (k : Z) (i : Z) : EncodeResult :=
  if i =? k then Returned 1 None else Returned 0 (Some 2048).

(** The invocation at index [k] exits 0 and leaves a file of [size] bytes. *)
Definition small_at (k size : Z) (i : Z) : EncodeResult :=
  if i =? k then Returned 0 (Some size) else Returned 0 (Some 2048).

Definition never (c : Checkpoint) : bool := false.

(** [stop()] is called while iteration [k - 1] runs (before the loop
    when [k = 0]). *)
Definition before_iteration (k : Z) (c : Checkpoint) : bool :=
  match c with
  | AtIteration i => i =? k
  | AfterLoop => false
  end.

(** [stop()] is called after the last read of the flag in the loop. *)
Definition after_loop (c : Checkpoint) : bool :=
  match c with
  | AtIteration _ => false
  | AfterLoop => true
  end.

Definition app (L N O : Z) : VideoSplitterApp.App :=
  {| VideoSplitterApp.input_file := Some "in.mp4"%string;
     VideoSplitterApp.output_dir := Some "out"%string;
     VideoSplitterApp.duration_input := L;
     VideoSplitterApp.num_clips_input := N;
     VideoSplitterApp.overlap_input := O;
     VideoSplitterApp.mode_index := 0;
     VideoSplitterApp.quality_lower := "medium" |}.

Definition desk : VideoSplitterApp.Desk :=
  {| VideoSplitterApp.path_exists := true;
     VideoSplitterApp.which_ffmpeg := true;
     VideoSplitterApp.ffmpeg_version := RunExit 0;
     VideoSplitterApp.free_bytes := Some (inject_Z (50 * 1024 ^ 3));
     VideoSplitterApp.reply_no := false;
     VideoSplitterApp.timestamp := "20240101_120000";
     VideoSplitterApp.path_join := Py.posix_join |}.

End Scenario.

(* ------------------------------------------------------------------ *)
(** ** [ModernButton.adjust_color] *)

Module ModernButton.

(** [color.lstrip('#')]. *)
Fixpoint lstrip_hash (color : string) : string :=
  match color with
  | String c rest => if Ascii.eqb c "#" then lstrip_hash rest else color
  | EmptyString => color
  end.

(** A slice [color[i:i+2]]: at most two characters. *)
Inductive Slice :=
| Empty
| One (a : ascii)
| Two (a b : ascii).

Definition slice2 (color : string) (i : nat) : Slice :=
  match substring i 2 color with
  | String a (String b _) => Two a b
  | String a EmptyString => One a
  | EmptyString => Empty
  end.

Definition hex_digit (c : ascii) : option Z :=
  let n := Z.of_nat (nat_of_ascii c) in
  if (48 <=? n) && (n <=? 57) then Some (n - 48)
  else if (97 <=? n) && (n <=? 102) then Some (n - 87)
  else if (65 <=? n) && (n <=? 70) then Some (n - 55)
  else None.

(** The characters [int] strips as white space next to one hexadecimal
    digit, among the code points below 256: tab to carriage return, space,
    next-line and no-break space.  (The separators 28-31 are stripped only
    from a text with a character above 127, which a slice of a digit and
    one of them is not.) *)
Definition is_space (c : ascii) : bool :=
  let n := Z.of_nat (nat_of_ascii c) in
  ((9 <=? n) && (n <=? 13)) || (n =? 32) || (n =? 133) || (n =? 160).

(** [int(s, 16)] on a slice.  Besides two hexadecimal digits Python accepts
    one digit alone, a digit after a sign, and a digit next to white
    space; everything else raises ValueError. *)
Definition int16 (s : Slice) : Py.exn + Z :=
  match s with
  | Empty => inl Py.ValueError
  | One a =>
      match hex_digit a with
      | Some x => inr x
      | None => inl Py.ValueError
      end
  | Two a b =>
      match hex_digit a, hex_digit b with
      | Some x, Some y => inr (16 * x + y)
      | None, Some y =>
          if is_space a || Ascii.eqb a "+" then inr y
          else if Ascii.eqb a "-" then inr (- y)
          else inl Py.ValueError
      | Some x, None => if is_space b then inr x else inl Py.ValueError
      | None, None => inl Py.ValueError
      end
  end.

(** [max(0, min(255, c + amount))]. *)
Definition clamp (c amount : Z) : Z := Z.max 0 (Z.min 255 (c + amount)).

Definition hex_char (d : Z) : ascii :=
  if d <? 10 then ascii_of_nat (Z.to_nat (48 + d))
  else ascii_of_nat (Z.to_nat (87 + d)).

(** [f'{c:02x}'] for [0 <= c <= 255], the only values [adjust_color]
    formats: two lower-case hexadecimal digits. *)
Definition format_02x (c : Z) : string :=
  String (hex_char (c / 16)) (String (hex_char (c mod 16)) EmptyString).

Definition adjust_color (color : string) (amount : Z) : Py.exn + string :=
  let color := lstrip_hash color in
  match int16 (slice2 color 0) with
  | inl e => inl e
  | inr r =>
      match int16 (slice2 color 2) with
      | inl e => inl e
      | inr g =>
          match int16 (slice2 color 4) with
          | inl e => inl e
          | inr b =>
              inr (String "#" (format_02x (clamp r amount)
                               ++ format_02x (clamp g amount)
                               ++ format_02x (clamp b amount)))%string
          end
      end
  end.

(** Reading a colour written as [#rrggbb]: exactly one [#] and six
    hexadecimal digits. *)
Definition parse_color (s : string) : option (Z * Z * Z) :=
  match s with
  | String h (String r1 (String r2 (String g1 (String g2
      (String b1 (String b2 EmptyString)))))) =>
      if Ascii.eqb h "#" then
        match hex_digit r1, hex_digit r2, hex_digit g1, hex_digit g2,
              hex_digit b1, hex_digit b2 with
        | Some r1, Some r2, Some g1, Some g2, Some b1, Some b2 =>
            Some (16 * r1 + r2, 16 * g1 + g2, 16 * b1 + b2)
        | _, _, _, _, _, _ => None
        end
      else None
  | _ => None
  end.

End ModernButton.

(* ------------------------------------------------------------------ *)
(** ** How a run ends *)

Module Ending.

(** The signals that tell the owner of a worker that the job is over:
    [finished], [error], and the status "Operation stopped. ...". *)
Definition closing (s : Signal) : bool :=
  match s with
  | finished _ _ => true
  | error _ => true
  | status_update (Stopped _) => true
  | _ => false
  end.

(** The closing signals of a trace, in order. *)
Definition closings (l : list Action) : list Signal :=
  filter closing (Trace.signals l).

(** The clip number of an encode command. *)
Definition number (c : Command) : Z :=
  match c with
  | FfmpegClip k _ _ _ => k
  | _ => 0
  end.

(** The [-ss] and [-t] arguments of an encode command. *)
Definition seek (c : Command) : Z :=
  match c with
  | FfmpegClip _ ss _ _ => ss
  | _ => 0
  end.

Definition length_of (c : Command) : Q :=
  match c with
  | FfmpegClip _ _ t _ => t
  | _ => 0
  end.

(** The directories a run creates. *)
Definition made (l : list Action) : list string :=
  flat_map (fun a => match a with Makedirs d => [d] | _ => [] end) l.

End Ending.

(* ------------------------------------------------------------------ *)
(** ** The output file of a clip (line 174)

    [os.path.join(self.output_dir, f"clip_{i+1:03d}.mp4")]: every clip of
    a run goes to the same directory, under a name made from its index. *)

Module ClipFile.

Fixpoint zeros (n : nat) : string :=
  match n with
  | O => EmptyString
  | S n' => String "0" (zeros n')
  end.

(** [f"{k:03d}"]: the decimal digits of [k], filled with zeros on the left
    to three characters, of which a minus sign is one. *)
Definition format_03d (k : Z) : string :=
  let digits := DecimalString.NilZero.string_of_uint (N.to_uint (Z.abs_N k)) in
  if k <? 0 then String "-" (zeros (2 - String.length digits) ++ digits)
  else (zeros (3 - String.length digits) ++ digits)%string.

(** The file name of the clip numbered [clip_number], which is [i + 1] at
    index [i]: the number the encode command carries. *)
Definition clip_name (clip_number : Z) : string :=
  ("clip_" ++ format_03d clip_number ++ ".mp4")%string.

(** Reading a name back: the decimal number between [clip_] and [.mp4]. *)
Definition strip_prefix (s : string) : option string :=
  match s with
  | String "c" (String "l" (String "i" (String "p" (String "_" rest)))) => Some rest
  | _ => None
  end.

Fixpoint chop_suffix (suffix s : string) : option string :=
  if String.eqb s suffix then Some EmptyString
  else
    match s with
    | EmptyString => None
    | String c s' => option_map (String c) (chop_suffix suffix s')
    end.

Definition clip_number_of (name : string) : option Z :=
  match strip_prefix name with
  | None => None
  | Some rest =>
      match chop_suffix ".mp4" rest with
      | None => None
      | Some digits =>
          option_map Z.of_uint (DecimalString.NilZero.uint_of_string digits)
      end
  end.

End ClipFile.

(* ------------------------------------------------------------------ *)
(** ** The window: its controls, and the slots of the worker's signals
    (lines 544-557 and 594-751)

    The window is the part of [VideoSplitterApp] that the handlers write:
    the enabled state of the controls, the progress bar, the status
    label, the log, the timer, the dialogs opened so far.  Three facts of
    Qt are taken as given.  The signals of the worker thread reach the
    slots of the window one at a time and in the order of emission; a
    slot runs only when [run] emits its signal; and
    [QProgressBar.setValue], with the default range 0..100, ignores a
    value outside the range.  A modal [QMessageBox] is the last statement
    of the handler that opens it, so a signal delivered while the box is
    open finds the state the handler left. *)

Module Ui.

Import FFmpegValidator VideoSplitterApp.

(** The enabled state of the nine widgets of [set_controls_enabled]. *)
Record Controls := {
  select_file_btn : bool;
  select_folder_btn : bool;
  start_btn : bool;
  stop_btn : bool;
  duration_input_enabled : bool;
  num_clips_input_enabled : bool;
  overlap_input_enabled : bool;
  mode_combo_enabled : bool;
  quality_combo_enabled : bool
}.

Definition set_controls_enabled (enabled : bool) : Controls :=
  {| select_file_btn := enabled;
     select_folder_btn := enabled;
     start_btn := enabled;
     stop_btn := negb enabled;
     duration_input_enabled := enabled;
     num_clips_input_enabled := enabled;
     overlap_input_enabled := enabled;
     mode_combo_enabled := enabled;
     quality_combo_enabled := enabled |}.

(** The text of [status_label]: "Ready", or the text of a status. *)
Inductive Label :=
| LabelReady
| LabelStatus (msg : StatusMsg).

(** The lines of the log, by format string. *)
Inductive LogMsg :=
| LogCheck (ok : bool) (msg : CheckMsg)       (* the mark and ffmpeg_msg *)
| LogStarting                                 (* "Starting video splitting process..." *)
| LogStopRequested                            (* "Stop requested..." *)
| LogOutputFolder (output_dir : string)       (* "Output folder: ..." *)
| LogError (msg : ErrorMsg)                   (* "Error: ..." *)
| LogStatus (msg : StatusMsg)                 (* the text of a status *)
| LogClip (clip_number size_bytes : Z).       (* "Clip n completed: ..." *)

Inductive Dialog :=
| Asked (b : MessageBox)                      (* the boxes of start_splitting *)
| FfmpegRequired (msg : CheckMsg)             (* QMessageBox.warning, at start-up *)
| SuccessBox (output_dir : string) (clips_created : Z)
| ErrorBox (msg : ErrorMsg).

(** [clock n] is the text of [datetime.now().strftime("%H:%M:%S")] at
    the [n]-th call of [log_message]. *)
Definition Clock := nat -> string.

Record Window := {
  controls : Controls;
  open_folder_btn : bool;
  progress_bar : Z;
  status_label : Label;
  log_text : list (string * LogMsg);
  logged : nat;                               (* calls of log_message so far *)
  ui_timer : bool;                            (* the timer is running *)
  last_output_dir : option string;
  worker : option SplitWorker.Worker;
  should_stop : bool;                         (* self.worker.should_stop *)
  dialogs : list Dialog
}.

Definition log_message (clock : Clock) (message : LogMsg) (ui : Window) : Window :=
  {| controls := controls ui;
     open_folder_btn := open_folder_btn ui;
     progress_bar := progress_bar ui;
     status_label := status_label ui;
     log_text := log_text ui ++ [(clock (logged ui), message)];
     logged := S (logged ui);
     ui_timer := ui_timer ui;
     last_output_dir := last_output_dir ui;
     worker := worker ui;
     should_stop := should_stop ui;
     dialogs := dialogs ui |}.

Definition open_dialog (box : Dialog) (ui : Window) : Window :=
  {| controls := controls ui;
     open_folder_btn := open_folder_btn ui;
     progress_bar := progress_bar ui;
     status_label := status_label ui;
     log_text := log_text ui;
     logged := logged ui;
     ui_timer := ui_timer ui;
     last_output_dir := last_output_dir ui;
     worker := worker ui;
     should_stop := should_stop ui;
     dialogs := dialogs ui ++ [box] |}.

Definition setText (text : Label) (ui : Window) : Window :=
  {| controls := controls ui;
     open_folder_btn := open_folder_btn ui;
     progress_bar := progress_bar ui;
     status_label := text;
     log_text := log_text ui;
     logged := logged ui;
     ui_timer := ui_timer ui;
     last_output_dir := last_output_dir ui;
     worker := worker ui;
     should_stop := should_stop ui;
     dialogs := dialogs ui |}.

(** [progress_bar.setValue], the slot of [progress]. *)
Definition setValue (value : Z) (ui : Window) : Window :=
  if (0 <=? value) && (value <=? 100) then
    {| controls := controls ui;
       open_folder_btn := open_folder_btn ui;
       progress_bar := value;
       status_label := status_label ui;
       log_text := log_text ui;
       logged := logged ui;
       ui_timer := ui_timer ui;
       last_output_dir := last_output_dir ui;
       worker := worker ui;
       should_stop := should_stop ui;
       dialogs := dialogs ui |}
  else ui.

(** The window [init_variables] and [init_ui] build: every control is
    enabled but the Stop and the Open Output Folder buttons. *)
Definition init_ui : Window :=
  {| controls := {| select_file_btn := true;
                    select_folder_btn := true;
                    start_btn := true;
                    stop_btn := false;
                    duration_input_enabled := true;
                    num_clips_input_enabled := true;
                    overlap_input_enabled := true;
                    mode_combo_enabled := true;
                    quality_combo_enabled := true |};
     open_folder_btn := false;
     progress_bar := 0;
     status_label := LabelReady;
     log_text := [];
     logged := 0;
     ui_timer := false;
     last_output_dir := None;
     worker := None;
     should_stop := false;
     dialogs := [] |}.

Definition check_system_requirements (clock : Clock) (which : bool)
    (version : RunResult) (ui : Window) : Window :=
  let '((ffmpeg_ok, ffmpeg_msg), _) := check_ffmpeg which version in
  if ffmpeg_ok then log_message clock (LogCheck true ffmpeg_msg) ui
  else open_dialog (FfmpegRequired ffmpeg_msg)
                   (log_message clock (LogCheck false ffmpeg_msg) ui).

(** [VideoSplitterApp.__init__]. *)
Definition new_window (clock : Clock) (which : bool) (version : RunResult) : Window :=
  check_system_requirements clock which version init_ui.

(** The message boxes [start_splitting] opens, and the worker it
    creates. *)
Definition asked (steps : list Step) : list Dialog :=
  flat_map (fun s => match s with Box b => [Asked b] | _ => [] end) steps.

Fixpoint started (steps : list Step) : option SplitWorker.Worker :=
  match steps with
  | [] => None
  | StartWorker w :: _ => Some w
  | _ :: rest => started rest
  end.

(** What [start_splitting] does to the window: the boxes of its checks
    and, when it gets to the worker, lines 646-665. *)
Definition start_splitting (clock : Clock) (a : App) (d : Desk) (ui : Window)
  : Window :=
  let steps := VideoSplitterApp.start_splitting a d in
  match started steps with
  | None =>
      {| controls := controls ui;
         open_folder_btn := open_folder_btn ui;
         progress_bar := progress_bar ui;
         status_label := status_label ui;
         log_text := log_text ui;
         logged := logged ui;
         ui_timer := ui_timer ui;
         last_output_dir := last_output_dir ui;
         worker := worker ui;
         should_stop := should_stop ui;
         dialogs := dialogs ui ++ asked steps |}
  | Some w =>
      log_message clock LogStarting
        (setValue 0
           {| controls := set_controls_enabled false;
              open_folder_btn := open_folder_btn ui;
              progress_bar := progress_bar ui;
              status_label := status_label ui;
              log_text := [];
              logged := logged ui;
              ui_timer := true;
              last_output_dir := last_output_dir ui;
              worker := Some w;
              should_stop := false;
              dialogs := dialogs ui ++ asked steps |})
  end.

(** [running] is [self.worker.isRunning()]. *)
Definition stop_splitting (clock : Clock) (running : bool) (ui : Window) : Window :=
  match worker ui with
  | Some _ =>
      if running then
        setText (LabelStatus Stopping)
          (log_message clock LogStopRequested
             {| controls := controls ui;
                open_folder_btn := open_folder_btn ui;
                progress_bar := progress_bar ui;
                status_label := status_label ui;
                log_text := log_text ui;
                logged := logged ui;
                ui_timer := ui_timer ui;
                last_output_dir := last_output_dir ui;
                worker := worker ui;
                should_stop := true;
                dialogs := dialogs ui |})
      else ui
  | None => ui
  end.

Definition on_finished (clock : Clock) (output_dir : string) (clips_created : Z)
    (ui : Window) : Window :=
  open_dialog (SuccessBox output_dir clips_created)
    (log_message clock (LogOutputFolder output_dir)
       (log_message clock (LogStatus (Success clips_created))
          {| controls := set_controls_enabled true;
             open_folder_btn := true;
             progress_bar := progress_bar ui;
             status_label := status_label ui;
             log_text := log_text ui;
             logged := logged ui;
             ui_timer := false;
             last_output_dir := Some output_dir;
             worker := worker ui;
             should_stop := should_stop ui;
             dialogs := dialogs ui |})).

Definition on_error (clock : Clock) (error_msg : ErrorMsg) (ui : Window) : Window :=
  open_dialog (ErrorBox error_msg)
    (log_message clock (LogError error_msg)
       {| controls := set_controls_enabled true;
          open_folder_btn := open_folder_btn ui;
          progress_bar := progress_bar ui;
          status_label := status_label ui;
          log_text := log_text ui;
          logged := logged ui;
          ui_timer := false;
          last_output_dir := last_output_dir ui;
          worker := worker ui;
          should_stop := should_stop ui;
          dialogs := dialogs ui |}).

Definition on_status_update (clock : Clock) (status : StatusMsg) (ui : Window)
  : Window :=
  log_message clock (LogStatus status) (setText (LabelStatus status) ui).

Definition on_clip_completed (clock : Clock) (clip_number file_info : Z)
    (ui : Window) : Window :=
  log_message clock (LogClip clip_number file_info) ui.

(** [log_text.clear], the slot of the Clear Log button. *)
Definition clear_log (ui : Window) : Window :=
  {| controls := controls ui;
     open_folder_btn := open_folder_btn ui;
     progress_bar := progress_bar ui;
     status_label := status_label ui;
     log_text := [];
     logged := logged ui;
     ui_timer := ui_timer ui;
     last_output_dir := last_output_dir ui;
     worker := worker ui;
     should_stop := should_stop ui;
     dialogs := dialogs ui |}.

(** The connections of lines 656-660. *)
Definition slot (clock : Clock) (s : Signal) (ui : Window) : Window :=
  match s with
  | progress percent => setValue percent ui
  | finished output_dir clips_created => on_finished clock output_dir clips_created ui
  | error msg => on_error clock msg ui
  | status_update msg => on_status_update clock msg ui
  | clip_completed clip_number file_info =>
      on_clip_completed clock clip_number file_info ui
  end.

(** What can happen to the window while a job runs: a signal of the
    worker arrives, the Stop or the Clear Log button is pressed, the
    timer fires ([update_ui] changes nothing by itself). *)
Inductive Event :=
| Signalled (s : Signal)
| StopClicked (running : bool)
| LogCleared
| Tick.

Definition handle (clock : Clock) (ui : Window) (ev : Event) : Window :=
  match ev with
  | Signalled s => slot clock s ui
  | StopClicked running => stop_splitting clock running ui
  | LogCleared => clear_log ui
  | Tick => ui
  end.

Definition deliver (clock : Clock) (evs : list Event) (ui : Window) : Window :=
  fold_left (handle clock) evs ui.

Definition signalled (evs : list Event) : list Signal :=
  flat_map (fun ev => match ev with Signalled s => [s] | _ => [] end) evs.

(** The life of a window: Start pressed with some settings on some desk,
    or one of the events above. *)
Inductive Input :=
| StartClicked (a : App) (d : Desk)
| Happened (ev : Event).

Definition react (clock : Clock) (ui : Window) (i : Input) : Window :=
  match i with
  | StartClicked a d => start_splitting clock a d ui
  | Happened ev => handle clock ui ev
  end.

(** A window from its creation on. *)
Definition life (clock : Clock) (which : bool) (version : RunResult)
    (inputs : list Input) : Window :=
  fold_left (react clock) inputs (new_window clock which version).

(** The signals whose slots give the controls back. *)
Definition terminal (s : Signal) : bool :=
  match s with
  | finished _ _ => true
  | error _ => true
  | _ => false
  end.

(** The box a slot opens. *)
Definition dialog_of (s : Signal) : list Dialog :=
  match s with
  | finished output_dir clips_created => [SuccessBox output_dir clips_created]
  | error msg => [ErrorBox msg]
  | _ => []
  end.

(** The controls move together, the timer runs exactly while Start is
    disabled, Open Output Folder is enabled exactly when there is a
    folder to open, and the bar stays within its range. *)
Definition consistent (ui : Window) : Prop :=
  controls ui = set_controls_enabled (negb (ui_timer ui))
  /\ (ui_timer ui = true -> worker ui <> None)
  /\ (open_folder_btn ui = true <-> last_output_dir ui <> None)
  /\ 0 <= progress_bar ui <= 100.

End Ui.

(* ------------------------------------------------------------------ *)
(** ** A session at the window, for the scenarios *)

Module Session.

Definition clock : Ui.Clock := fun _ => "12:00:00"%string.

(** The window as [__init__] leaves it when FFmpeg is found. *)
Definition opened : Ui.Window := Ui.new_window clock true (RunExit 0).

(** The worker Start creates from [Scenario.app L N O] on
    [Scenario.desk]. *)
Definition job (L N O : Z) : SplitWorker.Worker :=
  {| SplitWorker.input_file := "in.mp4";
     SplitWorker.clip_duration := L;
     SplitWorker.num_clips := N;
     SplitWorker.output_dir :=
       VideoSplitterApp.output_subdir Py.posix_join "out" L "20240101_120000";
     SplitWorker.overlap := O;
     SplitWorker.use_copy := true;
     SplitWorker.quality := "medium" |}.

Definition started (L N O : Z) : Ui.Window :=
  Ui.start_splitting clock (Scenario.app L N O) Scenario.desk opened.

(** The signals of a trace delivered in order, Stop being pressed once
    after the first [k] of them. *)
Definition events (k : nat) (l : list Action) : list Ui.Event :=
  map Ui.Signalled (firstn k (Trace.signals l))
    ++ Ui.StopClicked true :: map Ui.Signalled (skipn k (Trace.signals l)).

End Session.

(* ------------------------------------------------------------------ *)
(** * Properties *)

(** ** Python numbers *)

Module PyFacts.

Lemma lt_true (a b : Q) : Py.lt a b = true <-> (a < b)%Q.
Proof.
  unfold Py.lt. rewrite negb_true_iff. split.
  - intros E. apply Qnot_le_lt. intros Hle.
    apply Qle_bool_iff in Hle. congruence.
  - intros Hlt. destruct (Qle_bool b a) eqn:E; [|reflexivity].
    apply Qle_bool_iff in E. exfalso. lra.
Qed.

Lemma lt_false (a b : Q) : Py.lt a b = false <-> (b <= a)%Q.
Proof.
  unfold Py.lt. rewrite negb_false_iff. apply Qle_bool_iff.
Qed.

Lemma ge_true (a b : Q) : Py.ge a b = true <-> (b <= a)%Q.
Proof. apply Qle_bool_iff. Qed.

Lemma ge_false (a b : Q) : Py.ge a b = false <-> (a < b)%Q.
Proof.
  unfold Py.ge. split.
  - intros E. apply Qnot_le_lt. intros Hle.
    apply Qle_bool_iff in Hle. congruence.
  - intros Hlt. destruct (Qle_bool b a) eqn:E; [|reflexivity].
    apply Qle_bool_iff in E. exfalso. lra.
Qed.

Lemma min_cases (a b : Q) :
  (Py.min a b = b /\ (b < a)%Q) \/ (Py.min a b = a /\ (a <= b)%Q).
Proof.
  unfold Py.min. destruct (Py.lt b a) eqn:E.
  - left. split; [reflexivity|]. now apply lt_true.
  - right. split; [reflexivity|]. now apply lt_false.
Qed.

Lemma min_eq (a b : Q) : (Py.min a b == Qmin a b)%Q.
Proof.
  destruct (min_cases a b) as [[-> H]|[-> H]].
  - symmetry. apply Q.min_r. lra.
  - symmetry. apply Q.min_l. exact H.
Qed.

(** [int] is the floor on the non-negative floats. *)
Lemma int_floor (x : Q) : (0 <= x)%Q -> Py.int x = Qfloor x.
Proof.
  destruct x as [n d]. unfold Qle, Py.int, Qfloor. simpl. intros H.
  apply Z.quot_div_nonneg; lia.
Qed.

(** [int] of a non-positive float is not positive. *)
Lemma int_nonpos (x : Q) : (x <= 0)%Q -> Py.int x <= 0.
Proof.
  destruct x as [n d]. unfold Qle, Py.int. simpl. intros H.
  assert (Hn : n <= 0) by lia.
  replace n with (- (- n)) by lia.
  rewrite Z.quot_opp_l by lia.
  assert (0 <= (- n) ÷ Z.pos d) by (apply Z.quot_pos; lia).
  lia.
Qed.

Lemma truediv_inr (a b q : Q) :
  Py.truediv a b = inr q -> ~ (b == 0)%Q /\ q = (a / b)%Q.
Proof.
  unfold Py.truediv. destruct (Qeq_bool b 0) eqn:E; [discriminate|].
  intros [= <-]. split; [|reflexivity].
  intros Hb. apply Qeq_bool_iff in Hb. congruence.
Qed.

Lemma truediv_nonzero (a b : Q) :
  ~ (b == 0)%Q -> Py.truediv a b = inr (a / b)%Q.
Proof.
  intros Hb. unfold Py.truediv. destruct (Qeq_bool b 0) eqn:E; [|reflexivity].
  apply Qeq_bool_iff in E. contradiction.
Qed.

(** Floor and ceiling are pinned by their two bounds. *)
Lemma floor_unique (x : Q) (n : Z) :
  (inject_Z n <= x)%Q -> (x < inject_Z (n + 1))%Q -> Qfloor x = n.
Proof.
  intros Hlo Hhi.
  pose proof (Qfloor_le x) as H1. pose proof (Qlt_floor x) as H2.
  assert (Ha : (inject_Z n < inject_Z (Qfloor x + 1))%Q) by lra.
  assert (Hb : (inject_Z (Qfloor x) < inject_Z (n + 1))%Q) by lra.
  rewrite <- Zlt_Qlt in Ha, Hb. lia.
Qed.

Lemma ceiling_unique (x : Q) (n : Z) :
  (inject_Z (n - 1) < x)%Q -> (x <= inject_Z n)%Q -> Qceiling x = n.
Proof.
  intros Hlo Hhi.
  pose proof (Qle_ceiling x) as H1. pose proof (Qceiling_lt x) as H2.
  assert (Ha : (inject_Z (n - 1) < inject_Z (Qceiling x))%Q) by lra.
  assert (Hb : (inject_Z (Qceiling x - 1) < inject_Z n)%Q) by lra.
  rewrite <- Zlt_Qlt in Ha, Hb. lia.
Qed.

End PyFacts.

(** ** The clip loop, one iteration at a time *)

Module LoopFacts.

Import SplitWorker Iteration.

Section Loop.

Variable env : Env.
Variable w : Worker.
Variable D : Q.
Variable n : Z.

(** One unfolding of [clip_loop], by the outcome of the iteration. *)
Lemma clip_loop_step (r : nat) (i : Z) (s : bool) (c : Z) :
  clip_loop env w D n (S r) i s c =
  match outcome env w D i s with
  | SawStop => (true, c, [Emit (status_update Stopping)])
  | PastEnd => (false, c, [])
  | Skipped => clip_loop env w D n r (i + 1) false c
  | Failed e => (false, c, attempt w D n i ++ [Emit (error e)])
  | Done size =>
      let '(s', c', rest) := clip_loop env w D n r (i + 1) false (c + 1) in
      (s', c',
       attempt w D n i
         ++ Emit (clip_completed (i + 1) size)
         :: Emit (progress (progress_percent i n)) :: rest)
  end.
Proof.
  unfold outcome. cbn [clip_loop].
  destruct (s || stop_called env (AtIteration i)) eqn:Es; [reflexivity|].
  unfold Plan.past_end, Plan.too_short, Plan.window. cbn [Plan.startSeconds Plan.endSeconds].
  destruct (Py.ge _ D); [reflexivity|].
  destruct (Py.lt _ 1); [reflexivity|].
  destruct (encoder env i) as [[]|rc out]; try reflexivity.
  destruct (negb (rc =? 0)); [reflexivity|].
  destruct (verified out); reflexivity.
Qed.

Lemma outcome_done (i : Z) (s : bool) (size : Z) :
  outcome env w D i s = Done size ->
  s = false /\ stop_called env (AtIteration i) = false
  /\ Plan.past_end D (Plan.window w D i) = false
  /\ Plan.too_short (Plan.window w D i) = false
  /\ encoder env i = Returned 0 (Some size) /\ 1024 < size.
Proof.
  unfold outcome.
  destruct (s || stop_called env (AtIteration i)) eqn:Es; [discriminate|].
  apply orb_false_elim in Es. destruct Es as [-> ->].
  destruct (Plan.past_end _ _); [discriminate|].
  destruct (Plan.too_short _); [discriminate|].
  destruct (encoder env i) as [[]|rc out]; try discriminate.
  destruct (rc =? 0) eqn:Erc; [|discriminate]. cbn [negb].
  apply Z.eqb_eq in Erc. subst rc.
  unfold verified. destruct out as [sz|]; [|discriminate].
  destruct (1024 <? sz) eqn:Esz; [|discriminate].
  apply Z.ltb_lt in Esz. intros [= ->]. repeat split; auto.
Qed.

Lemma outcome_failed (i : Z) (s : bool) (e : ErrorMsg) :
  outcome env w D i s = Failed e ->
  s = false /\ stop_called env (AtIteration i) = false
  /\ Plan.past_end D (Plan.window w D i) = false
  /\ Plan.too_short (Plan.window w D i) = false
  /\ ~ passes env i.
Proof.
  unfold outcome, passes.
  destruct (s || stop_called env (AtIteration i)) eqn:Es; [discriminate|].
  apply orb_false_elim in Es. destruct Es as [-> ->].
  destruct (Plan.past_end _ _); [discriminate|].
  destruct (Plan.too_short _); [discriminate|].
  intros H. repeat split; auto. intros [size [Henc Hsz]].
  rewrite Henc in H. cbn in H.
  apply Z.ltb_lt in Hsz. rewrite Hsz in H. discriminate.
Qed.

Lemma outcome_skipped (i : Z) (s : bool) :
  outcome env w D i s = Skipped ->
  s = false /\ stop_called env (AtIteration i) = false
  /\ Plan.past_end D (Plan.window w D i) = false
  /\ Plan.too_short (Plan.window w D i) = true.
Proof.
  unfold outcome.
  destruct (s || stop_called env (AtIteration i)) eqn:Es; [discriminate|].
  apply orb_false_elim in Es. destruct Es as [-> ->].
  destruct (Plan.past_end _ _); [discriminate|].
  destruct (Plan.too_short _); [auto|].
  destruct (encoder env i) as [[]|rc out]; try discriminate.
  destruct (negb (rc =? 0)); [discriminate|].
  destruct (verified out); discriminate.
Qed.

Lemma outcome_past_end (i : Z) (s : bool) :
  outcome env w D i s = PastEnd ->
  s = false /\ stop_called env (AtIteration i) = false
  /\ Plan.past_end D (Plan.window w D i) = true.
Proof.
  unfold outcome.
  destruct (s || stop_called env (AtIteration i)) eqn:Es; [discriminate|].
  apply orb_false_elim in Es. destruct Es as [-> ->].
  destruct (Plan.past_end _ _); [auto|].
  destruct (Plan.too_short _); [discriminate|].
  destruct (encoder env i) as [[]|rc out]; try discriminate.
  destruct (negb (rc =? 0)); [discriminate|].
  destruct (verified out); discriminate.
Qed.

Lemma outcome_saw_stop (i : Z) (s : bool) :
  outcome env w D i s = SawStop ->
  s || stop_called env (AtIteration i) = true.
Proof.
  unfold outcome.
  destruct (s || stop_called env (AtIteration i)) eqn:Es; [auto|].
  destruct (Plan.past_end _ _); [discriminate|].
  destruct (Plan.too_short _); [discriminate|].
  destruct (encoder env i) as [[]|rc out]; try discriminate.
  destruct (negb (rc =? 0)); [discriminate|].
  destruct (verified out); discriminate.
Qed.

(** The shape of every run of the loop: the successful iterations, in
    increasing index order, followed by the way the loop was left. *)
Lemma clip_loop_shape (r : nat) (i c : Z) :
  exists (ks : list Z) (e : Ending),
    clip_loop env w D n r i false c
    = (is_cancel e, c + Z.of_nat (List.length ks),
       flat_map (success env w D n) ks ++ ending_trace w D n e)
    /\ StronglySorted Z.lt ks
    /\ Forall (fun k => i <= k < i + Z.of_nat r) ks
    /\ Forall (passes env) ks
    /\ Forall (fun k => stop_called env (AtIteration k) = false) ks
    /\ match e with
       | Fail j msg => Forall (fun k => k < j) ks /\ i <= j < i + Z.of_nat r
                       /\ outcome env w D j false = Failed msg
       | _ => True
       end.
Proof.
  revert i c. induction r as [|r IH]; intros i c.
  - exists [], Exhausted. cbn. rewrite Z.add_0_r.
    repeat split; constructor.
  - rewrite clip_loop_step. destruct (outcome env w D i false) eqn:Eo.
    + exists [], Cancel. cbn. rewrite Z.add_0_r. repeat split; constructor.
    + exists [], Exhausted. cbn. rewrite Z.add_0_r. repeat split; constructor.
    + destruct (IH (i + 1) c) as (ks & e & Heq & Hs & Hr & Hp & Hn & He).
      exists ks, e. rewrite Heq. repeat split; auto.
      * eapply Forall_impl; [|exact Hr]. cbn beta. intros; lia.
      * destruct e; auto. destruct He as (Hlt & Hj & Hnp).
        repeat split; auto; lia.
    + exists [], (Fail i e). cbn -[attempt]. rewrite Z.add_0_r.
      repeat split; try constructor; auto; lia.
    + apply outcome_done in Eo.
      destruct Eo as (_ & Hstop & _ & _ & Henc & Hsz).
      destruct (IH (i + 1) (c + 1)) as (ks & e & Heq & Hs & Hr & Hp & Hn & He).
      exists (i :: ks), e. rewrite Heq. repeat split.
      * assert (Hsucc : success env w D n i
                          = attempt w D n i
                              ++ [Emit (clip_completed (i + 1) size);
                                  Emit (progress (progress_percent i n))]).
        { unfold success, size_at. rewrite Henc. reflexivity. }
        cbn [flat_map List.length]. rewrite Hsucc, <- !app_assoc.
        replace (c + 1 + Z.of_nat (List.length ks))
          with (c + Z.of_nat (S (List.length ks))) by lia.
        reflexivity.
      * constructor; auto.
        eapply Forall_impl; [|exact Hr]. cbn beta. intros; lia.
      * constructor; [lia|].
        eapply Forall_impl; [|exact Hr]. cbn beta. intros; lia.
      * constructor; auto. exists size. auto.
      * constructor; auto.
      * destruct e; auto. destruct He as (Hlt & Hj & Hnp).
        repeat split; auto; try lia. constructor; auto; lia.
Qed.

End Loop.

End LoopFacts.

(** ** Reading the trace of a loop *)

Module TraceFacts.

Import SplitWorker Iteration Trace.

Lemma signals_app (a b : list Action) : signals (a ++ b) = signals a ++ signals b.
Proof. apply flat_map_app. Qed.

Lemma commands_app (a b : list Action) : commands (a ++ b) = commands a ++ commands b.
Proof. apply flat_map_app. Qed.

Lemma clips_app (a b : list Action) : clips (a ++ b) = clips a ++ clips b.
Proof. unfold clips. rewrite commands_app. apply filter_app. Qed.

Lemma percents_app (a b : list Action) : percents (a ++ b) = percents a ++ percents b.
Proof. unfold percents. rewrite signals_app. apply flat_map_app. Qed.

Lemma completed_app (a b : list Action) : completed (a ++ b) = completed a ++ completed b.
Proof. unfold completed. rewrite signals_app. apply flat_map_app. Qed.

Lemma errors_app (a b : list Action) : errors (a ++ b) = errors a ++ errors b.
Proof. unfold errors. rewrite signals_app. apply flat_map_app. Qed.

Lemma finishes_app (a b : list Action) : finishes (a ++ b) = finishes a ++ finishes b.
Proof. unfold finishes. rewrite signals_app. apply flat_map_app. Qed.

Section Loop.

Variable env : Env.
Variable w : Worker.
Variable D : Q.
Variable n : Z.

Lemma percents_successes (ks : list Z) :
  percents (flat_map (success env w D n) ks)
  = map (fun k => progress_percent k n) ks.
Proof.
  induction ks as [|k ks IH]; [reflexivity|].
  cbn [flat_map map]. rewrite percents_app, IH. reflexivity.
Qed.

Lemma completed_successes (ks : list Z) :
  completed (flat_map (success env w D n) ks) = map (fun k => k + 1) ks.
Proof.
  induction ks as [|k ks IH]; [reflexivity|].
  cbn [flat_map map]. rewrite completed_app, IH. reflexivity.
Qed.

Lemma errors_successes (ks : list Z) :
  errors (flat_map (success env w D n) ks) = [].
Proof.
  induction ks as [|k ks IH]; [reflexivity|].
  cbn [flat_map]. rewrite errors_app, IH. reflexivity.
Qed.

Lemma finishes_successes (ks : list Z) :
  finishes (flat_map (success env w D n) ks) = [].
Proof.
  induction ks as [|k ks IH]; [reflexivity|].
  cbn [flat_map]. rewrite finishes_app, IH. reflexivity.
Qed.

Lemma clips_successes (ks : list Z) :
  clips (flat_map (success env w D n) ks)
  = map (fun k => Plan.command w (Plan.window w D k)) ks.
Proof.
  induction ks as [|k ks IH]; [reflexivity|].
  cbn [flat_map map]. rewrite clips_app, IH. reflexivity.
Qed.

Lemma percents_ending (e : Ending) : percents (ending_trace w D n e) = [].
Proof. destruct e; reflexivity. Qed.

Lemma completed_ending (e : Ending) : completed (ending_trace w D n e) = [].
Proof. destruct e; reflexivity. Qed.

Lemma finishes_ending (e : Ending) : finishes (ending_trace w D n e) = [].
Proof. destruct e; reflexivity. Qed.

Lemma errors_ending (e : Ending) :
  errors (ending_trace w D n e)
  = match e with Fail _ msg => [msg] | _ => [] end.
Proof. destruct e; reflexivity. Qed.

Lemma clips_ending (e : Ending) :
  clips (ending_trace w D n e)
  = match e with
    | Fail j _ => [Plan.command w (Plan.window w D j)]
    | _ => []
    end.
Proof. destruct e; reflexivity. Qed.

Lemma percents_report (s : bool) (c : Z) : percents (report env w s c) = [].
Proof.
  unfold report.
  destruct (negb (s || stop_called env AfterLoop) && (0 <? c)); [reflexivity|].
  destruct (c =? 0); reflexivity.
Qed.

Lemma completed_report (s : bool) (c : Z) : completed (report env w s c) = [].
Proof.
  unfold report.
  destruct (negb (s || stop_called env AfterLoop) && (0 <? c)); [reflexivity|].
  destruct (c =? 0); reflexivity.
Qed.

Lemma clips_report (s : bool) (c : Z) : clips (report env w s c) = [].
Proof.
  unfold report.
  destruct (negb (s || stop_called env AfterLoop) && (0 <? c)); [reflexivity|].
  destruct (c =? 0); reflexivity.
Qed.

End Loop.

End TraceFacts.

(** ** Before the loop, and [run] as a whole *)

Module RunFacts.

Import FFmpegValidator SplitWorker Iteration Trace TraceFacts.

(** What [setup] guarantees when it lets the loop start, and what it has
    done by then. *)
Lemma setup_ready (env : Env) (w : Worker) (D : Q) (n : Z) (did : list Action) :
  setup env w = Ready D n did ->
  (0 < D)%Q /\ actual_clips w D = inr n /\ n <> 0
  /\ (exists info, get_video_info (eval_rest env) (ffprobe env) = Some info
                   /\ duration info = D)
  /\ percents did = [] /\ completed did = [] /\ errors did = []
  /\ finishes did = [] /\ clips did = []
  /\ ~ In (Emit (status_update Stopping)) did.
Proof.
  unfold setup, check_ffmpeg.
  destruct (which_ffmpeg env); cbn [negb]; [|discriminate].
  destruct (ffmpeg_version env) as [[]|rc]; cbn [negb]; try discriminate.
  destruct (rc =? 0); cbn [negb]; [|discriminate].
  destruct (get_video_info (eval_rest env) (ffprobe env)) as [info|] eqn:Ei;
    [|discriminate].
  destruct (Qle_bool (duration info) 0) eqn:Ed; [discriminate|].
  destruct (makedirs env); [discriminate|].
  destruct (actual_clips w (duration info)) as [e|m] eqn:Ea; [discriminate|].
  destruct (m =? 0) eqn:Em; [discriminate|].
  intros [= <- <- <-]. apply Z.eqb_neq in Em.
  repeat split; auto.
  - apply Qnot_le_lt. intros H. apply Qle_bool_iff in H. congruence.
  - exists info. auto.
  - cbn. intros H. repeat (destruct H as [H|H]; [discriminate|]). exact H.
Qed.

(** A set-up that gives up never reaches the encoder. *)
Lemma setup_abort (env : Env) (w : Worker) (did : list Action) :
  setup env w = Abort did ->
  percents did = [] /\ completed did = [] /\ finishes did = [] /\ clips did = []
  /\ ~ In (Emit (status_update Stopping)) did.
Proof.
  unfold setup, check_ffmpeg.
  destruct (which_ffmpeg env); cbn [negb];
    [|intros [= <-]; cbn; intuition discriminate].
  destruct (ffmpeg_version env) as [[]|rc]; cbn [negb];
    try (intros [= <-]; cbn; intuition discriminate).
  destruct (rc =? 0); cbn [negb];
    [|intros [= <-]; cbn; intuition discriminate].
  destruct (get_video_info (eval_rest env) (ffprobe env)) as [info|];
    [|intros [= <-]; cbn; intuition discriminate].
  destruct (Qle_bool (duration info) 0);
    [intros [= <-]; cbn; intuition discriminate|].
  destruct (makedirs env);
    [intros [= <-]; cbn; intuition discriminate|].
  destruct (actual_clips w (duration info)) as [e|m];
    [intros [= <-]; cbn; intuition discriminate|].
  destruct (m =? 0); [|discriminate].
  intros [= <-]; cbn; intuition discriminate.
Qed.

(** [run] once the loop starts: the set-up, the successful iterations,
    the way the loop was left, the report. *)
Lemma run_ready (env : Env) (w : Worker) (D : Q) (n : Z) (did : list Action) :
  setup env w = Ready D n did ->
  exists (ks : list Z) (e : Ending),
    run env w
    = did ++ (flat_map (success env w D n) ks ++ ending_trace w D n e)
          ++ report env w (is_cancel e) (Z.of_nat (List.length ks))
    /\ StronglySorted Z.lt ks
    /\ Forall (fun k => 0 <= k < Z.of_nat (Z.to_nat n)) ks
    /\ Forall (passes env) ks
    /\ Forall (fun k => stop_called env (AtIteration k) = false) ks
    /\ match e with
       | Fail j msg => Forall (fun k => k < j) ks /\ 0 <= j < Z.of_nat (Z.to_nat n)
                       /\ outcome env w D j false = Failed msg
       | _ => True
       end.
Proof.
  intros Hs. unfold run. rewrite Hs.
  destruct (LoopFacts.clip_loop_shape env w D n (Z.to_nat n) 0 0)
    as (ks & e & Heq & Hsorted & Hrange & Hpass & Hstop & He).
  exists ks, e. rewrite Heq. cbn [Z.add] in *.
  repeat split; auto.
Qed.

End RunFacts.

(** ** Progress and completion events *)

Import FFmpegValidator SplitWorker Iteration Trace.

Lemma progress_percent_mono (n k k' : Z) :
  0 < n -> 0 <= k -> k <= k' -> progress_percent k n <= progress_percent k' n.
Proof.
  intros Hn Hk Hkk'. unfold progress_percent.
  assert (Hinv : (0 < / inject_Z n)%Q).
  { apply Qinv_lt_0_compat. replace 0%Q with (inject_Z 0) by reflexivity.
    now rewrite <- Zlt_Qlt. }
  assert (H0 : (0 <= inject_Z (k + 1))%Q).
  { replace 0%Q with (inject_Z 0) by reflexivity. rewrite <- Zle_Qle. lia. }
  assert (H1 : (inject_Z (k + 1) <= inject_Z (k' + 1))%Q).
  { rewrite <- Zle_Qle. lia. }
  assert (Ha : (0 <= inject_Z (k + 1) / inject_Z n * 100)%Q).
  { unfold Qdiv. apply Qmult_le_0_compat; [|lra].
    apply Qmult_le_0_compat; lra. }
  assert (Hb : (inject_Z (k + 1) / inject_Z n * 100
                <= inject_Z (k' + 1) / inject_Z n * 100)%Q).
  { unfold Qdiv. apply Qmult_le_compat_r; [|lra].
    apply Qmult_le_compat_r; lra. }
  rewrite !PyFacts.int_floor by lra.
  now apply Qfloor_resp_le.
Qed.

Lemma sorted_map_mono (f : Z -> Z) (lo : Z) (ks : list Z) :
  (forall k k', lo <= k -> k <= k' -> f k <= f k') ->
  Forall (fun k => lo <= k) ks ->
  StronglySorted Z.lt ks -> StronglySorted Z.le (map f ks).
Proof.
  intros Hf Hlo Hs. induction Hs as [|k ks Hs IH Hall]; cbn [map].
  - constructor.
  - inversion Hlo as [|? ? Hk Hks]; subst. constructor; [auto|].
    rewrite Forall_map. rewrite Forall_forall in Hall |- *.
    intros k' Hin. apply Hf; [assumption|]. specialize (Hall k' Hin). lia.
Qed.

Lemma sorted_map_succ (ks : list Z) :
  StronglySorted Z.lt ks -> StronglySorted Z.lt (map (fun k => k + 1) ks).
Proof.
  intros Hs. induction Hs as [|k ks Hs IH Hall]; cbn [map].
  - constructor.
  - constructor; [assumption|].
    rewrite Forall_map. eapply Forall_impl; [|exact Hall].
    cbn beta. intros; lia.
Qed.

(** What the consumers of [progress] and [clip_completed] see of a run that
    reached the loop. *)
Lemma run_ready_events (env : Env) (w : Worker) (D : Q) (n : Z) (did : list Action) :
  setup env w = Ready D n did ->
  exists ks : list Z,
    percents (run env w) = map (fun k => progress_percent k n) ks
    /\ completed (run env w) = map (fun k => k + 1) ks
    /\ StronglySorted Z.lt ks
    /\ Forall (fun k => 0 <= k < Z.of_nat (Z.to_nat n)) ks.
Proof.
  intros Hs. destruct (RunFacts.run_ready _ _ _ _ _ Hs)
    as (ks & e & Hrun & Hsorted & Hrange & _).
  destruct (RunFacts.setup_ready _ _ _ _ _ Hs)
    as (_ & _ & _ & _ & Hp & Hc & _).
  exists ks. rewrite Hrun. repeat split; auto.
  - rewrite !TraceFacts.percents_app, Hp, TraceFacts.percents_successes,
      TraceFacts.percents_ending, TraceFacts.percents_report.
    cbn [app]. now rewrite !app_nil_r.
  - rewrite !TraceFacts.completed_app, Hc, TraceFacts.completed_successes,
      TraceFacts.completed_ending, TraceFacts.completed_report.
    cbn [app]. now rewrite !app_nil_r.
Qed.

(** C8.  Whatever the environment does, the [progress] values of a run,
    read in emission order, never decrease, and the clip numbers carried by
    its [clip_completed] signals strictly increase. *)
Theorem events_in_order (env : Env) (w : Worker) :
  StronglySorted Z.le (percents (run env w))
  /\ StronglySorted Z.lt (completed (run env w)).
Proof.
  destruct (setup env w) as [did|D n did] eqn:Hs.
  - destruct (RunFacts.setup_abort _ _ _ Hs) as (Hp & Hc & _).
    unfold run. rewrite Hs, Hp, Hc. split; constructor.
  - destruct (run_ready_events _ _ _ _ _ Hs) as (ks & -> & -> & Hsorted & Hrange).
    split; [|now apply sorted_map_succ].
    destruct ks as [|k0 ks']; [constructor|].
    assert (Hn : 0 < n).
    { inversion Hrange as [|? ? Hk0 _]; subst. lia. }
    apply sorted_map_mono with (lo := 0); auto.
    + intros k k' Hk Hkk'. now apply progress_percent_mono.
    + eapply Forall_impl; [|exact Hrange]. cbn beta. intros; lia.
Qed.

(** ** Counting a clip *)

Lemma In_completed (l : list Action) (k size : Z) :
  In (Emit (clip_completed k size)) l -> In k (completed l).
Proof.
  intros H. unfold completed, signals. apply in_flat_map.
  exists (clip_completed k size). split; [|now left].
  apply in_flat_map. exists (Emit (clip_completed k size)). split; [assumption|now left].
Qed.

Lemma In_clips (l : list Action) (c : Command) :
  In (Subprocess c) l -> (exists k ss t cd, c = FfmpegClip k ss t cd) -> In c (clips l).
Proof.
  intros H (k & ss & t & cd & ->). unfold clips. apply filter_In. split; [|reflexivity].
  unfold commands. apply in_flat_map.
  exists (Subprocess (FfmpegClip k ss t cd)). split; [assumption|now left].
Qed.

Lemma In_errors (l : list Action) (e : ErrorMsg) :
  In (Emit (error e)) l <-> In e (errors l).
Proof.
  unfold errors, signals. split.
  - intros H. apply in_flat_map. exists (error e). split; [|now left].
    apply in_flat_map. exists (Emit (error e)). split; [assumption|now left].
  - intros H. apply in_flat_map in H. destruct H as (s & Hs & He).
    apply in_flat_map in Hs. destruct Hs as (a & Ha & Hs).
    destruct a as [s'| |]; cbn in Hs; try contradiction.
    destruct Hs as [->|[]]. destruct s; cbn in He; try contradiction.
    destruct He as [->|[]]. exact Ha.
Qed.

Lemma In_finishes (l : list Action) (dir : string) (c : Z) :
  In (Emit (finished dir c)) l -> In c (finishes l).
Proof.
  intros H. unfold finishes, signals. apply in_flat_map.
  exists (finished dir c). split; [|now left].
  apply in_flat_map. exists (Emit (finished dir c)). split; [assumption|now left].
Qed.

(** Every action of a successful iteration names its index. *)
Lemma In_success (env : Env) (w : Worker) (D : Q) (n : Z) (ks : list Z) (a : Action) :
  In a (flat_map (success env w D n) ks) ->
  exists k, In k ks
    /\ (a = Emit (status_update (Processing (k + 1) n (clip_start w k)
                                            (clip_end w D (clip_start w k))))
        \/ a = Subprocess (Plan.command w (Plan.window w D k))
        \/ a = Emit (clip_completed (k + 1) (size_at env k))
        \/ a = Emit (progress (progress_percent k n))).
Proof.
  intros H. apply in_flat_map in H. destruct H as (k & Hk & Ha).
  exists k. split; [assumption|].
  cbn in Ha. intuition auto.
Qed.

Lemma passes_size (env : Env) (k : Z) :
  passes env k -> encoder env k = Returned 0 (Some (size_at env k)) /\ 1024 < size_at env k.
Proof.
  intros (size & Henc & Hsz). unfold size_at. rewrite Henc. auto.
Qed.

(** The report names the count it was given, and nothing else. *)
Lemma report_cases (env : Env) (w : Worker) (s : bool) (c : Z) :
  0 <= c ->
  (report env w s c = [Emit (status_update (Success c)); Emit (finished (output_dir w) c)]
   /\ s = false /\ stop_called env AfterLoop = false /\ 0 < c)
  \/ (report env w s c = [Emit (error NoClips)] /\ c = 0)
  \/ (report env w s c = [Emit (status_update (Stopped c))]
      /\ (s = true \/ stop_called env AfterLoop = true) /\ c <> 0).
Proof.
  intros Hc.
  unfold report. destruct (s || stop_called env AfterLoop) eqn:Es; cbn [negb andb].
  - apply orb_true_iff in Es. destruct (c =? 0) eqn:Ec.
    + right; left. apply Z.eqb_eq in Ec. auto.
    + right; right. apply Z.eqb_neq in Ec. auto.
  - apply orb_false_elim in Es. destruct Es as [-> Ha].
    destruct (0 <? c) eqn:Ec.
    + left. apply Z.ltb_lt in Ec. auto.
    + destruct (c =? 0) eqn:Ec0.
      * right; left. apply Z.eqb_eq in Ec0. auto.
      * apply Z.eqb_neq in Ec0. apply Z.ltb_ge in Ec. lia.
Qed.

(** The failure message when the encoder exits 0 without a file above the
    floor. *)
Lemma outcome_unverified (env : Env) (w : Worker) (D : Q) (j : Z) (msg : ErrorMsg)
    (out : option Z) :
  outcome env w D j false = Failed msg ->
  encoder env j = Returned 0 out ->
  verified out = None ->
  msg = ClipFailed (j + 1) MissingOrTooSmall.
Proof.
  unfold outcome. intros H Henc Hv.
  destruct (false || stop_called env (AtIteration j)); [discriminate|].
  destruct (Plan.past_end _ _); [discriminate|].
  destruct (Plan.too_short _); [discriminate|].
  rewrite Henc in H. cbn in H. rewrite Hv in H. now inversion H.
Qed.

(** The set-up never says "Operation stopped". *)
Lemma setup_no_stopped (env : Env) (w : Worker) (c : Z) :
  ~ In (Emit (status_update (Stopped c)))
       (match setup env w with Abort did => did | Ready _ _ did => did end).
Proof.
  unfold setup, check_ffmpeg.
  destruct (which_ffmpeg env); cbn [negb]; [|cbn; intuition discriminate].
  destruct (ffmpeg_version env) as [[]|rc]; cbn [negb];
    try (cbn; intuition discriminate).
  destruct (rc =? 0); cbn [negb]; [|cbn; intuition discriminate].
  destruct (get_video_info (eval_rest env) (ffprobe env)) as [info|];
    [|cbn; intuition discriminate].
  destruct (Qle_bool (duration info) 0); [cbn; intuition discriminate|].
  destruct (makedirs env); [cbn; intuition discriminate|].
  destruct (actual_clips w (duration info)) as [e|m]; [cbn; intuition discriminate|].
  destruct (m =? 0); cbn; intuition discriminate.
Qed.

(** C9.  In every run: a [clip_completed] signal for clip [k] is emitted
    only when the encoder exited 0 and left a file of more than 1024 bytes;
    a clip handed to the encoder that exits 0 without such a file (missing,
    or 1024 bytes or less) is reported through [error] and is not among
    the completed clips; and the count carried by [finished] and by the
    "Operation stopped" status is the number of [clip_completed] signals. *)
Theorem counted_only_when_verified (env : Env) (w : Worker) :
  (forall k size,
      In (Emit (clip_completed k size)) (run env w) ->
      encoder env (k - 1) = Returned 0 (Some size) /\ 1024 < size)
  /\ (forall k out,
         attempted (run env w) k ->
         encoder env (k - 1) = Returned 0 out ->
         (forall size, out = Some size -> size <= 1024) ->
         In (Emit (error (ClipFailed k MissingOrTooSmall))) (run env w)
         /\ ~ In k (completed (run env w)))
  /\ (forall dir c,
         In (Emit (finished dir c)) (run env w) ->
         c = Z.of_nat (List.length (completed (run env w))))
  /\ (forall c,
         In (Emit (status_update (Stopped c))) (run env w) ->
         c = Z.of_nat (List.length (completed (run env w)))).
Proof.
  pose proof (setup_no_stopped env w) as Hns.
  destruct (setup env w) as [did|D n did] eqn:Hs.
  - (* the set-up gave up: no clip, no completion, no count *)
    destruct (RunFacts.setup_abort _ _ _ Hs) as (_ & Hc & Hf & Hcl & _).
    assert (Hrun : run env w = did) by (unfold run; now rewrite Hs).
    rewrite Hrun. split; [|split; [|split]].
    + intros k size H. apply In_completed in H. rewrite Hc in H. contradiction.
    + intros k out (ss & t & cd & H) _ _. apply In_clips in H; [|eauto 6].
      rewrite Hcl in H. contradiction.
    + intros dir c H. apply In_finishes in H. rewrite Hf in H. contradiction.
    + intros c H. now apply Hns in H.
  - destruct (RunFacts.run_ready _ _ _ _ _ Hs)
      as (ks & e & Hrun & Hsorted & Hrange & Hpass & _ & He).
    destruct (RunFacts.setup_ready _ _ _ _ _ Hs)
      as (_ & _ & _ & _ & _ & Hdc & _ & Hdf & Hdcl & _).
    assert (Hcount : completed (run env w) = map (fun k => k + 1) ks).
    { rewrite Hrun, !TraceFacts.completed_app, Hdc, TraceFacts.completed_successes,
        TraceFacts.completed_ending, TraceFacts.completed_report.
      cbn [app]. now rewrite !app_nil_r. }
    assert (Hlen : Z.of_nat (List.length (completed (run env w)))
                   = Z.of_nat (List.length ks)).
    { now rewrite Hcount, length_map. }
    assert (Hrep := report_cases env w (is_cancel e) (Z.of_nat (List.length ks))
                                 (Nat2Z.is_nonneg _)).
    rewrite Forall_forall in Hpass.
    rewrite Hlen. split; [|split; [|split]].
    + (* a completion signal comes from a successful iteration *)
      intros k size H.
      rewrite Hrun, !in_app_iff in H. destruct H as [H|[[H|H]|H]].
      * apply In_completed in H. rewrite Hdc in H. contradiction.
      * apply In_success in H. destruct H as (k0 & Hk0 & [H|[H|[H|H]]]);
          try discriminate.
        injection H as -> ->. replace (k0 + 1 - 1) with k0 by lia.
        now apply passes_size, Hpass.
      * apply In_completed in H. rewrite TraceFacts.completed_ending in H. contradiction.
      * apply In_completed in H. rewrite TraceFacts.completed_report in H. contradiction.
    + (* an unverified clip is the one the loop failed on *)
      intros k out (ss & t & cd & H) Henc Hout.
      assert (Hv : verified out = None).
      { unfold verified. destruct out as [size|]; [|reflexivity].
        specialize (Hout size eq_refl).
        destruct (1024 <? size) eqn:E; [|reflexivity]. apply Z.ltb_lt in E. lia. }
      assert (Hnp : ~ passes env (k - 1)).
      { intros (size & Henc' & Hsz). rewrite Henc' in Henc. injection Henc as <-.
        specialize (Hout size eq_refl). lia. }
      rewrite Hrun, !in_app_iff in H. destruct H as [H|[[H|H]|H]].
      * apply In_clips in H; [|eauto 6]. rewrite Hdcl in H. contradiction.
      * apply In_success in H. destruct H as (k0 & Hk0 & [H|[H|[H|H]]]);
          try discriminate.
        injection H as -> _ _ _. replace (k0 + 1 - 1) with k0 in Hnp by lia.
        exfalso. auto.
      * destruct e as [| |j msg]; cbn in H; try (intuition discriminate).
        destruct H as [H|[H|[H|[]]]]; try discriminate.
        injection H as <- _ _ _. replace (j + 1 - 1) with j in Henc by lia.
        destruct He as (Hlt & _ & Hfail).
        pose proof (outcome_unverified _ _ _ _ _ _ Hfail Henc Hv) as Hmsg. subst msg.
        split.
        -- rewrite Hrun, !in_app_iff. right; left; right. cbn. auto.
        -- rewrite Hcount. intros Hin. apply in_map_iff in Hin.
           destruct Hin as (k0 & Hk & Hk0). rewrite Forall_forall in Hlt.
           specialize (Hlt k0 Hk0). lia.
      * apply In_clips in H; [|eauto 6]. rewrite TraceFacts.clips_report in H. contradiction.
    + intros dir c H. rewrite Hrun, !in_app_iff in H. destruct H as [H|[[H|H]|H]].
      * apply In_finishes in H. rewrite Hdf in H. contradiction.
      * apply In_finishes in H. rewrite TraceFacts.finishes_successes in H. contradiction.
      * apply In_finishes in H. rewrite TraceFacts.finishes_ending in H. contradiction.
      * destruct Hrep as [(Hr & _)|[(Hr & _)|(Hr & _)]]; rewrite Hr in H; cbn in H;
          intuition (try discriminate). congruence.
    + intros c H. rewrite Hrun, !in_app_iff in H. destruct H as [H|[[H|H]|H]].
      * now apply Hns in H.
      * apply In_success in H. destruct H as (k0 & Hk0 & [H|[H|[H|H]]]); discriminate.
      * destruct e; cbn in H; intuition discriminate.
      * destruct Hrep as [(Hr & _)|[(Hr & _)|(Hr & _)]]; rewrite Hr in H; cbn in H;
          intuition (try discriminate). congruence.
Qed.

(** ** Cancellation *)

Lemma not_In_successes (env : Env) (w : Worker) (D : Q) (n : Z) (ks : list Z) :
  ~ In (Emit (status_update Stopping)) (flat_map (success env w D n) ks).
Proof.
  intros H. apply In_success in H.
  destruct H as (k & _ & [H|[H|[H|H]]]); discriminate.
Qed.

(** C4, as the code has it.  Whenever the loop sees the stop flag (it says
    "Stopping..."), nothing is spawned afterwards and exactly one more
    signal follows: the status "Operation stopped. c clips created." when
    the number [c] of clips completed so far is positive, and the error
    "No clips were created successfully." when it is zero.  Up to that
    point the run has emitted neither [error] nor [finished]. *)
Theorem cancel_reported (env : Env) (w : Worker) :
  In (Emit (status_update Stopping)) (run env w) ->
  exists before,
    let c := Z.of_nat (List.length (completed (run env w))) in
    run env w
    = before ++ [Emit (status_update Stopping);
                 Emit (if 0 <? c then status_update (Stopped c) else error NoClips)]
    /\ errors before = []
    /\ finishes before = []
    /\ ~ In (Emit (status_update Stopping)) before.
Proof.
  intros Hin. destruct (setup env w) as [did|D n did] eqn:Hs.
  - destruct (RunFacts.setup_abort _ _ _ Hs) as (_ & _ & _ & _ & Hno).
    unfold run in Hin. rewrite Hs in Hin. contradiction.
  - destruct (RunFacts.run_ready _ _ _ _ _ Hs) as (ks & e & Hrun & _).
    destruct (RunFacts.setup_ready _ _ _ _ _ Hs)
      as (_ & _ & _ & _ & _ & Hdc & Hde & Hdf & _ & Hno).
    assert (Hcount : completed (run env w) = map (fun k => k + 1) ks).
    { rewrite Hrun, !TraceFacts.completed_app, Hdc, TraceFacts.completed_successes,
        TraceFacts.completed_ending, TraceFacts.completed_report.
      cbn [app]. now rewrite !app_nil_r. }
    assert (Hrep := report_cases env w (is_cancel e) (Z.of_nat (List.length ks))
                                 (Nat2Z.is_nonneg _)).
    assert (He : e = Cancel).
    { rewrite Hrun, !in_app_iff in Hin. destruct Hin as [H|[[H|H]|H]].
      - contradiction.
      - now apply not_In_successes in H.
      - destruct e; cbn in H; intuition discriminate.
      - destruct Hrep as [(Hr & _)|[(Hr & _)|(Hr & _)]]; rewrite Hr in H; cbn in H;
          intuition discriminate. }
    subst e. cbn [is_cancel ending_trace] in Hrun, Hrep.
    exists (did ++ flat_map (success env w D n) ks).
    cbn zeta. rewrite Hcount, length_map. repeat split.
    + rewrite Hrun, <- !app_assoc. do 2 f_equal. cbn [app]. f_equal.
      destruct Hrep as [(_ & Hf & _)|[(Hr & Hc)|(Hr & _ & Hc)]]; [discriminate| |].
      * rewrite Hr, Hc. reflexivity.
      * rewrite Hr. destruct (0 <? Z.of_nat (List.length ks)) eqn:E; [reflexivity|].
        apply Z.ltb_ge in E. lia.
    + now rewrite TraceFacts.errors_app, Hde, TraceFacts.errors_successes.
    + now rewrite TraceFacts.finishes_app, Hdf, TraceFacts.finishes_successes.
    + rewrite in_app_iff. intros [H|H]; [contradiction|].
      now apply not_In_successes in H.
Qed.

(** ** A run nothing interrupts *)

Lemma outcome_all_pass (env : Env) (w : Worker) (D : Q) (i : Z) :
  stop_called env (AtIteration i) = false ->
  passes env i ->
  outcome env w D i false
  = if Plan.past_end D (Plan.window w D i) then PastEnd
    else if Plan.too_short (Plan.window w D i) then Skipped
    else Done (size_at env i).
Proof.
  intros Hstop Hp. apply passes_size in Hp. destruct Hp as (Henc & Hsz).
  unfold outcome. rewrite Hstop. cbn [orb].
  destruct (Plan.past_end _ _); [reflexivity|].
  destruct (Plan.too_short _); [reflexivity|].
  rewrite Henc. cbn. apply Z.ltb_lt in Hsz. now rewrite Hsz.
Qed.

(** With no stop seen in the loop and an encoder that always passes, the
    loop encodes exactly the windows of [plan_loop]. *)
Lemma clip_loop_all_pass (env : Env) (w : Worker) (D : Q) (n : Z) :
  (forall i, stop_called env (AtIteration i) = false) ->
  (forall i, passes env i) ->
  forall (r : nat) (i c : Z),
    clip_loop env w D n r i false c
    = (false, c + Z.of_nat (List.length (Plan.plan_loop w D r i)),
       flat_map (success env w D n)
                (map (fun s => Plan.index s - 1) (Plan.plan_loop w D r i))).
Proof.
  intros Hstop Hpass. induction r as [|r IH]; intros i c.
  - cbn. now rewrite Z.add_0_r.
  - rewrite LoopFacts.clip_loop_step, outcome_all_pass by auto.
    cbn [Plan.plan_loop].
    destruct (Plan.past_end D (Plan.window w D i)).
    + cbn. now rewrite Z.add_0_r.
    + destruct (Plan.too_short (Plan.window w D i)).
      * apply IH.
      * rewrite IH. cbn [List.length map flat_map Plan.window Plan.index].
        replace (i + 1 - 1) with i by lia.
        replace (c + 1 + Z.of_nat (List.length (Plan.plan_loop w D r (i + 1))))
          with (c + Z.of_nat (S (List.length (Plan.plan_loop w D r (i + 1))))) by lia.
        reflexivity.
Qed.

(** C10.  When the loop is entered, [stop()] is never seen by the loop but
    has been called by the time of the final test, the encoder passes on
    every clip and at least one window is planned: the run emits every
    [clip_completed], no [finished] and no [error], and its last action is
    the status "Operation stopped. c clips created." with [c] the (positive)
    number of planned clips. *)
Theorem late_stop_only_status (env : Env) (w : Worker) (D : Q) (n : Z)
    (did : list Action) :
  setup env w = Ready D n did ->
  (forall i, stop_called env (AtIteration i) = false) ->
  stop_called env AfterLoop = true ->
  (forall i, passes env i) ->
  Plan.plan w D <> [] ->
  let c := Z.of_nat (List.length (Plan.plan w D)) in
  0 < c
  /\ completed (run env w) = map Plan.index (Plan.plan w D)
  /\ finishes (run env w) = []
  /\ errors (run env w) = []
  /\ exists before, run env w = before ++ [Emit (status_update (Stopped c))].
Proof.
  intros Hs Hstop Hlate Hpass Hplan c.
  destruct (RunFacts.setup_ready _ _ _ _ _ Hs)
    as (_ & Ha & _ & _ & _ & Hdc & Hde & Hdf & _).
  assert (Hp : Plan.plan w D = Plan.plan_loop w D (Z.to_nat n) 0).
  { unfold Plan.plan. now rewrite Ha. }
  assert (Hc : 0 < c).
  { subst c. destruct (Plan.plan w D); [contradiction|]. cbn [List.length]. lia. }
  assert (Hrun : run env w
                 = did ++ flat_map (success env w D n)
                                   (map (fun s => Plan.index s - 1) (Plan.plan w D))
                       ++ [Emit (status_update (Stopped c))]).
  { unfold run. rewrite Hs, clip_loop_all_pass by assumption.
    rewrite <- Hp. cbn [Z.add]. fold c. do 2 f_equal.
    unfold report. rewrite Hlate. cbn [orb negb andb].
    destruct (c =? 0) eqn:E; [|reflexivity]. apply Z.eqb_eq in E. lia. }
  repeat split.
  - exact Hc.
  - rewrite Hrun, !TraceFacts.completed_app, Hdc, TraceFacts.completed_successes.
    cbn [app]. rewrite app_nil_r, map_map. apply map_ext. intros s. lia.
  - rewrite Hrun, !TraceFacts.finishes_app, Hdf, TraceFacts.finishes_successes.
    reflexivity.
  - rewrite Hrun, !TraceFacts.errors_app, Hde, TraceFacts.errors_successes.
    reflexivity.
  - exists (did ++ flat_map (success env w D n)
                            (map (fun s => Plan.index s - 1) (Plan.plan w D))).
    now rewrite Hrun, app_assoc.
Qed.

(** ** The clip arithmetic *)

Module PlanFacts.

Import Plan.

Lemma inject_Z_pos (z : Z) : 0 < z -> (0 < inject_Z z)%Q.
Proof.
  intros H. replace 0%Q with (inject_Z 0) by reflexivity. now rewrite <- Zlt_Qlt.
Qed.

Lemma inject_Z_neg (z : Z) : z < 0 -> (inject_Z z < 0)%Q.
Proof.
  intros H. replace 0%Q with (inject_Z 0) by reflexivity. now rewrite <- Zlt_Qlt.
Qed.

Lemma inject_Z_nonzero (z : Z) : ~ (inject_Z z == 0)%Q -> z <> 0.
Proof. intros H ->. now apply H. Qed.

Lemma div_mul (a b : Q) : ~ (b == 0)%Q -> (a / b * b == a)%Q.
Proof. intros Hb. field. exact Hb. Qed.

(** A non-negative float over a negative one is not positive. *)
Lemma div_neg_nonpos (a b : Q) : (0 <= a)%Q -> (b < 0)%Q -> (a / b <= 0)%Q.
Proof.
  intros Ha Hb. assert (Hb0 : ~ (b == 0)%Q) by lra.
  pose proof (div_mul a b Hb0) as Hm.
  destruct (Qlt_le_dec 0 (a / b)) as [Hpos|]; [|assumption].
  exfalso. assert (a / b * b < 0)%Q; [|lra].
  setoid_replace (a / b * b)%Q with (- (a / b * - b))%Q by ring.
  assert (0 < a / b * - b)%Q; [|lra].
  apply Qmult_lt_0_compat; lra.
Qed.

Lemma div_pos_nonneg (a b : Q) : (0 <= a)%Q -> (0 < b)%Q -> (0 <= a / b)%Q.
Proof.
  intros Ha Hb. unfold Qdiv. apply Qmult_le_0_compat; [assumption|].
  apply Qlt_le_weak. now apply Qinv_lt_0_compat.
Qed.

(** [a / b] against an integer bound, for a positive divisor. *)
Lemma div_lt_iff (a b c : Q) : (0 < b)%Q -> (a / b < c)%Q <-> (a < c * b)%Q.
Proof.
  intros Hb. assert (Hb0 : ~ (b == 0)%Q) by lra.
  pose proof (div_mul a b Hb0) as Hm. split; intros H.
  - rewrite <- Hm. apply Qmult_lt_compat_r; assumption.
  - apply Qnot_le_lt. intros Hle.
    assert (c * b <= a / b * b)%Q by (apply Qmult_le_compat_r; lra). lra.
Qed.

Lemma div_le_iff (a b c : Q) : (0 < b)%Q -> (a / b <= c)%Q <-> (a <= c * b)%Q.
Proof.
  intros Hb. assert (Hb0 : ~ (b == 0)%Q) by lra.
  pose proof (div_mul a b Hb0) as Hm. split; intros H.
  - rewrite <- Hm. apply Qmult_le_compat_r; lra.
  - apply Qnot_lt_le. intros Hlt.
    assert (c * b < a / b * b)%Q by (apply Qmult_lt_compat_r; lra). lra.
Qed.

Section Worker.

Import SplitWorker.

Variable w : Worker.
Variable D : Q.
Hypothesis D_pos : (0 < D)%Q.

(** A positive clip count needs a positive stride: otherwise the
    division raises or [int] gives nothing above zero. *)
Lemma stride_pos (n : Z) : actual_clips w D = inr n -> 0 < n -> 0 < stride w.
Proof.
  unfold actual_clips, stride. destruct (0 <? overlap w) eqn:Eo.
  - apply Z.ltb_lt in Eo.
    destruct (Py.truediv _ _) as [e|q] eqn:Eq; [discriminate|].
    apply PyFacts.truediv_inr in Eq. destruct Eq as (Hnz & ->).
    intros [= <-] Hn. apply inject_Z_nonzero in Hnz.
    destruct (Z.lt_trichotomy (clip_duration w - overlap w) 0) as [Hneg|[H0|Hpos]];
      [|contradiction|assumption].
    exfalso. apply inject_Z_neg in Hneg. pose proof (inject_Z_pos _ Eo) as Ho.
    assert (Hq : ((D + inject_Z (overlap w)) / inject_Z (clip_duration w - overlap w)
                  <= 0)%Q) by (apply div_neg_nonpos; lra).
    apply PyFacts.int_nonpos in Hq. lia.
  - destruct (Py.truediv _ _) as [e|q] eqn:Eq; [discriminate|].
    apply PyFacts.truediv_inr in Eq. destruct Eq as (Hnz & ->).
    intros [= <-] Hn. apply inject_Z_nonzero in Hnz.
    destruct (Z.lt_trichotomy (clip_duration w) 0) as [Hneg|[H0|Hpos]];
      [|contradiction|assumption].
    exfalso. apply inject_Z_neg in Hneg.
    assert (Hq : (D / inject_Z (clip_duration w) <= 0)%Q)
      by (apply div_neg_nonpos; lra).
    pose proof (PyFacts.int_nonpos _ Hq) as Hint.
    destruct (Py.lt 0 (Py.mod_ D (inject_Z (clip_duration w)))) eqn:Em; [|lia].
    apply PyFacts.lt_true in Em. unfold Py.mod_ in Em.
    pose proof (Qfloor_le (D / inject_Z (clip_duration w))) as Hfl.
    set (l := inject_Z (clip_duration w)) in *.
    set (f := inject_Z (Qfloor (D / l))) in *.
    assert (Hm : (D / l * l == D)%Q) by (apply div_mul; lra).
    assert (H1 : (f * - l <= D / l * - l)%Q) by (apply Qmult_le_compat_r; lra).
    assert (H2 : (D / l * - l == - D)%Q).
    { setoid_replace (D / l * - l)%Q with (- (D / l * l))%Q by ring.
      now rewrite Hm. }
    assert (H3 : (f * - l == - (l * f))%Q) by ring.
    lra.
Qed.

Lemma clip_start_stride (i : Z) :
  0 <= i -> 0 <= stride w -> clip_start w i = i * stride w.
Proof.
  unfold clip_start, stride. destruct (0 <? overlap w); intros Hi Hs; [|reflexivity].
  apply Z.max_r. now apply Z.mul_nonneg_nonneg.
Qed.

(** A window the loop hands to the encoder lies inside the video and
    lasts at least a second. *)
Lemma window_kept (k : Z) :
  past_end D (window w D k) = false ->
  too_short (window w D k) = false ->
  (inject_Z (startSeconds (window w D k)) < D)%Q
  /\ (endSeconds (window w D k) <= D)%Q
  /\ (1 <= endSeconds (window w D k) - inject_Z (startSeconds (window w D k)))%Q
  /\ (inject_Z (startSeconds (window w D k)) < endSeconds (window w D k))%Q.
Proof.
  unfold past_end, too_short. intros Hp Hs.
  apply PyFacts.ge_false in Hp. apply PyFacts.lt_false in Hs.
  repeat split; try assumption; [|lra].
  cbn [window endSeconds startSeconds]. unfold clip_end.
  destruct (PyFacts.min_cases (inject_Z (clip_start w k + clip_duration w)) D)
    as [[-> H]|[-> H]]; lra.
Qed.

(** The windows of [plan_loop] are those of an increasing list of
    indices, each inside the video and at least a second long. *)
Lemma plan_loop_indices (r : nat) (i : Z) :
  exists ks,
    plan_loop w D r i = map (window w D) ks
    /\ StronglySorted Z.lt ks
    /\ Forall (fun k => i <= k < i + Z.of_nat r
                         /\ past_end D (window w D k) = false
                         /\ too_short (window w D k) = false) ks.
Proof.
  revert i. induction r as [|r IH]; intros i.
  - exists []. repeat split; constructor.
  - cbn [plan_loop]. destruct (past_end D (window w D i)) eqn:Ep.
    + exists []. repeat split; constructor.
    + destruct (IH (i + 1)) as (ks & Heq & Hs & Hall).
      assert (Hall' : Forall (fun k => i < k /\ (i <= k < i + Z.of_nat (S r)
                                 /\ past_end D (window w D k) = false
                                 /\ too_short (window w D k) = false)) ks).
      { eapply Forall_impl; [|exact Hall]. cbn beta. intros k (Hk & ? & ?).
        repeat split; auto; lia. }
      apply Forall_and_inv in Hall'. destruct Hall' as (Hlt & Hall').
      destruct (too_short (window w D i)) eqn:Et.
      * exists ks. auto.
      * exists (i :: ks). rewrite Heq. repeat split; auto.
        -- constructor; auto.
        -- constructor; auto. repeat split; auto; lia.
Qed.

(** [plan_loop] as a formula: walk the indices in order, stop at the
    first window that starts at or after the end, drop the windows
    shorter than a second and keep every other one unchanged. *)
Lemma plan_loop_spec (r : nat) (i : Z) :
  plan_loop w D r i
  = filter (fun c => negb (too_short c))
           (take_while (fun c => negb (past_end D c))
                       (map (window w D) (range i r))).
Proof.
  revert i. induction r as [|r IH]; intros i; [reflexivity|].
  cbn [plan_loop range map take_while].
  destruct (past_end D (window w D i)); cbn [negb]; [reflexivity|].
  cbn [filter]. destruct (too_short (window w D i)); cbn [negb]; now rewrite IH.
Qed.

Lemma plan_loop_length (r : nat) (i : Z) :
  (List.length (plan_loop w D r i) <= r)%nat.
Proof.
  revert i. induction r as [|r IH]; intros i; cbn [plan_loop]; [cbn; lia|].
  destruct (past_end D (window w D i)); [cbn; lia|].
  destruct (too_short (window w D i)); cbn [List.length]; specialize (IH (i + 1)); lia.
Qed.

End Worker.

End PlanFacts.

(** ** The clips of a run against the plan *)

Import Plan.

(** Whatever the environment does, the clips handed to the encoder are the
    first windows of [plan_loop], in order. *)
Lemma clip_loop_clips_prefix (env : Env) (w : Worker) (D : Q) (n : Z)
    (r : nat) (i : Z) (s : bool) (c : Z) :
  exists k,
    clips (snd (clip_loop env w D n r i s c))
    = firstn k (map (command w) (plan_loop w D r i)).
Proof.
  revert i s c. induction r as [|r IH]; intros i s c.
  - exists 0%nat. reflexivity.
  - rewrite LoopFacts.clip_loop_step. destruct (outcome env w D i s) eqn:Eo.
    + exists 0%nat. reflexivity.
    + exists 0%nat. reflexivity.
    + apply LoopFacts.outcome_skipped in Eo. destruct Eo as (_ & _ & Ep & Et).
      cbn [plan_loop]. rewrite Ep, Et. apply IH.
    + apply LoopFacts.outcome_failed in Eo. destruct Eo as (_ & _ & Ep & Et & _).
      cbn [plan_loop]. rewrite Ep, Et. exists 1%nat. reflexivity.
    + apply LoopFacts.outcome_done in Eo. destruct Eo as (_ & _ & Ep & Et & _).
      cbn [plan_loop]. rewrite Ep, Et.
      destruct (IH (i + 1) false (c + 1)) as (k & Hk).
      destruct (clip_loop env w D n r (i + 1) false (c + 1)) as [[s' c'] rest].
      cbn [snd] in Hk |- *. exists (S k).
      cbn [map firstn]. rewrite <- Hk. reflexivity.
Qed.

Lemma run_clips_prefix (env : Env) (w : Worker) (D : Q) (n : Z) (did : list Action) :
  setup env w = Ready D n did ->
  exists k, clips (run env w) = firstn k (map (command w) (plan w D)).
Proof.
  intros Hs. destruct (RunFacts.setup_ready _ _ _ _ _ Hs)
    as (_ & Ha & _ & _ & _ & _ & _ & _ & Hdcl & _).
  destruct (clip_loop_clips_prefix env w D n (Z.to_nat n) 0 false 0) as (k & Hk).
  exists k. unfold run, plan. rewrite Hs, Ha.
  destruct (clip_loop env w D n (Z.to_nat n) 0 false 0) as [[s' c'] looped].
  cbn [snd] in Hk.
  rewrite !TraceFacts.clips_app, Hdcl, Hk, TraceFacts.clips_report.
  cbn [app]. now rewrite app_nil_r.
Qed.

Lemma run_clips_abort (env : Env) (w : Worker) (did : list Action) :
  setup env w = Abort did -> clips (run env w) = [].
Proof.
  intros Hs. destruct (RunFacts.setup_abort _ _ _ Hs) as (_ & _ & _ & Hcl & _).
  unfold run. now rewrite Hs.
Qed.

(** The plan as the windows of an increasing list of indices from 0, when
    there is anything in it. *)
Lemma plan_indices (w : Worker) (D : Q) :
  (0 < D)%Q ->
  exists ks,
    plan w D = map (window w D) ks
    /\ StronglySorted Z.lt ks
    /\ Forall (fun k => 0 <= k
                        /\ past_end D (window w D k) = false
                        /\ too_short (window w D k) = false) ks
    /\ (ks <> [] -> 0 < stride w)
    /\ (forall n, actual_clips w D = inr n -> Forall (fun k => k < n) ks).
Proof.
  intros HD. unfold plan. destruct (actual_clips w D) as [e|n] eqn:Ha.
  - exists []. repeat split; try constructor; congruence.
  - destruct (PlanFacts.plan_loop_indices w D (Z.to_nat n) 0) as (ks & Heq & Hs & Hall).
    exists ks. repeat split; auto.
    + eapply Forall_impl; [|exact Hall]. cbn beta. intros k ((? & ?) & ? & ?). auto.
    + intros Hne. apply (PlanFacts.stride_pos w D HD n Ha).
      destruct ks as [|k ks]; [contradiction|].
      inversion Hall as [|? ? ((? & ?) & _) _]; subst. lia.
    + intros n' [= <-]. eapply Forall_impl; [|exact Hall].
      cbn beta. intros k ((? & ?) & _). lia.
Qed.

Lemma windows_sorted (w : Worker) (D : Q) (ks : list Z) :
  0 < stride w ->
  Forall (fun k => 0 <= k) ks ->
  StronglySorted Z.lt ks ->
  StronglySorted (fun a b => index a < index b /\ startSeconds a < startSeconds b)
                 (map (window w D) ks).
Proof.
  intros Hst Hnn Hs. induction Hs as [|k ks Hs IH Hall]; cbn [map]; [constructor|].
  inversion Hnn as [|? ? Hk Hks]; subst. constructor; [auto|].
  rewrite Forall_map. rewrite Forall_forall in Hall, Hks |- *.
  intros k' Hin. specialize (Hall k' Hin). specialize (Hks k' Hin).
  cbn [window index startSeconds].
  rewrite !PlanFacts.clip_start_stride by lia. split; [lia|nia].
Qed.

(** C7.  For a video of positive duration, every window of the plan
    satisfies [0 <= start < end <= duration] and lasts at least a second;
    the windows are strictly increasing in clip number and in start; there
    are no more of them than requested; the plan is the sequence of
    computed windows up to the first that starts at or after the end, with
    the windows shorter than a second left out and every other window
    unchanged; and the clips any run hands to the encoder are the first
    windows of that plan, in order. *)
Theorem plan_invariants (w : Worker) (D : Q) :
  (0 < D)%Q ->
  Forall (fun c => 0 <= startSeconds c
                   /\ (inject_Z (startSeconds c) < endSeconds c)%Q
                   /\ (endSeconds c <= D)%Q
                   /\ (1 <= endSeconds c - inject_Z (startSeconds c))%Q) (plan w D)
  /\ StronglySorted (fun a b => index a < index b /\ startSeconds a < startSeconds b)
                    (plan w D)
  /\ Z.of_nat (List.length (plan w D)) <= Z.max 0 (num_clips w)
  /\ (forall n, actual_clips w D = inr n ->
        plan w D = filter (fun c => negb (too_short c))
                          (take_while (fun c => negb (past_end D c))
                                      (map (window w D) (range 0 (Z.to_nat n)))))
  /\ (forall env n did,
        setup env w = Ready D n did ->
        exists k, clips (run env w) = firstn k (map (command w) (plan w D))
                  /\ Z.of_nat (List.length (clips (run env w))) <= Z.max 0 (num_clips w)).
Proof.
  intros HD. destruct (plan_indices w D HD) as (ks & Hp & Hsorted & Hall & Hst & Hlt).
  assert (Hlen : Z.of_nat (List.length (plan w D)) <= Z.max 0 (num_clips w)).
  { unfold plan. destruct (actual_clips w D) as [e|n] eqn:Ha; [cbn; lia|].
    pose proof (PlanFacts.plan_loop_length w D (Z.to_nat n) 0) as Hl.
    assert (n <= num_clips w); [|lia].
    unfold actual_clips in Ha. destruct (0 <? overlap w);
      destruct (Py.truediv _ _); try discriminate; injection Ha as <-; lia. }
  split; [|split; [|split; [|split]]].
  - rewrite Hp, Forall_map. rewrite Forall_forall in Hall |- *.
    intros k Hin. destruct (Hall k Hin) as (Hk & Hpe & Hts).
    destruct (PlanFacts.window_kept w D k Hpe Hts) as (H1 & H2 & H3 & H4).
    repeat split; auto. cbn [window startSeconds].
    assert (Hpos : 0 < stride w).
    { apply Hst. intros ->. contradiction. }
    rewrite PlanFacts.clip_start_stride by lia. nia.
  - rewrite Hp. destruct ks as [|k0 ks']; [constructor|].
    apply windows_sorted; auto.
    + apply Hst. discriminate.
    + eapply Forall_impl; [|exact Hall]. cbn beta. tauto.
  - exact Hlen.
  - intros n Ha. unfold plan. rewrite Ha. apply PlanFacts.plan_loop_spec.
  - intros env n did Hs. destruct (run_clips_prefix _ _ _ _ _ Hs) as (k & Hk).
    exists k. split; [exact Hk|]. rewrite Hk, length_firstn, length_map. lia.
Qed.

(** ** Indices and filters *)

Lemma In_range (i : Z) (r : nat) (k : Z) :
  In k (range i r) <-> i <= k < i + Z.of_nat r.
Proof.
  revert i. induction r as [|r IH]; intros i; cbn [range In].
  - split; [contradiction|lia].
  - rewrite IH. lia.
Qed.

Lemma range_snoc (i : Z) (r : nat) :
  range i (S r) = range i r ++ [i + Z.of_nat r].
Proof.
  revert i. induction r as [|r IH]; intros i.
  - cbn. now rewrite Z.add_0_r.
  - change (range i (S (S r))) with (i :: range (i + 1) (S r)).
    rewrite IH. cbn [range app]. do 3 f_equal. lia.
Qed.

Lemma take_while_all {A} (f : A -> bool) (l : list A) :
  Forall (fun x => f x = true) l -> take_while f l = l.
Proof.
  induction 1 as [|x l Hx _ IH]; cbn [take_while]; [reflexivity|].
  now rewrite Hx, IH.
Qed.

Lemma filter_all {A} (f : A -> bool) (l : list A) :
  Forall (fun x => f x = true) l -> filter f l = l.
Proof.
  induction 1 as [|x l Hx _ IH]; cbn [filter]; [reflexivity|].
  now rewrite Hx, IH.
Qed.

Lemma sorted_NoDup (l : list Z) : StronglySorted Z.lt l -> NoDup l.
Proof.
  induction 1 as [|x l _ IH Hall]; constructor; [|assumption].
  intros Hin. rewrite Forall_forall in Hall. specialize (Hall x Hin). lia.
Qed.

Lemma starts_sorted (l : list ClipSpec) :
  StronglySorted (fun a b => index a < index b /\ startSeconds a < startSeconds b) l ->
  StronglySorted Z.lt (map startSeconds l).
Proof.
  induction 1 as [|x l _ IH Hall]; cbn [map]; constructor; [assumption|].
  rewrite Forall_map. eapply Forall_impl; [|exact Hall]. cbn beta. tauto.
Qed.

(** ** Clips that overlap *)

(** The clip arithmetic with overlap, in exact arithmetic: the start at
    index [i] is [i * (clip_duration - overlap)]; the loop bound is
    [min(num_clips, int((D + overlap) / stride))]; the plan walks the
    indices below that bound in order and stops at the first whose start is
    at or after the end of the video; every planned clip starts at its own
    multiple of the stride, before the end of the video, and ends at
    [min(start + clip_duration, D)]; no two planned clips share a start. *)
Lemma overlap_plan (w : Worker) (D : Q) :
  (0 < D)%Q ->
  0 < overlap w < clip_duration w ->
  let step := clip_duration w - overlap w in
  let n := Z.min (num_clips w) (Py.int ((D + inject_Z (overlap w)) / inject_Z step)) in
  (forall i, 0 <= i -> clip_start w i = i * step)
  /\ actual_clips w D = inr n
  /\ plan w D
     = filter (fun c => negb (too_short c))
              (take_while (fun c => Py.lt (inject_Z (startSeconds c)) D)
                          (map (window w D) (range 0 (Z.to_nat n))))
  /\ (forall j, 0 <= j -> (D <= inject_Z (j * step))%Q ->
        Forall (fun c => index c <= j) (plan w D))
  /\ Forall (fun c => startSeconds c = (index c - 1) * step
                      /\ (inject_Z (startSeconds c) < D)%Q
                      /\ endSeconds c
                         = Py.min (inject_Z (startSeconds c + clip_duration w)) D)
            (plan w D)
  /\ NoDup (map startSeconds (plan w D))
  /\ plan (Scenario.worker 30 10 5) 100
     = [ {| index := 1; startSeconds := 0; endSeconds := 30 |};
         {| index := 2; startSeconds := 25; endSeconds := 55 |};
         {| index := 3; startSeconds := 50; endSeconds := 80 |};
         {| index := 4; startSeconds := 75; endSeconds := 100 |} ].
Proof.
  intros HD Ho step n.
  assert (Hov : (0 <? overlap w) = true) by (apply Z.ltb_lt; lia).
  assert (Hstride : stride w = step) by (unfold stride; now rewrite Hov).
  assert (Hstart : forall i, 0 <= i -> clip_start w i = i * step).
  { intros i Hi. rewrite <- Hstride. apply PlanFacts.clip_start_stride; [lia|].
    rewrite Hstride. subst step. lia. }
  assert (Ha : actual_clips w D = inr n).
  { unfold actual_clips. rewrite Hov. fold step.
    rewrite PyFacts.truediv_nonzero; [reflexivity|].
    intros H. assert (Hp : (0 < inject_Z step)%Q)
      by (apply PlanFacts.inject_Z_pos; subst step; lia).
    lra. }
  destruct (plan_indices w D HD) as (ks & Hp & Hsorted & Hall & Hst & Hlt).
  assert (Hspecs : Forall (fun c => startSeconds c = (index c - 1) * step
                      /\ (inject_Z (startSeconds c) < D)%Q
                      /\ endSeconds c
                         = Py.min (inject_Z (startSeconds c + clip_duration w)) D)
                          (plan w D)).
  { rewrite Hp, Forall_map. eapply Forall_impl; [|exact Hall].
    cbn beta. intros k (Hk & Hpe & Hts).
    destruct (PlanFacts.window_kept w D k Hpe Hts) as (H1 & _).
    cbn [window index startSeconds endSeconds] in *.
    repeat split; auto. rewrite Hstart by lia. f_equal. lia. }
  split; [exact Hstart|]. split; [exact Ha|]. split; [|split; [|split; [|split]]].
  - unfold plan. rewrite Ha, PlanFacts.plan_loop_spec. reflexivity.
  - intros j Hj HDj. eapply Forall_impl; [|exact Hspecs].
    cbn beta. intros c (Hs & Hlt' & _). rewrite Hs in Hlt'.
    assert (Hz : (index c - 1) * step < j * step).
    { rewrite Zlt_Qlt. lra. }
    subst step. nia.
  - exact Hspecs.
  - apply sorted_NoDup, starts_sorted. rewrite Hp.
    destruct ks as [|k0 ks']; [constructor|].
    apply windows_sorted; auto.
    + apply Hst. discriminate.
    + eapply Forall_impl; [|exact Hall]. cbn beta. tauto.
  - reflexivity.
Qed.

(** ** Clips that do not overlap *)

Section NoOverlap.

Variable w : Worker.
Variable D : Q.
Hypothesis D_pos : (0 < D)%Q.
Hypothesis L_pos : 0 < clip_duration w.
Hypothesis no_overlap : overlap w = 0.

Lemma length_pos : (0 < inject_Z (clip_duration w))%Q.
Proof. now apply PlanFacts.inject_Z_pos. Qed.

Lemma length_ge_1 : (1 <= inject_Z (clip_duration w))%Q.
Proof.
  replace 1%Q with (inject_Z 1) by reflexivity. rewrite <- Zle_Qle. lia.
Qed.

(** An index is below [D / L] exactly when its start is before the end. *)
Lemma below_quotient (i : Z) :
  (inject_Z i < D / inject_Z (clip_duration w))%Q
  <-> (inject_Z (i * clip_duration w) < D)%Q.
Proof.
  pose proof length_pos as Hl. rewrite inject_Z_mult.
  pose proof (PlanFacts.div_le_iff D (inject_Z (clip_duration w)) (inject_Z i) Hl)
    as Hiff.
  split; intros H; apply Qnot_le_lt; intros Hle.
  - apply (proj2 Hiff) in Hle. lra.
  - apply (proj1 Hiff) in Hle. lra.
Qed.

(** Lines 142-144 compute the ceiling of [D / L]. *)
Lemma max_possible_clips_ceiling :
  (if Py.lt 0 (Py.mod_ D (inject_Z (clip_duration w)))
   then Py.int (D / inject_Z (clip_duration w)) + 1
   else Py.int (D / inject_Z (clip_duration w)))
  = Qceiling (D / inject_Z (clip_duration w)).
Proof.
  pose proof length_pos as Hl.
  assert (Hq : (0 <= D / inject_Z (clip_duration w))%Q)
    by (apply PlanFacts.div_pos_nonneg; lra).
  rewrite PyFacts.int_floor by assumption.
  pose proof (Qfloor_le (D / inject_Z (clip_duration w))) as Hfl.
  pose proof (Qlt_floor (D / inject_Z (clip_duration w))) as Hfu.
  set (f := Qfloor (D / inject_Z (clip_duration w))) in *.
  assert (Hf1 : (inject_Z (f - 1) < inject_Z f)%Q) by (rewrite <- Zlt_Qlt; lia).
  unfold Py.mod_. fold f.
  destruct (Py.lt 0 (D - inject_Z (clip_duration w) * inject_Z f)) eqn:Em.
  - apply PyFacts.lt_true in Em. symmetry. apply PyFacts.ceiling_unique.
    + replace (f + 1 - 1) with f by lia. apply below_quotient.
      rewrite inject_Z_mult. lra.
    + lra.
  - apply PyFacts.lt_false in Em. symmetry. apply PyFacts.ceiling_unique; [lra|].
    apply PlanFacts.div_le_iff; [assumption|]. lra.
Qed.

Lemma actual_clips_no_overlap :
  actual_clips w D
  = inr (Z.min (num_clips w) (Qceiling (D / inject_Z (clip_duration w)))).
Proof.
  pose proof length_pos as Hl.
  unfold actual_clips. rewrite no_overlap. cbn [Z.ltb Z.compare].
  rewrite PyFacts.truediv_nonzero by lra.
  now rewrite max_possible_clips_ceiling.
Qed.

Lemma clip_start_no_overlap (i : Z) : clip_start w i = i * clip_duration w.
Proof. unfold clip_start. now rewrite no_overlap. Qed.

(** Every index below the ceiling starts before the end. *)
Lemma starts_before_end (i : Z) :
  i < Qceiling (D / inject_Z (clip_duration w)) ->
  (inject_Z (i * clip_duration w) < D)%Q.
Proof.
  intros Hi. apply below_quotient.
  pose proof (Qceiling_lt (D / inject_Z (clip_duration w))) as Hc.
  assert ((inject_Z i
           <= inject_Z (Qceiling (D / inject_Z (clip_duration w)) - 1))%Q)
    by (rewrite <- Zle_Qle; lia).
  lra.
Qed.

(** The window at index [i] is shorter than a second exactly when less
    than a second of video is left at its start. *)
Lemma too_short_no_overlap (i : Z) :
  too_short (window w D i) = Py.lt (D - inject_Z (i * clip_duration w)) 1.
Proof.
  pose proof length_ge_1 as Hl.
  unfold too_short. cbn [window startSeconds endSeconds].
  rewrite clip_start_no_overlap. unfold clip_end.
  assert (Hsum : (inject_Z (i * clip_duration w + clip_duration w)
                  == inject_Z (i * clip_duration w) + inject_Z (clip_duration w))%Q)
    by (rewrite inject_Z_plus; reflexivity).
  destruct (PyFacts.min_cases
              (inject_Z (i * clip_duration w + clip_duration w)) D)
    as [[-> H]|[-> H]].
  - reflexivity.
  - destruct (Py.lt (D - inject_Z (i * clip_duration w)) 1) eqn:E.
    + apply PyFacts.lt_true in E. exfalso. lra.
    + apply PyFacts.lt_false. lra.
Qed.

(** A window followed by another index below the ceiling is a full one. *)
Lemma full_before_last (i : Z) :
  i + 1 < Qceiling (D / inject_Z (clip_duration w)) ->
  too_short (window w D i) = false.
Proof.
  intros Hi. pose proof length_ge_1 as Hl.
  pose proof (starts_before_end (i + 1) Hi) as Hnext.
  rewrite too_short_no_overlap. apply PyFacts.lt_false.
  assert (Hsum : (inject_Z ((i + 1) * clip_duration w)
                  == inject_Z (i * clip_duration w) + inject_Z (clip_duration w))%Q).
  { replace ((i + 1) * clip_duration w)
      with (i * clip_duration w + clip_duration w) by lia.
    rewrite inject_Z_plus. reflexivity. }
  lra.
Qed.

(** The plan without overlap: every window below the bound, the short
    ones left out. *)
Lemma plan_no_overlap :
  let n := Z.min (num_clips w) (Qceiling (D / inject_Z (clip_duration w))) in
  plan w D = filter (fun c => negb (too_short c))
                    (map (window w D) (range 0 (Z.to_nat n))).
Proof.
  intros n. unfold plan. rewrite actual_clips_no_overlap. fold n.
  rewrite PlanFacts.plan_loop_spec. f_equal. apply take_while_all.
  rewrite Forall_map, Forall_forall. intros i Hi. apply In_range in Hi.
  unfold past_end. cbn [window startSeconds]. rewrite clip_start_no_overlap.
  apply negb_true_iff, PyFacts.ge_false, starts_before_end. lia.
Qed.

Lemma length_range (i : Z) (r : nat) : List.length (range i r) = r.
Proof.
  revert i. induction r as [|r IH]; intros i; cbn [range List.length];
    [reflexivity|]. now rewrite IH.
Qed.

(** Only the last window of the range can be dropped. *)
Lemma plan_no_overlap_length :
  let n := Z.min (num_clips w) (Qceiling (D / inject_Z (clip_duration w))) in
  List.length (plan w D)
  = Z.to_nat (n - (if Py.lt (D - inject_Z ((n - 1) * clip_duration w)) 1
                   then 1 else 0)).
Proof.
  intros n. rewrite plan_no_overlap. fold n.
  destruct (Z.to_nat n) as [|m] eqn:En.
  - cbn [range map filter List.length].
    destruct (Py.lt _ 1); lia.
  - assert (Hn : n = Z.of_nat m + 1) by lia.
    rewrite range_snoc, map_app, filter_app, length_app.
    rewrite filter_all.
    + rewrite length_map, length_range. cbn [Z.add map filter].
      rewrite too_short_no_overlap.
      replace (n - 1) with (Z.of_nat m) by lia.
      destruct (Py.lt (D - inject_Z (Z.of_nat m * clip_duration w)) 1);
        cbn [negb List.length]; lia.
    + rewrite Forall_map, Forall_forall. intros i Hi. apply In_range in Hi.
      apply negb_true_iff, full_before_last. lia.
Qed.

End NoOverlap.

(** The clip arithmetic without overlap, in exact arithmetic: the loop
    bound is [min(num_clips, ceil(D / L))]; the window at every index [i]
    below it spans from [i * L] to [min((i + 1) * L, D)] and starts before
    the end of the video; the plan is these windows in order, without those
    shorter than a second; every window but the last of the range is a full
    one, so the plan has [n] clips, or [n - 1] when less than a second of
    video is left at the start of the last window. *)
Lemma no_overlap_plan (w : Worker) (D : Q) :
  (0 < D)%Q ->
  0 < clip_duration w ->
  overlap w = 0 ->
  let L := clip_duration w in
  let n := Z.min (num_clips w) (Qceiling (D / inject_Z L)) in
  actual_clips w D = inr n
  /\ (forall i, 0 <= i < n ->
        startSeconds (window w D i) = i * L
        /\ (endSeconds (window w D i) == Qmin (inject_Z ((i + 1) * L)) D)%Q
        /\ (inject_Z (i * L) < D)%Q)
  /\ plan w D = filter (fun c => negb (too_short c))
                       (map (window w D) (range 0 (Z.to_nat n)))
  /\ (forall i, 0 <= i < n - 1 -> too_short (window w D i) = false)
  /\ List.length (plan w D)
     = Z.to_nat (n - (if Py.lt (D - inject_Z ((n - 1) * L)) 1 then 1 else 0))
  /\ plan (Scenario.worker 30 10 0) 100
     = [ {| index := 1; startSeconds := 0; endSeconds := 30 |};
         {| index := 2; startSeconds := 30; endSeconds := 60 |};
         {| index := 3; startSeconds := 60; endSeconds := 90 |};
         {| index := 4; startSeconds := 90; endSeconds := 100 |} ].
Proof.
  intros HD HL HO L n.
  split; [now apply actual_clips_no_overlap|].
  split; [|split; [now apply plan_no_overlap|split; [|split]]].
  - intros i Hi. cbn [window startSeconds endSeconds].
    rewrite clip_start_no_overlap by assumption. split; [reflexivity|]. split.
    + unfold clip_end. rewrite PyFacts.min_eq.
      replace (i * clip_duration w + clip_duration w) with ((i + 1) * L)
        by (subst L; lia).
      reflexivity.
    + apply starts_before_end; try assumption. subst n L. lia.
  - intros i Hi. apply full_before_last; try assumption. subst n L. lia.
  - now apply plan_no_overlap_length.
  - reflexivity.
Qed.

(** C5 in the specification's words does not hold when less than a second
    is left for the last window: 90.5 seconds cut by 30 gives
    [min(10, ceil(90.5 / 30)) = 4], but only three clips are planned and
    produced. *)
Lemma short_last_window_dropped :
  Z.min 10 (Qceiling ((181 # 2) / inject_Z 30)) = 4
  /\ plan (Scenario.worker 30 10 0) (181 # 2)
     = [ {| index := 1; startSeconds := 0; endSeconds := 30 |};
         {| index := 2; startSeconds := 30; endSeconds := 60 |};
         {| index := 3; startSeconds := 60; endSeconds := 90 |} ]
  /\ completed (run (Scenario.env (181 # 2) Scenario.all_ok Scenario.never)
                    (Scenario.worker 30 10 0))
     = [1; 2; 3]
  /\ finishes (run (Scenario.env (181 # 2) Scenario.all_ok Scenario.never)
                   (Scenario.worker 30 10 0))
     = [3].
Proof. repeat split; reflexivity. Qed.

(** ** A clip that fails *)

(** C1 at Scenario E: five clips planned, the third invocation exits with
    code 1.  The fourth and fifth clips are never attempted and the count
    is 2, but after the [error] signal the run still reports success and
    emits [finished]. *)
Theorem failed_clip_then_finished :
  run (Scenario.env 150 (Scenario.fails_at 2) Scenario.never) (Scenario.worker 30 5 0)
  = [ Subprocess FfmpegVersion;
      Emit (status_update Analyzing);
      Subprocess (Ffprobe "in.mp4");
      Emit (status_update (VideoSummary 150));
      Makedirs "out";
      Emit (status_update (Creating 5));
      Emit (status_update (Processing 1 5 0 30));
      Subprocess (FfmpegClip 1 0 30 StreamCopy);
      Emit (clip_completed 1 2048);
      Emit (progress 20);
      Emit (status_update (Processing 2 5 30 60));
      Subprocess (FfmpegClip 2 30 30 StreamCopy);
      Emit (clip_completed 2 2048);
      Emit (progress 40);
      Emit (status_update (Processing 3 5 60 90));
      Subprocess (FfmpegClip 3 60 30 StreamCopy);
      Emit (error (ClipFailed 3 FfmpegStderr));
      Emit (status_update (Success 2));
      Emit (finished "out" 2) ].
Proof. reflexivity. Qed.

(** The same happens whenever the loop ends on a failed clip after at
    least one success and nobody has called [stop]: both terminal signals
    are emitted; with no success before the failure, [error] is emitted
    twice. *)
Lemma failure_after_success_finishes (env : Env) (w : Worker) (D : Q) (n : Z)
    (did : list Action) (e : ErrorMsg) :
  setup env w = Ready D n did ->
  stop_called env AfterLoop = false ->
  In e (errors (run env w)) ->
  e <> NoClips ->
  let c := Z.of_nat (List.length (completed (run env w))) in
  (0 < c -> errors (run env w) = [e] /\ finishes (run env w) = [c])
  /\ (c = 0 -> errors (run env w) = [e; NoClips] /\ finishes (run env w) = []).
Proof.
  intros Hs Hlate Hin Hne c.
  destruct (RunFacts.run_ready _ _ _ _ _ Hs) as (ks & en & Hrun & _).
  destruct (RunFacts.setup_ready _ _ _ _ _ Hs)
    as (_ & _ & _ & _ & _ & Hdc & Hde & Hdf & _).
  assert (Hc : c = Z.of_nat (List.length ks)).
  { subst c. rewrite Hrun, !TraceFacts.completed_app, Hdc,
      TraceFacts.completed_successes, TraceFacts.completed_ending,
      TraceFacts.completed_report.
    cbn [app]. now rewrite !app_nil_r, length_map. }
  assert (He : errors (run env w)
               = match en with Fail _ msg => [msg] | _ => [] end
                   ++ errors (report env w (is_cancel en) c)).
  { rewrite Hrun, !TraceFacts.errors_app, Hde, TraceFacts.errors_successes,
      TraceFacts.errors_ending, <- Hc. reflexivity. }
  assert (Hf : finishes (run env w) = finishes (report env w (is_cancel en) c)).
  { rewrite Hrun, !TraceFacts.finishes_app, Hdf, TraceFacts.finishes_successes,
      TraceFacts.finishes_ending, <- Hc. reflexivity. }
  rewrite He, Hf in *. clear He Hf Hrun.
  assert (Hc0 : 0 <= c) by lia.
  destruct (report_cases env w (is_cancel en) c Hc0)
    as [(Hr & _ & _ & Hpos)|[(Hr & Hz)|(Hr & Hor & Hnz)]];
    rewrite Hr in *; cbn [errors finishes signals flat_map app] in *.
  - destruct en as [| |j msg]; cbn [In app] in Hin; try contradiction.
    destruct Hin as [->|[]]. split; [auto|lia].
  - destruct en as [| |j msg]; cbn [In app] in Hin.
    + destruct Hin as [<-|[]]. contradiction.
    + destruct Hin as [<-|[]]. contradiction.
    + destruct Hin as [->|[<-|[]]]; [|contradiction]. split; [lia|auto].
  - destruct Hor as [Hcan|Hstop]; [|congruence].
    destruct en; try discriminate. cbn in Hin. contradiction.
Qed.

(** C4 in the specification's words does not hold when no clip has been
    completed at the moment the loop sees the flag: the cancelled job ends
    with the [error] signal.  First job: five clips planned, [stop()] called before the
    first iteration.  Second job: half a second of video, length 3,
    overlap 2; the window at index 0 is skipped as too short, [stop()] is
    called, and the iteration at index 1 sees the flag. *)
Lemma cancel_without_clip_is_error :
  run (Scenario.env 150 Scenario.all_ok (Scenario.before_iteration 0))
      (Scenario.worker 30 5 0)
  = [ Subprocess FfmpegVersion;
      Emit (status_update Analyzing);
      Subprocess (Ffprobe "in.mp4");
      Emit (status_update (VideoSummary 150));
      Makedirs "out";
      Emit (status_update (Creating 5));
      Emit (status_update Stopping);
      Emit (error NoClips) ]
  /\ run (Scenario.env (1 # 2) Scenario.all_ok (Scenario.before_iteration 1))
         (Scenario.worker 3 2 2)
     = [ Subprocess FfmpegVersion;
         Emit (status_update Analyzing);
         Subprocess (Ffprobe "in.mp4");
         Emit (status_update (VideoSummary (1 # 2)));
         Makedirs "out";
         Emit (status_update (Creating 2));
         Emit (status_update Stopping);
         Emit (error NoClips) ].
Proof. split; reflexivity. Qed.

(** Scenario D: five clips planned, [stop()] called while the second clip
    is encoded. *)
Lemma cancel_after_two_clips :
  run (Scenario.env 150 Scenario.all_ok (Scenario.before_iteration 2))
      (Scenario.worker 30 5 0)
  = [ Subprocess FfmpegVersion;
      Emit (status_update Analyzing);
      Subprocess (Ffprobe "in.mp4");
      Emit (status_update (VideoSummary 150));
      Makedirs "out";
      Emit (status_update (Creating 5));
      Emit (status_update (Processing 1 5 0 30));
      Subprocess (FfmpegClip 1 0 30 StreamCopy);
      Emit (clip_completed 1 2048);
      Emit (progress 20);
      Emit (status_update (Processing 2 5 30 60));
      Subprocess (FfmpegClip 2 30 30 StreamCopy);
      Emit (clip_completed 2 2048);
      Emit (progress 40);
      Emit (status_update Stopping);
      Emit (status_update (Stopped 2)) ].
Proof. reflexivity. Qed.

(** ** An overlap that is not smaller than the clip length *)

(** The worker itself does not validate the overlap: it first runs
    [ffmpeg -version] and ffprobe, and only then fails on the arithmetic.
    It never reaches the encoder and ends with exactly one [error]. *)
Lemma run_invalid_overlap (env : Env) (w : Worker) :
  clip_duration w <= overlap w ->
  clips (run env w) = []
  /\ finishes (run env w) = []
  /\ exists e, errors (run env w) = [e].
Proof.
  intros Hbad. destruct (setup env w) as [did|D n did] eqn:Hs.
  - assert (Hrun : run env w = did) by (unfold run; now rewrite Hs).
    destruct (RunFacts.setup_abort _ _ _ Hs) as (_ & _ & Hf & Hcl & _).
    rewrite Hrun. repeat split; auto.
    clear Hrun Hf Hcl. revert Hs. unfold setup, check_ffmpeg.
    destruct (which_ffmpeg env); cbn [negb]; [|intros [= <-]; eexists; reflexivity].
    destruct (ffmpeg_version env) as [[]|rc]; cbn [negb];
      try (intros [= <-]; eexists; reflexivity).
    destruct (rc =? 0); cbn [negb]; [|intros [= <-]; eexists; reflexivity].
    destruct (get_video_info (eval_rest env) (ffprobe env)) as [info|];
      [|intros [= <-]; eexists; reflexivity].
    destruct (Qle_bool (duration info) 0); [intros [= <-]; eexists; reflexivity|].
    destruct (makedirs env); [intros [= <-]; eexists; reflexivity|].
    destruct (actual_clips w (duration info)) as [e|m];
      [intros [= <-]; eexists; reflexivity|].
    destruct (m =? 0); [intros [= <-]; eexists; reflexivity|discriminate].
  - destruct (RunFacts.setup_ready _ _ _ _ _ Hs)
      as (HD & Ha & Hn & _ & _ & _ & Hde & Hdf & Hdcl & _).
    assert (Hneg : n <= 0).
    { destruct (Z_le_gt_dec n 0) as [|Hpos]; [assumption|]. exfalso.
      assert (Hst : 0 < stride w) by (apply (PlanFacts.stride_pos w D HD n Ha); lia).
      unfold stride in Hst. destruct (0 <? overlap w) eqn:Eo; [lia|].
      apply Z.ltb_ge in Eo. lia. }
    assert (Hrun : run env w = did ++ [Emit (error NoClips)]).
    { unfold run. rewrite Hs. replace (Z.to_nat n) with 0%nat by lia.
      cbn [clip_loop app]. unfold report.
      destruct (stop_called env AfterLoop); reflexivity. }
    rewrite Hrun, TraceFacts.clips_app, TraceFacts.finishes_app, TraceFacts.errors_app,
      Hde, Hdf, Hdcl.
    repeat split. eexists. reflexivity.
Qed.

Import VideoSplitterApp.

(** C2 in the specification's words does not hold for "before any
    external subprocess": with a file and a folder selected and FFmpeg
    installed, pressing Start with overlap 30 and length 30 first runs
    [ffmpeg -version] and then shows the "Invalid Overlap" warning. *)
Lemma overlap_rejected_after_version_check :
  start_splitting (Scenario.app 30 10 30) Scenario.desk
  = [ Did (Subprocess FfmpegVersion); Box InvalidOverlap ].
Proof. reflexivity. Qed.

(** C2, as the code has it.  For every request whose overlap is not smaller than
    the clip length, [start_splitting] never starts a worker, so neither
    ffprobe nor the encoder is run for the job, and the only sub-process it
    can have spawned is the [ffmpeg -version] check that precedes the
    validation; when the earlier checks pass (file and folder selected,
    file present, FFmpeg found and working) it runs that check and shows
    the "Invalid Overlap" warning.  A worker handed such a request directly
    never reaches the encoder and ends with exactly one [error]. *)
Theorem invalid_overlap_rejected (a : App) (d : Desk) :
  duration_input a <= overlap_input a ->
  (forall w, ~ In (StartWorker w) (start_splitting a d))
  /\ (forall c, In (Did (Subprocess c)) (start_splitting a d) -> c = FfmpegVersion)
  /\ (forall file dir,
        truthy (input_file a) = Some file ->
        truthy (output_dir a) = Some dir ->
        path_exists d = true ->
        which_ffmpeg d = true ->
        ffmpeg_version d = RunExit 0 ->
        start_splitting a d = [Did (Subprocess FfmpegVersion); Box InvalidOverlap])
  /\ (forall env w,
        SplitWorker.clip_duration w = duration_input a ->
        SplitWorker.overlap w = overlap_input a ->
        clips (run env w) = [] /\ finishes (run env w) = []
        /\ exists e, errors (run env w) = [e]).
Proof.
  intros Hbad. apply Z.leb_le in Hbad.
  split; [|split; [|split]].
  - intros w. unfold start_splitting, check_ffmpeg.
    destruct (truthy (input_file a)); [|cbn; intuition discriminate].
    destruct (truthy (output_dir a)); [|cbn; intuition discriminate].
    destruct (path_exists d); cbn [negb]; [|cbn; intuition discriminate].
    destruct (which_ffmpeg d); cbn [negb]; [|cbn; intuition discriminate].
    destruct (ffmpeg_version d) as [[]|rc]; cbn [negb];
      try (cbn; intuition discriminate).
    destruct (rc =? 0); cbn [negb]; [|cbn; intuition discriminate].
    rewrite Hbad. cbn; intuition discriminate.
  - intros c. unfold start_splitting, check_ffmpeg.
    destruct (truthy (input_file a)); [|cbn; intuition discriminate].
    destruct (truthy (output_dir a)); [|cbn; intuition discriminate].
    destruct (path_exists d); cbn [negb]; [|cbn; intuition discriminate].
    destruct (which_ffmpeg d); cbn [negb]; [|cbn; intuition discriminate].
    destruct (ffmpeg_version d) as [[]|rc]; cbn [negb];
      try (cbn; intuition congruence).
    destruct (rc =? 0); cbn [negb]; [|cbn; intuition congruence].
    rewrite Hbad. cbn; intuition congruence.
  - intros file dir Hf Hd He Hw Hv. unfold start_splitting, check_ffmpeg.
    rewrite Hf, Hd, He, Hw, Hv. cbn [negb Z.eqb]. now rewrite Hbad.
  - intros env w HL HO. apply run_invalid_overlap. apply Z.leb_le in Hbad. lia.
Qed.

(** ** The frame rate *)











(** ** The theorems at concrete jobs *)


(** [invalid_overlap_rejected] with overlap 30 and length 30. *)
Lemma invalid_overlap_rejected_witness :
  duration_input (Scenario.app 30 10 30) <= overlap_input (Scenario.app 30 10 30)
  /\ (forall w, ~ In (StartWorker w)
                     (start_splitting (Scenario.app 30 10 30) Scenario.desk))
  /\ start_splitting (Scenario.app 30 10 30) Scenario.desk
     = [Did (Subprocess FfmpegVersion); Box InvalidOverlap].
Proof.
  assert (H : duration_input (Scenario.app 30 10 30)
              <= overlap_input (Scenario.app 30 10 30)).
  { cbn. lia. }
  split; [exact H|].
  destruct (invalid_overlap_rejected (Scenario.app 30 10 30) Scenario.desk H)
    as (Hno & _ & Hbox & _).
  split; [exact Hno|].
  apply (Hbox "in.mp4"%string "out"%string); reflexivity.
Defined.

(** [cancel_reported] at Scenario D. *)
Lemma cancel_reported_witness :
  In (Emit (status_update Stopping))
     (run (Scenario.env 150 Scenario.all_ok (Scenario.before_iteration 2))
          (Scenario.worker 30 5 0))
  /\ exists before,
       run (Scenario.env 150 Scenario.all_ok (Scenario.before_iteration 2))
           (Scenario.worker 30 5 0)
       = before ++ [Emit (status_update Stopping); Emit (status_update (Stopped 2))]
       /\ errors before = []
       /\ finishes before = []
       /\ ~ In (Emit (status_update Stopping)) before.
Proof.
  assert (H : In (Emit (status_update Stopping))
                 (run (Scenario.env 150 Scenario.all_ok (Scenario.before_iteration 2))
                      (Scenario.worker 30 5 0))).
  { rewrite cancel_after_two_clips. cbn. repeat first [left; reflexivity | right]. }
  split; [exact H|].
  exact (cancel_reported _ _ H).
Defined.

(** [plan_invariants] at Scenario B, with an encoder that fails on the
    third clip. *)
Lemma plan_invariants_witness :
  (0 < 100)%Q
  /\ Z.of_nat (List.length (plan (Scenario.worker 30 10 5) 100)) <= 10
  /\ exists k,
       clips (run (Scenario.env 100 (Scenario.fails_at 2) Scenario.never)
                  (Scenario.worker 30 10 5))
       = firstn k (map (command (Scenario.worker 30 10 5))
                       (plan (Scenario.worker 30 10 5) 100))
       /\ Z.of_nat (List.length
                      (clips (run (Scenario.env 100 (Scenario.fails_at 2) Scenario.never)
                                  (Scenario.worker 30 10 5)))) <= 10.
Proof.
  assert (HD : (0 < 100)%Q) by reflexivity.
  split; [exact HD|].
  destruct (plan_invariants (Scenario.worker 30 10 5) 100 HD)
    as (_ & _ & Hlen & _ & Hrun).
  split; [exact Hlen|].
  exact (Hrun (Scenario.env 100 (Scenario.fails_at 2) Scenario.never) 4 _ eq_refl).
Defined.

(** [counted_only_when_verified] on a job whose second clip exits 0 and
    leaves a file of exactly 1024 bytes. *)
Lemma counted_only_when_verified_witness :
  (attempted (run (Scenario.env 150 (Scenario.small_at 1 1024) Scenario.never)
                  (Scenario.worker 30 5 0)) 2
   /\ encoder (Scenario.env 150 (Scenario.small_at 1 1024) Scenario.never) (2 - 1)
      = Returned 0 (Some 1024))
  /\ In (Emit (error (ClipFailed 2 MissingOrTooSmall)))
        (run (Scenario.env 150 (Scenario.small_at 1 1024) Scenario.never)
             (Scenario.worker 30 5 0))
  /\ ~ In 2 (completed (run (Scenario.env 150 (Scenario.small_at 1 1024) Scenario.never)
                            (Scenario.worker 30 5 0))).
Proof.
  assert (Ha : attempted (run (Scenario.env 150 (Scenario.small_at 1 1024) Scenario.never)
                              (Scenario.worker 30 5 0)) 2).
  { exists 30, 30%Q, StreamCopy. cbn. repeat first [left; reflexivity | right]. }
  split; [split; [exact Ha|reflexivity]|].
  destruct (counted_only_when_verified
              (Scenario.env 150 (Scenario.small_at 1 1024) Scenario.never)
              (Scenario.worker 30 5 0)) as (_ & Hsmall & _).
  apply (Hsmall 2 (Some 1024) Ha eq_refl).
  intros size Hsize. injection Hsize as <-. lia.
Defined.

(** [late_stop_only_status]: five clips, all encoded, [stop()] called while
    the fifth is encoded. *)
Lemma late_stop_only_status_witness :
  (setup (Scenario.env 150 Scenario.all_ok Scenario.after_loop) (Scenario.worker 30 5 0)
   = Ready 150 5
       [ Subprocess FfmpegVersion;
         Emit (status_update Analyzing);
         Subprocess (Ffprobe "in.mp4");
         Emit (status_update (VideoSummary 150));
         Makedirs "out";
         Emit (status_update (Creating 5)) ]
   /\ (forall i, stop_called (Scenario.env 150 Scenario.all_ok Scenario.after_loop)
                             (AtIteration i) = false)
   /\ stop_called (Scenario.env 150 Scenario.all_ok Scenario.after_loop) AfterLoop = true
   /\ (forall i, passes (Scenario.env 150 Scenario.all_ok Scenario.after_loop) i)
   /\ plan (Scenario.worker 30 5 0) 150 <> [])
  /\ completed (run (Scenario.env 150 Scenario.all_ok Scenario.after_loop)
                    (Scenario.worker 30 5 0))
     = [1; 2; 3; 4; 5]
  /\ finishes (run (Scenario.env 150 Scenario.all_ok Scenario.after_loop)
                   (Scenario.worker 30 5 0)) = []
  /\ errors (run (Scenario.env 150 Scenario.all_ok Scenario.after_loop)
                 (Scenario.worker 30 5 0)) = []
  /\ exists before,
       run (Scenario.env 150 Scenario.all_ok Scenario.after_loop) (Scenario.worker 30 5 0)
       = before ++ [Emit (status_update (Stopped 5))].
Proof.
  assert (Hpass : forall i, passes (Scenario.env 150 Scenario.all_ok Scenario.after_loop) i).
  { intros i. exists 2048. split; [reflexivity|lia]. }
  assert (Hplan : plan (Scenario.worker 30 5 0) 150 <> []).
  { cbv. discriminate. }
  split; [repeat split; auto|].
  destruct (late_stop_only_status
              (Scenario.env 150 Scenario.all_ok Scenario.after_loop)
              (Scenario.worker 30 5 0) 150 5 _ eq_refl
              (fun i => eq_refl) eq_refl Hpass Hplan)
    as (_ & Hc & Hf & He & Hlast).
  split; [exact Hc|]. split; [exact Hf|]. split; [exact He|exact Hlast].
Defined.

(* ------------------------------------------------------------------ *)
(** * Further properties *)

(** ** Button colours *)

Module ColorFacts.

Import ModernButton.

Lemma clamp_range (c amount : Z) : 0 <= clamp c amount <= 255.
Proof. unfold clamp. lia. Qed.

Lemma hex_char_digit (d : Z) : 0 <= d <= 15 -> hex_digit (hex_char d) = Some d.
Proof.
  intros Hd. rewrite <- (Z2Nat.id d) by lia.
  assert (Hk : (Z.to_nat d < 16)%nat) by lia.
  generalize dependent (Z.to_nat d). intros k Hk.
  do 16 (destruct k as [|k]; [reflexivity|]). lia.
Qed.

(** The two digits [format_02x] writes read back as the value. *)
Lemma format_02x_digits (v : Z) :
  0 <= v <= 255 ->
  exists a b,
    format_02x v = String a (String b EmptyString)
    /\ hex_digit a = Some (v / 16)
    /\ hex_digit b = Some (v mod 16).
Proof.
  intros Hv. exists (hex_char (v / 16)), (hex_char (v mod 16)).
  split; [reflexivity|].
  split; apply hex_char_digit.
  - assert (v / 16 < 16) by (apply Z.div_lt_upper_bound; lia).
    split; [apply Z.div_pos; lia|lia].
  - pose proof (Z.mod_pos_bound v 16). lia.
Qed.

Lemma parse_formatted (r g b : Z) :
  0 <= r <= 255 -> 0 <= g <= 255 -> 0 <= b <= 255 ->
  parse_color (String "#" (format_02x r ++ format_02x g ++ format_02x b))
  = Some (r, g, b).
Proof.
  intros Hr Hg Hb.
  destruct (format_02x_digits r Hr) as (r1 & r2 & -> & Hr1 & Hr2).
  destruct (format_02x_digits g Hg) as (g1 & g2 & -> & Hg1 & Hg2).
  destruct (format_02x_digits b Hb) as (b1 & b2 & -> & Hb1 & Hb2).
  cbn [String.append parse_color]. rewrite Hr1, Hr2, Hg1, Hg2, Hb1, Hb2.
  cbn [Ascii.eqb Bool.eqb].
  pose proof (Z.div_mod r 16). pose proof (Z.div_mod g 16).
  pose proof (Z.div_mod b 16).
  repeat f_equal; lia.
Qed.

Lemma hex_digit_not_hash (c : ascii) (v : Z) :
  hex_digit c = Some v -> Ascii.eqb c "#" = false.
Proof.
  intros H. destruct (Ascii.eqb_spec c "#") as [->|]; [|reflexivity].
  vm_compute in H. discriminate.
Qed.

(** Every failure of [adjust_color] is a ValueError of [int]. *)
Lemma int16_error (s : Slice) (e : Py.exn) : int16 s = inl e -> e = Py.ValueError.
Proof.
  destruct s as [|a|a b]; cbn [int16].
  - now intros [= <-].
  - destruct (hex_digit a); [discriminate|]. now intros [= <-].
  - destruct (hex_digit a), (hex_digit b);
      repeat match goal with
             | |- context [if ?c then _ else _] => destruct c
             end;
      try discriminate; now intros [= <-].
Qed.

(** X1.  Whatever the text and the amount, when [adjust_color] returns it
    returns a well-formed colour: a [#] and six hexadecimal digits, each
    of the three channels between 0 and 255; and when it raises, it
    raises ValueError. *)
Theorem adjust_color_well_formed (color : string) (amount : Z) :
  match adjust_color color amount with
  | inr s =>
      exists r g b,
        parse_color s = Some (r, g, b)
        /\ 0 <= r <= 255 /\ 0 <= g <= 255 /\ 0 <= b <= 255
  | inl e => e = Py.ValueError
  end.
Proof.
  unfold adjust_color.
  destruct (int16 (slice2 (lstrip_hash color) 0)) as [e|r] eqn:Er;
    [now apply int16_error in Er|].
  destruct (int16 (slice2 (lstrip_hash color) 2)) as [e|g] eqn:Eg;
    [now apply int16_error in Eg|].
  destruct (int16 (slice2 (lstrip_hash color) 4)) as [e|b] eqn:Eb;
    [now apply int16_error in Eb|].
  exists (clamp r amount), (clamp g amount), (clamp b amount).
  split; [apply parse_formatted; apply clamp_range|].
  repeat split; apply clamp_range.
Qed.

Lemma hex_digit_range (c : ascii) (v : Z) : hex_digit c = Some v -> 0 <= v <= 15.
Proof.
  unfold hex_digit. cbv zeta.
  set (n := Z.of_nat (nat_of_ascii c)).
  destruct ((48 <=? n) && (n <=? 57)) eqn:E1.
  { apply andb_prop in E1. destruct E1 as [H1 H2].
    apply Z.leb_le in H1, H2. intros [= <-]. lia. }
  destruct ((97 <=? n) && (n <=? 102)) eqn:E2.
  { apply andb_prop in E2. destruct E2 as [H1 H2].
    apply Z.leb_le in H1, H2. intros [= <-]. lia. }
  destruct ((65 <=? n) && (n <=? 70)) eqn:E3; [|discriminate].
  apply andb_prop in E3. destruct E3 as [H1 H2].
  apply Z.leb_le in H1, H2. intros [= <-]. lia.
Qed.

Lemma parse_color_range (color : string) (r g b : Z) :
  parse_color color = Some (r, g, b) ->
  0 <= r <= 255 /\ 0 <= g <= 255 /\ 0 <= b <= 255.
Proof.
  unfold parse_color.
  destruct color as [|h [|r1 [|r2 [|g1 [|g2 [|b1 [|b2 [|x rest]]]]]]]];
    try discriminate.
  destruct (Ascii.eqb h "#"); [|discriminate].
  destruct (hex_digit r1) as [vr1|] eqn:Er1; [|discriminate].
  destruct (hex_digit r2) as [vr2|] eqn:Er2; [|discriminate].
  destruct (hex_digit g1) as [vg1|] eqn:Eg1; [|discriminate].
  destruct (hex_digit g2) as [vg2|] eqn:Eg2; [|discriminate].
  destruct (hex_digit b1) as [vb1|] eqn:Eb1; [|discriminate].
  destruct (hex_digit b2) as [vb2|] eqn:Eb2; [|discriminate].
  apply hex_digit_range in Er1, Er2, Eg1, Eg2, Eb1, Eb2.
  remember (16 * vr1 + vr2) as R eqn:HR.
  remember (16 * vg1 + vg2) as G eqn:HG.
  remember (16 * vb1 + vb2) as B eqn:HB.
  intros [= <- <- <-]. lia.
Qed.

(** [adjust_color] on a colour written [#rrggbb]. *)
Lemma adjust_color_parsed (color : string) (amount r g b : Z) :
  parse_color color = Some (r, g, b) ->
  adjust_color color amount
  = inr (String "#" (format_02x (clamp r amount)
                     ++ format_02x (clamp g amount)
                     ++ format_02x (clamp b amount))).
Proof.
  intros Hp. unfold parse_color in Hp.
  destruct color as [|h [|r1 [|r2 [|g1 [|g2 [|b1 [|b2 [|x rest]]]]]]]];
    try discriminate.
  destruct (Ascii.eqb_spec h "#") as [->|]; [|discriminate].
  destruct (hex_digit r1) as [vr1|] eqn:Er1; [|discriminate].
  destruct (hex_digit r2) as [vr2|] eqn:Er2; [|discriminate].
  destruct (hex_digit g1) as [vg1|] eqn:Eg1; [|discriminate].
  destruct (hex_digit g2) as [vg2|] eqn:Eg2; [|discriminate].
  destruct (hex_digit b1) as [vb1|] eqn:Eb1; [|discriminate].
  destruct (hex_digit b2) as [vb2|] eqn:Eb2; [|discriminate].
  injection Hp as <- <- <-.
  unfold adjust_color. cbn [lstrip_hash].
  change (Ascii.eqb "#" "#") with true. cbn iota.
  rewrite (hex_digit_not_hash _ _ Er1).
  unfold slice2. cbn [substring int16].
  now rewrite Er1, Er2, Eg1, Eg2, Eb1, Eb2.
Qed.

(** X2.  On a colour written [#rrggbb], [adjust_color] adds the amount to
    each channel and clamps it to 0..255: the result reads back as the
    three clamped channels (its letters are in lower case). *)
Theorem adjust_color_channels (color : string) (amount r g b : Z) :
  parse_color color = Some (r, g, b) ->
  exists s,
    adjust_color color amount = inr s
    /\ parse_color s
       = Some (Z.max 0 (Z.min 255 (r + amount)),
               Z.max 0 (Z.min 255 (g + amount)),
               Z.max 0 (Z.min 255 (b + amount))).
Proof.
  intros Hp. eexists. split; [apply adjust_color_parsed; exact Hp|].
  apply (parse_formatted (clamp r amount) (clamp g amount) (clamp b amount));
    apply clamp_range.
Qed.

(** X3.  Darkening (or lightening) twice is darkening once by the sum: on
    a colour written [#rrggbb] and two amounts of the same sign, adjusting
    the adjusted colour gives what one adjustment by the sum gives; and an
    adjusted colour is a fixed point of adjusting by 0. *)
Theorem adjust_color_compose (color s : string) (a b : Z) (rgb : Z * Z * Z) :
  parse_color color = Some rgb ->
  (0 <= a /\ 0 <= b) \/ (a <= 0 /\ b <= 0) ->
  adjust_color color a = inr s ->
  adjust_color s b = adjust_color color (a + b)
  /\ adjust_color s 0 = inr s.
Proof.
  intros Hp Hsign Hs. destruct rgb as [[r g] bl].
  pose proof (parse_color_range _ _ _ _ Hp) as Hrange.
  pose proof (adjust_color_parsed color a _ _ _ Hp) as Hsa.
  rewrite Hs in Hsa. injection Hsa as Hsa.
  assert (Hps : parse_color s = Some (clamp r a, clamp g a, clamp bl a)).
  { rewrite Hsa. apply parse_formatted; apply clamp_range. }
  rewrite (adjust_color_parsed s b _ _ _ Hps), (adjust_color_parsed s 0 _ _ _ Hps),
    (adjust_color_parsed color (a + b) _ _ _ Hp).
  assert (Hc : forall v, 0 <= v <= 255 -> clamp (clamp v a) b = clamp v (a + b))
    by (intros; unfold clamp; lia).
  assert (H0 : forall v, clamp (clamp v a) 0 = clamp v a)
    by (intros; unfold clamp; lia).
  split.
  - now rewrite !Hc by tauto.
  - now rewrite Hsa, !H0.
Qed.

(** X4.  A colour with fewer than five characters after its leading [#]
    signs is rejected with ValueError: the empty text, and the three-digit
    short form [#abc]. *)
Theorem adjust_color_short (color : string) (amount : Z) :
  (String.length (lstrip_hash color) < 5)%nat ->
  adjust_color color amount = inl Py.ValueError.
Proof.
  intros Hlen. unfold adjust_color.
  assert (H4 : slice2 (lstrip_hash color) 4 = Empty).
  { destruct (lstrip_hash color) as [|c1 [|c2 [|c3 [|c4 [|c5 rest]]]]];
      try reflexivity. cbn [String.length] in Hlen. lia. }
  rewrite H4. cbn [int16].
  destruct (int16 (slice2 (lstrip_hash color) 0)) as [e|r] eqn:Er;
    [now apply int16_error in Er; subst|].
  destruct (int16 (slice2 (lstrip_hash color) 2)) as [e|g] eqn:Eg;
    [now apply int16_error in Eg; subst|].
  reflexivity.
Qed.

End ColorFacts.

(** ** The streams of a probe *)

Module StreamFacts.

Lemma video_not_audio (s : Stream) :
  is_type "video" s = true -> is_type "audio" s = false.
Proof.
  unfold is_type. destruct (codec_type s) as [t|]; [|discriminate].
  intros H. apply String.eqb_eq in H. subst t. reflexivity.
Qed.

Lemma find_streams_from (l : list Stream) (v a : option Stream) :
  find_streams l v a
  = (match v with Some _ => v | None => find (is_type "video") l end,
     match a with Some _ => a | None => find (is_type "audio") l end).
Proof.
  revert v a. induction l as [|s l IH]; intros v a; cbn [find_streams find].
  - destruct v, a; reflexivity.
  - destruct (is_type "video" s) eqn:Ev.
    + rewrite (video_not_audio s Ev).
      destruct v as [v|]; cbn [unset andb]; rewrite IH; destruct a; reflexivity.
    + cbn [andb]. destruct (is_type "audio" s) eqn:Ea.
      * destruct a as [a|]; cbn [unset andb]; rewrite IH; destruct v; reflexivity.
      * cbn [andb]. rewrite IH. destruct v, a; reflexivity.
Qed.

(** X5.  The loop over the streams picks the first stream whose type is
    video and the first whose type is audio, wherever they stand in the
    list and whatever follows them. *)
Theorem find_streams_first (l : list Stream) :
  find_streams l None None
  = (find (is_type "video") l, find (is_type "audio") l).
Proof. apply find_streams_from. Qed.

(** X6.  A file without a video stream is not an error: when ffprobe exits
    0 with readable duration and size and no stream of type video,
    [get_video_info] never evaluates a frame rate and returns the defaults
    (codec "unknown", 0 x 0, 0 fps) with the codec of the first audio
    stream, or "none". *)
Theorem get_video_info_no_video (rest : string -> EvalResult) (D : Q) (bytes : Z)
    (l : list Stream) :
  Forall (fun s => is_type "video" s = false) l ->
  get_video_info rest
    (ProbeExit 0 (Some {| format_duration := Present D;
                          format_size := Present bytes;
                          streams := l |}))
  = Some {| duration := D;
            size := bytes;
            video_codec := Some "unknown"%string;
            audio_codec := match find (is_type "audio") l with
                           | Some a => codec_name a
                           | None => Some "none"%string
                           end;
            vwidth := Some 0;
            vheight := Some 0;
            fps := 0 |}.
Proof.
  intros Hno.
  assert (Hv : find (is_type "video") l = None).
  { induction Hno as [|s l Hs _ IH]; cbn [find]; [reflexivity|]. now rewrite Hs. }
  unfold get_video_info, get_video_info_body.
  cbn [Z.eqb format_duration format_size streams read_field].
  rewrite find_streams_first, Hv. reflexivity.
Qed.

End StreamFacts.

(** ** The course of a run *)

Module CourseFacts.

Import Ending.

Lemma made_app (a b : list Action) : made (a ++ b) = made a ++ made b.
Proof. apply flat_map_app. Qed.

(** What the set-up has spawned and created when it gives up, and when it
    lets the loop start; its last action when it gives up is an [error]. *)
Lemma setup_course (env : Env) (w : Worker) :
  match setup env w with
  | Abort did =>
      (commands did = [] \/ commands did = [FfmpegVersion]
       \/ commands did = [FfmpegVersion; Ffprobe (SplitWorker.input_file w)])
      /\ (made did = [] \/ made did = [SplitWorker.output_dir w])
      /\ (exists before e, did = before ++ [Emit (error e)]
                           /\ errors before = []
                           /\ Forall (fun a => match a with
                                               | Emit s => closing s = false
                                               | _ => True
                                               end) before)
  | Ready D n did =>
      commands did = [FfmpegVersion; Ffprobe (SplitWorker.input_file w)]
      /\ made did = [SplitWorker.output_dir w]
      /\ Forall (fun a => match a with
                          | Emit s => closing s = false
                          | _ => True
                          end) did
  end.
Proof.
  unfold setup, check_ffmpeg.
  destruct (SplitWorker.which_ffmpeg env); cbn [negb].
  2:{ split; [auto|]. split; [auto|]. exists [], FfmpegValidationFailed.
      repeat split; constructor. }
  assert (Hfail : forall (P : Prop),
             ((commands ([Subprocess FfmpegVersion] ++ [Emit (error FfmpegValidationFailed)])
               = [] \/ commands ([Subprocess FfmpegVersion]
                                   ++ [Emit (error FfmpegValidationFailed)])
                       = [FfmpegVersion] \/ P)
              /\ (made ([Subprocess FfmpegVersion] ++ [Emit (error FfmpegValidationFailed)])
                  = [] \/ made ([Subprocess FfmpegVersion]
                                  ++ [Emit (error FfmpegValidationFailed)])
                          = [SplitWorker.output_dir w])
              /\ exists before e,
                  [Subprocess FfmpegVersion] ++ [Emit (error FfmpegValidationFailed)]
                  = before ++ [Emit (error e)]
                  /\ errors before = []
                  /\ Forall (fun a => match a with
                                      | Emit s => closing s = false
                                      | _ => True
                                      end) before)).
  { intros P. split; [auto|]. split; [auto|].
    exists [Subprocess FfmpegVersion], FfmpegValidationFailed.
    repeat split; repeat constructor. }
  destruct (SplitWorker.ffmpeg_version env) as [[]|rc]; cbn [negb]; try apply Hfail.
  destruct (rc =? 0); cbn [negb]; [|apply Hfail]. clear Hfail.
  destruct (get_video_info (eval_rest env) (ffprobe env)) as [info|].
  2:{ split; [auto|]. split; [auto|]. eexists _, AnalyzeFailed.
      split; [reflexivity|]. split; [reflexivity|]. repeat constructor. }
  destruct (Qle_bool (duration info) 0).
  { split; [auto|]. split; [auto|]. eexists _, InvalidDuration.
    split; [reflexivity|]. split; [reflexivity|]. repeat constructor. }
  destruct (makedirs env) as [e|].
  { split; [auto|]. split; [auto|]. eexists _, (Unexpected e).
    split; [reflexivity|]. split; [reflexivity|]. repeat constructor. }
  destruct (actual_clips w (duration info)) as [e|m].
  { split; [auto|]. split; [auto|]. eexists _, (Unexpected e).
    split; [reflexivity|]. split; [reflexivity|]. repeat constructor. }
  destruct (m =? 0).
  { split; [auto|]. split; [auto|]. eexists _, TooShort.
    split; [reflexivity|]. split; [reflexivity|]. repeat constructor. }
  split; [reflexivity|]. split; [reflexivity|]. repeat constructor.
Qed.

End CourseFacts.

Import Ending.

Lemma closings_app (a b : list Action) : closings (a ++ b) = closings a ++ closings b.
Proof. unfold closings. rewrite TraceFacts.signals_app. apply filter_app. Qed.

Lemma closings_quiet (l : list Action) :
  Forall (fun a => match a with Emit s => closing s = false | _ => True end) l ->
  closings l = [].
Proof.
  induction 1 as [|a l Ha _ IH]; [reflexivity|].
  change (a :: l) with ([a] ++ l). rewrite closings_app, IH, app_nil_r.
  destruct a as [s| |]; try reflexivity. unfold closings. cbn. now rewrite Ha.
Qed.

Section LoopCourse.

Variable env : Env.
Variable w : Worker.
Variable D : Q.
Variable n : Z.

Lemma commands_successes (ks : list Z) :
  commands (flat_map (success env w D n) ks)
  = map (fun k => Plan.command w (Plan.window w D k)) ks.
Proof.
  induction ks as [|k ks IH]; [reflexivity|].
  cbn [flat_map map]. rewrite TraceFacts.commands_app, IH. reflexivity.
Qed.

Lemma made_successes (ks : list Z) : made (flat_map (success env w D n) ks) = [].
Proof.
  induction ks as [|k ks IH]; [reflexivity|].
  cbn [flat_map]. rewrite CourseFacts.made_app, IH. reflexivity.
Qed.

Lemma closings_successes (ks : list Z) :
  closings (flat_map (success env w D n) ks) = [].
Proof.
  induction ks as [|k ks IH]; [reflexivity|].
  cbn [flat_map]. rewrite closings_app, IH. reflexivity.
Qed.

Lemma closings_ending (e : Ending) :
  closings (ending_trace w D n e)
  = match e with Fail _ msg => [error msg] | _ => [] end.
Proof. destruct e; reflexivity. Qed.

Lemma commands_ending (e : Ending) :
  commands (ending_trace w D n e) = clips (ending_trace w D n e).
Proof. destruct e; reflexivity. Qed.

Lemma made_ending (e : Ending) : made (ending_trace w D n e) = [].
Proof. destruct e; reflexivity. Qed.

Lemma commands_report (s : bool) (c : Z) : commands (report env w s c) = [].
Proof.
  unfold report.
  destruct (negb (s || stop_called env AfterLoop) && (0 <? c)); [reflexivity|].
  destruct (c =? 0); reflexivity.
Qed.

Lemma made_report (s : bool) (c : Z) : made (report env w s c) = [].
Proof.
  unfold report.
  destruct (negb (s || stop_called env AfterLoop) && (0 <? c)); [reflexivity|].
  destruct (c =? 0); reflexivity.
Qed.

End LoopCourse.

(** A strictly increasing list of integers inside [lo, hi) has at most
    [hi - lo] elements. *)
Lemma sorted_length (ks : list Z) (lo hi : Z) :
  StronglySorted Z.lt ks ->
  Forall (fun k => lo <= k < hi) ks ->
  Z.of_nat (List.length ks) <= Z.max 0 (hi - lo).
Proof.
  intros Hs. revert lo. induction Hs as [|k ks Hs IH Hall]; intros lo Hr.
  - cbn. lia.
  - inversion Hr as [|? ? Hk Hks]; subst.
    assert (Hr' : Forall (fun k' => k + 1 <= k' < hi) ks).
    { rewrite Forall_forall in *. intros k' Hin.
      specialize (Hall k' Hin). specialize (Hks k' Hin). lia. }
    specialize (IH (k + 1) Hr'). cbn [List.length]. lia.
Qed.

(** X7.  The sub-processes of a run come in a fixed order: at most one
    [ffmpeg -version], then at most one ffprobe of the input file, then
    clip encodes only.  A clip is encoded only after both have run and
    after the output directory has been created, and a run creates no
    other directory. *)
Theorem run_subprocess_order (env : Env) (w : Worker) :
  exists did rest,
    run env w = did ++ rest
    /\ (commands did = [] \/ commands did = [FfmpegVersion]
        \/ commands did = [FfmpegVersion; Ffprobe (SplitWorker.input_file w)])
    /\ commands rest = clips (run env w)
    /\ made rest = []
    /\ (made did = [] \/ made did = [SplitWorker.output_dir w])
    /\ (clips (run env w) <> [] ->
        commands did = [FfmpegVersion; Ffprobe (SplitWorker.input_file w)]
        /\ made did = [SplitWorker.output_dir w]).
Proof.
  pose proof (CourseFacts.setup_course env w) as Hc.
  destruct (setup env w) as [did|D n did] eqn:Hs.
  - destruct Hc as (Hcmd & Hmade & _).
    pose proof (run_clips_abort _ _ _ Hs) as Hcl.
    exists did, []. unfold run in *. rewrite Hs in *. rewrite app_nil_r, Hcl.
    split; [reflexivity|]. split; [exact Hcmd|]. split; [reflexivity|].
    split; [reflexivity|]. split; [exact Hmade|]. intros Hne. now contradiction Hne.
  - destruct Hc as (Hcmd & Hmade & _).
    destruct (RunFacts.run_ready _ _ _ _ _ Hs) as (ks & e & Hrun & _).
    destruct (RunFacts.setup_ready _ _ _ _ _ Hs)
      as (_ & _ & _ & _ & _ & _ & _ & _ & Hdcl & _).
    eexists did, _. split; [exact Hrun|]. rewrite Hrun.
    split; [auto|]. split; [|split; [|split; [auto|auto]]].
    + rewrite !TraceFacts.clips_app, Hdcl, !TraceFacts.commands_app,
        commands_successes, TraceFacts.clips_successes, commands_ending,
        commands_report, TraceFacts.clips_report.
      reflexivity.
    + now rewrite !CourseFacts.made_app, made_successes, made_ending, made_report.
Qed.

(** X8.  No run ends silently, and none sends more than two closing
    signals.  The last action of every run is a closing signal ([finished],
    [error] or the status "Operation stopped"); it is the only one, except
    after a clip failure, where the [error] of the failed clip precedes
    it. *)
Theorem run_closing_signals (env : Env) (w : Worker) :
  exists before last,
    run env w = before ++ [Emit last]
    /\ closing last = true
    /\ (closings (run env w) = [last]
        \/ exists k e,
             (e = ClipTimeout k \/ exists x, e = ClipFailed k x)
             /\ closings (run env w) = [error e; last]).
Proof.
  pose proof (CourseFacts.setup_course env w) as Hc.
  destruct (setup env w) as [did|D n did] eqn:Hs.
  - destruct Hc as (_ & _ & before & e & -> & _ & Hq).
    exists before, (error e). unfold run. rewrite Hs.
    split; [reflexivity|]. split; [reflexivity|]. left.
    now rewrite closings_app, (closings_quiet _ Hq).
  - destruct Hc as (_ & _ & Hq).
    destruct (RunFacts.run_ready _ _ _ _ _ Hs)
      as (ks & e & Hrun & _ & _ & _ & _ & He).
    assert (Hrep := report_cases env w (is_cancel e) (Z.of_nat (List.length ks))
                                 (Nat2Z.is_nonneg _)).
    assert (Hfail : match e with
                    | Fail j msg => msg = ClipTimeout (j + 1)
                                    \/ exists x, msg = ClipFailed (j + 1) x
                    | _ => True
                    end).
    { destruct e as [| |j msg]; auto. destruct He as (_ & _ & Ho).
      revert Ho. unfold outcome.
      destruct (false || stop_called env (AtIteration j)); [discriminate|].
      destruct (Plan.past_end _ _); [discriminate|].
      destruct (Plan.too_short _); [discriminate|].
      destruct (encoder env j) as [[]|rc out].
      1-6: intros [= <-]; eauto.
      destruct (negb (rc =? 0)); [intros [= <-]; eauto|].
      destruct (verified out); [discriminate|intros [= <-]; eauto]. }
    assert (Hcl : closings (run env w)
                  = match e with Fail _ msg => [error msg] | _ => [] end
                      ++ closings (report env w (is_cancel e)
                                          (Z.of_nat (List.length ks)))).
    { rewrite Hrun, !closings_app, (closings_quiet _ Hq), closings_successes,
        closings_ending. reflexivity. }
    rewrite Hcl, Hrun.
    set (loop := flat_map (success env w D n) ks ++ ending_trace w D n e).
    set (c := Z.of_nat (List.length ks)) in *.
    destruct Hrep as [(Hr & _)|[(Hr & _)|(Hr & _)]]; rewrite Hr.
    + exists (did ++ loop ++ [Emit (status_update (Success c))]),
        (finished (SplitWorker.output_dir w) c).
      split; [rewrite <- !app_assoc; reflexivity|]. split; [reflexivity|].
      destruct e as [| |j msg]; [left; reflexivity|left; reflexivity|].
      right. exists (j + 1), msg. split; [exact Hfail|reflexivity].
    + exists (did ++ loop), (error NoClips).
      split; [rewrite <- !app_assoc; reflexivity|]. split; [reflexivity|].
      destruct e as [| |j msg]; [left; reflexivity|left; reflexivity|].
      right. exists (j + 1), msg. split; [exact Hfail|reflexivity].
    + exists (did ++ loop), (status_update (Stopped c)).
      split; [rewrite <- !app_assoc; reflexivity|]. split; [reflexivity|].
      destruct e as [| |j msg]; [left; reflexivity|left; reflexivity|].
      right. exists (j + 1), msg. split; [exact Hfail|reflexivity].
Qed.

(** X9.  [finished] is emitted at most once and only as the very last
    action of a run; it names the worker's output directory and carries a
    count between 1 and the number of clips requested. *)
Theorem finished_once (env : Env) (w : Worker) (dir : string) (c : Z) :
  In (Emit (finished dir c)) (run env w) ->
  dir = SplitWorker.output_dir w
  /\ 1 <= c <= num_clips w
  /\ finishes (run env w) = [c]
  /\ exists before,
       run env w = before ++ [Emit (finished dir c)]
       /\ ~ In (Emit (status_update Stopping)) before.
Proof.
  intros Hin. destruct (setup env w) as [did|D n did] eqn:Hs.
  - destruct (RunFacts.setup_abort _ _ _ Hs) as (_ & _ & Hf & _).
    unfold run in Hin. rewrite Hs in Hin. apply In_finishes in Hin.
    rewrite Hf in Hin. contradiction.
  - destruct (RunFacts.run_ready _ _ _ _ _ Hs)
      as (ks & e & Hrun & Hsorted & Hrange & _).
    destruct (RunFacts.setup_ready _ _ _ _ _ Hs)
      as (_ & Ha & _ & _ & _ & _ & _ & Hdf & _ & Hno).
    assert (Hrep := report_cases env w (is_cancel e) (Z.of_nat (List.length ks))
                                 (Nat2Z.is_nonneg _)).
    assert (Hle : Z.of_nat (List.length ks) <= Z.max 0 (num_clips w)).
    { pose proof (sorted_length ks 0 (Z.of_nat (Z.to_nat n)) Hsorted Hrange) as Hl.
      assert (n <= num_clips w); [|lia].
      unfold actual_clips in Ha. destruct (0 <? overlap w);
        destruct (Py.truediv _ _); try discriminate; injection Ha as <-; lia. }
    assert (Hfin : In (Emit (finished dir c))
                      (report env w (is_cancel e) (Z.of_nat (List.length ks)))).
    { rewrite Hrun, !in_app_iff in Hin. destruct Hin as [H|[[H|H]|H]]; [| | |exact H].
      - apply In_finishes in H. rewrite Hdf in H. contradiction.
      - apply In_finishes in H. rewrite TraceFacts.finishes_successes in H.
        contradiction.
      - apply In_finishes in H. rewrite TraceFacts.finishes_ending in H.
        contradiction. }
    destruct Hrep as [(Hr & Hcan & _ & Hpos)|[(Hr & _)|(Hr & _)]];
      rewrite Hr in Hfin; cbn in Hfin;
      try (exfalso; intuition discriminate).
    destruct Hfin as [Hfin|[Hfin|[]]]; [discriminate|].
    injection Hfin as <- <-.
    split; [reflexivity|]. split; [lia|]. split.
    + rewrite Hrun, !TraceFacts.finishes_app, Hdf, TraceFacts.finishes_successes,
        TraceFacts.finishes_ending, Hr. reflexivity.
    + exists (did ++ (flat_map (success env w D n) ks ++ ending_trace w D n e)
                  ++ [Emit (status_update (Success (Z.of_nat (List.length ks))))]).
      split; [rewrite Hrun, Hr, <- !app_assoc; reflexivity|].
      rewrite !in_app_iff. intros [H|[[H|H]|H]].
      * contradiction.
      * now apply not_In_successes in H.
      * destruct e; cbn in H; try discriminate; intuition discriminate.
      * cbn in H. intuition discriminate.
Qed.

(** [progress_percent] between its bounds. *)
Lemma progress_percent_range (n k : Z) :
  0 <= k < n ->
  0 <= progress_percent k n <= 100
  /\ (progress_percent k n = 100 <-> k = n - 1).
Proof.
  intros Hk. unfold progress_percent.
  assert (Hn : (0 < inject_Z n)%Q) by (apply PlanFacts.inject_Z_pos; lia).
  assert (Hk1 : (0 <= inject_Z (k + 1))%Q).
  { replace 0%Q with (inject_Z 0) by reflexivity. rewrite <- Zle_Qle. lia. }
  assert (Hq : (0 <= inject_Z (k + 1) / inject_Z n)%Q)
    by (apply PlanFacts.div_pos_nonneg; assumption).
  assert (Hq1 : (inject_Z (k + 1) / inject_Z n <= 1)%Q).
  { apply PlanFacts.div_le_iff; [assumption|].
    rewrite Qmult_1_l, <- Zle_Qle. lia. }
  set (x := (inject_Z (k + 1) / inject_Z n * 100)%Q).
  assert (Hx : (0 <= x <= 100)%Q) by (unfold x; split; lra).
  rewrite PyFacts.int_floor by apply Hx.
  assert (Hlo : 0 <= Qfloor x).
  { change 0 with (Qfloor (inject_Z 0)). apply Qfloor_resp_le. apply Hx. }
  assert (Hhi : Qfloor x <= 100).
  { rewrite <- (Qfloor_Z 100). apply Qfloor_resp_le. apply Hx. }
  split; [lia|]. split.
  - intros H100. pose proof (Qfloor_le x) as Hfl. rewrite H100 in Hfl.
    assert (Hone : (1 <= inject_Z (k + 1) / inject_Z n)%Q).
    { unfold x in Hfl. change (inject_Z 100) with 100%Q in Hfl. lra. }
    assert (Hge : (inject_Z n <= inject_Z (k + 1))%Q).
    { destruct (Qlt_le_dec (inject_Z (k + 1)) (inject_Z n)) as [Hlt|]; [|assumption].
      exfalso.
      assert (Hlt1 : (inject_Z (k + 1) / inject_Z n < 1)%Q).
      { apply PlanFacts.div_lt_iff; [assumption|]. now rewrite Qmult_1_l. }
      lra. }
    rewrite <- Zle_Qle in Hge. lia.
  - intros ->. replace (n - 1 + 1) with n by lia.
    assert (Hx100 : (x == inject_Z 100)%Q).
    { unfold x. replace (n - 1 + 1) with n by lia. field. lra. }
    rewrite Hx100. apply Qfloor_Z.
Qed.

(** X10.  Every [progress] value lies between 0 and 100, and in a run that
    reaches the loop with [n] clips announced the value 100 is reported
    exactly when the clip numbered [n], the last of the range, is
    completed. *)
Theorem progress_bounds (env : Env) (w : Worker) :
  Forall (fun p => 0 <= p <= 100) (percents (run env w))
  /\ (forall D n did,
         setup env w = Ready D n did ->
         (In 100 (percents (run env w)) <-> In n (completed (run env w)))).
Proof.
  destruct (setup env w) as [did|D n did] eqn:Hs.
  - destruct (RunFacts.setup_abort _ _ _ Hs) as (Hp & _).
    unfold run. rewrite Hs, Hp. split; [constructor|]. discriminate.
  - destruct (run_ready_events _ _ _ _ _ Hs) as (ks & Hp & Hc & _ & Hrange).
    rewrite Hp, Hc. rewrite Forall_forall in Hrange. split.
    + rewrite Forall_map, Forall_forall. intros k Hk.
      specialize (Hrange k Hk). apply progress_percent_range. lia.
    + intros D' n' did' [= <- <- <-]. rewrite !in_map_iff. split.
      * intros (k & H100 & Hk). exists k. split; [|assumption].
        specialize (Hrange k Hk).
        apply (proj2 (progress_percent_range n k ltac:(lia))) in H100. lia.
      * intros (k & Hn & Hk). exists k. split; [|assumption].
        specialize (Hrange k Hk).
        apply (proj2 (progress_percent_range n k ltac:(lia))). lia.
Qed.

(** ** "Video too short" *)

Lemma outcome_failed_form (env : Env) (w : Worker) (D : Q) (j : Z) (s : bool)
    (msg : ErrorMsg) :
  outcome env w D j s = Failed msg ->
  msg = ClipTimeout (j + 1) \/ exists x, msg = ClipFailed (j + 1) x.
Proof.
  unfold outcome.
  destruct (s || stop_called env (AtIteration j)); [discriminate|].
  destruct (Plan.past_end _ _); [discriminate|].
  destruct (Plan.too_short _); [discriminate|].
  destruct (encoder env j) as [[]|rc out].
  1-6: intros [= <-]; eauto.
  destruct (negb (rc =? 0)); [intros [= <-]; eauto|].
  destruct (verified out); [discriminate|intros [= <-]; eauto].
Qed.

(** The error "Video too short" comes from the set-up alone, on a count
    of zero. *)
Lemma In_too_short (env : Env) (w : Worker) :
  In (Emit (error TooShort)) (run env w) ->
  exists D, (0 < D)%Q /\ actual_clips w D = inr 0.
Proof.
  intros Hin. destruct (setup env w) as [did|D n did] eqn:Hs.
  - unfold run in Hin. rewrite Hs in Hin. revert Hs Hin.
    unfold setup, check_ffmpeg.
    destruct (SplitWorker.which_ffmpeg env); cbn [negb];
      [|intros [= <-] Hin; cbn in Hin; exfalso; intuition discriminate].
    destruct (SplitWorker.ffmpeg_version env) as [[]|rc]; cbn [negb];
      try (intros [= <-] Hin; cbn in Hin; exfalso; intuition discriminate).
    destruct (rc =? 0); cbn [negb];
      [|intros [= <-] Hin; cbn in Hin; exfalso; intuition discriminate].
    destruct (get_video_info (eval_rest env) (ffprobe env)) as [info|];
      [|intros [= <-] Hin; cbn in Hin; exfalso; intuition discriminate].
    destruct (Qle_bool (duration info) 0) eqn:Ed;
      [intros [= <-] Hin; cbn in Hin; exfalso; intuition discriminate|].
    destruct (makedirs env);
      [intros [= <-] Hin; cbn in Hin; exfalso; intuition discriminate|].
    destruct (actual_clips w (duration info)) as [e|m] eqn:Ea;
      [intros [= <-] Hin; cbn in Hin; exfalso; intuition discriminate|].
    destruct (m =? 0) eqn:Em; [|discriminate].
    intros _ _. apply Z.eqb_eq in Em. subst m. exists (duration info).
    split; [|exact Ea].
    apply Qnot_le_lt. intros H. apply Qle_bool_iff in H. congruence.
  - exfalso. destruct (RunFacts.run_ready _ _ _ _ _ Hs)
      as (ks & e & Hrun & _ & _ & _ & _ & He).
    destruct (RunFacts.setup_ready _ _ _ _ _ Hs)
      as (_ & _ & _ & _ & _ & _ & Hde & _).
    apply In_errors in Hin.
    rewrite Hrun, !TraceFacts.errors_app, Hde, TraceFacts.errors_successes,
      TraceFacts.errors_ending in Hin.
    cbn [app] in Hin. apply in_app_iff in Hin. destruct Hin as [Hin|Hin].
    + destruct e as [| |j msg]; try contradiction.
      destruct Hin as [->|[]]. destruct He as (_ & _ & Ho).
      apply outcome_failed_form in Ho. destruct Ho as [?|(x & ?)]; discriminate.
    + destruct (report_cases env w (is_cancel e) (Z.of_nat (List.length ks))
                             (Nat2Z.is_nonneg _))
        as [(Hr & _)|[(Hr & _)|(Hr & _)]];
        rewrite Hr in Hin; cbn in Hin; intuition discriminate.
Qed.

(** X11.  Without overlap no video is "too short": for a positive clip
    length, overlap 0 and at least one clip requested, no run reports
    "Video too short", however short the video. *)
Theorem no_overlap_never_too_short (env : Env) (w : Worker) :
  0 < clip_duration w ->
  overlap w = 0 ->
  1 <= num_clips w ->
  ~ In (Emit (error TooShort)) (run env w).
Proof.
  intros HL HO HN Hin. apply In_too_short in Hin. destruct Hin as (D & HD & Ha).
  rewrite actual_clips_no_overlap in Ha by assumption.
  assert (Hmin : Z.min (num_clips w) (Qceiling (D / inject_Z (clip_duration w))) = 0)
    by congruence.
  pose proof (Qle_ceiling (D / inject_Z (clip_duration w))) as Hc.
  assert (Hq : (0 < D / inject_Z (clip_duration w))%Q).
  { apply Qlt_shift_div_l; [now apply PlanFacts.inject_Z_pos|]. lra. }
  assert (Hpos : (inject_Z 0 < inject_Z (Qceiling (D / inject_Z (clip_duration w))))%Q).
  { change (inject_Z 0) with 0%Q. lra. }
  rewrite <- Zlt_Qlt in Hpos. lia.
Qed.

(** With overlap, in exact arithmetic, the clip count is zero exactly when
    [D + overlap < clip_duration - overlap]. *)
Lemma too_short_count (env : Env) (w : Worker) :
  0 < overlap w < clip_duration w ->
  1 <= num_clips w ->
  (forall D, (0 < D)%Q ->
     (actual_clips w D = inr 0
      <-> (D + inject_Z (overlap w) < inject_Z (clip_duration w - overlap w))%Q))
  /\ (In (Emit (error TooShort)) (run env w) ->
      exists D, (0 < D)%Q
        /\ (D + inject_Z (overlap w) < inject_Z (clip_duration w - overlap w))%Q).
Proof.
  intros HO HN.
  assert (Hiff : forall D, (0 < D)%Q ->
     (actual_clips w D = inr 0
      <-> (D + inject_Z (overlap w) < inject_Z (clip_duration w - overlap w))%Q)).
  { intros D HD.
    assert (Hs : (0 < inject_Z (clip_duration w - overlap w))%Q)
      by (apply PlanFacts.inject_Z_pos; lia).
    assert (Ho : (0 < inject_Z (overlap w))%Q)
      by (apply PlanFacts.inject_Z_pos; lia).
    unfold actual_clips. replace (0 <? overlap w) with true
      by (symmetry; apply Z.ltb_lt; lia).
    rewrite PyFacts.truediv_nonzero by lra.
    set (q := ((D + inject_Z (overlap w)) / inject_Z (clip_duration w - overlap w))%Q).
    assert (Hq : (0 <= q)%Q) by (apply PlanFacts.div_pos_nonneg; lra).
    rewrite PyFacts.int_floor by assumption.
    pose proof (Qfloor_le q) as Hfl. pose proof (Qlt_floor q) as Hfu.
    assert (Hf0 : 0 <= Qfloor q).
    { change 0 with (Qfloor (inject_Z 0)). now apply Qfloor_resp_le. }
    assert (Hlt : (q < 1)%Q
                  <-> (D + inject_Z (overlap w)
                       < inject_Z (clip_duration w - overlap w))%Q).
    { unfold q. rewrite PlanFacts.div_lt_iff by assumption.
      now rewrite Qmult_1_l. }
    rewrite <- Hlt. split.
    - intros H.
      assert (Hmin : Z.min (num_clips w) (Qfloor q) = 0) by congruence.
      assert (Hz : Qfloor q = 0) by lia.
      rewrite Hz in Hfu. exact Hfu.
    - intros Hq1. assert (Hz : Qfloor q = 0).
      { apply PyFacts.floor_unique; [exact Hq|exact Hq1]. }
      rewrite Hz. f_equal. lia. }
  split; [exact Hiff|].
  intros Hin. apply In_too_short in Hin. destruct Hin as (D & HD & Ha).
  exists D. split; [exact HD|]. now apply Hiff.
Qed.

(** For overlap 0 and a duration between one second and the clip length,
    the plan is one clip, numbered 1, from 0 to the end of the video. *)
Lemma short_video_plan (w : Worker) (D : Q) :
  overlap w = 0 ->
  1 <= num_clips w ->
  (1 <= D)%Q ->
  (D <= inject_Z (clip_duration w))%Q ->
  exists c,
    plan w D = [c]
    /\ index c = 1 /\ startSeconds c = 0 /\ (endSeconds c == D)%Q.
Proof.
  intros HO HN H1 HL.
  assert (HD : (0 < D)%Q) by lra.
  assert (HLpos : 0 < clip_duration w).
  { assert (H : (inject_Z 0 < inject_Z (clip_duration w))%Q)
      by (change (inject_Z 0) with 0%Q; lra).
    now rewrite <- Zlt_Qlt in H. }
  assert (Hl : (0 < inject_Z (clip_duration w))%Q) by lra.
  assert (Hceil : Qceiling (D / inject_Z (clip_duration w)) = 1).
  { apply PyFacts.ceiling_unique.
    - change (inject_Z (1 - 1)) with 0%Q. apply Qlt_shift_div_l; lra.
    - apply PlanFacts.div_le_iff; [assumption|]. change (inject_Z 1) with 1%Q. lra. }
  exists (window w D 0).
  unfold plan. rewrite actual_clips_no_overlap, Hceil by assumption.
  replace (Z.min (num_clips w) 1) with 1 by lia.
  change (Z.to_nat 1) with 1%nat. cbn [plan_loop].
  assert (Hstart : clip_start w 0 = 0) by (unfold clip_start; rewrite HO; reflexivity).
  assert (Hend : (clip_end w D 0 == D)%Q).
  { unfold clip_end. rewrite PyFacts.min_eq. cbn [Z.add]. apply Q.min_r. exact HL. }
  assert (Hp : past_end D (window w D 0) = false).
  { unfold past_end. cbn [window startSeconds]. rewrite Hstart.
    apply PyFacts.ge_false. exact HD. }
  assert (Ht : too_short (window w D 0) = false).
  { unfold too_short. cbn [window startSeconds endSeconds]. rewrite Hstart.
    apply PyFacts.lt_false. rewrite Hend. change (inject_Z 0) with 0%Q. lra. }
  rewrite Hp, Ht. cbn [window index startSeconds endSeconds].
  rewrite Hstart. repeat split; auto.
Qed.

(** ** The shape of the plan *)

Lemma stride_le_length (w : Worker) : 0 < stride w -> stride w <= clip_duration w.
Proof. unfold stride. destruct (0 <? overlap w) eqn:E; [apply Z.ltb_lt in E|]; lia. Qed.

(** After a window too short to keep, the next one starts at or after the
    end of the video. *)
Lemma short_then_past_end (w : Worker) (D : Q) (i : Z) :
  0 < stride w -> 0 <= i ->
  too_short (window w D i) = true ->
  past_end D (window w D (i + 1)) = true.
Proof.
  intros Hs Hi Ht. pose proof (stride_le_length w Hs) as HL.
  unfold too_short, past_end in *. cbn [window startSeconds endSeconds] in *.
  apply PyFacts.lt_true in Ht. apply PyFacts.ge_true.
  rewrite !PlanFacts.clip_start_stride in * by lia. unfold clip_end in Ht.
  assert (Hl : (1 <= inject_Z (clip_duration w))%Q).
  { change 1%Q with (inject_Z 1). rewrite <- Zle_Qle. lia. }
  assert (Hst : (1 <= inject_Z (stride w))%Q).
  { change 1%Q with (inject_Z 1). rewrite <- Zle_Qle. lia. }
  assert (Hsum : (inject_Z (i * stride w + clip_duration w)
                  == inject_Z (i * stride w) + inject_Z (clip_duration w))%Q)
    by (rewrite inject_Z_plus; reflexivity).
  assert (Hnext : (inject_Z ((i + 1) * stride w)
                   == inject_Z (i * stride w) + inject_Z (stride w))%Q).
  { replace ((i + 1) * stride w) with (i * stride w + stride w) by lia.
    rewrite inject_Z_plus. reflexivity. }
  destruct (PyFacts.min_cases (inject_Z (i * stride w + clip_duration w)) D)
    as [[E H]|[E H]]; rewrite E in Ht; lra.
Qed.

(** The plan loop keeps a run of consecutive indices. *)
Lemma plan_loop_contiguous (w : Worker) (D : Q) (r : nat) (i : Z) :
  0 < stride w -> 0 <= i ->
  exists k, (k <= r)%nat /\ plan_loop w D r i = map (window w D) (range i k).
Proof.
  intros Hs. revert i. induction r as [|r IH]; intros i Hi.
  - exists 0%nat. split; [lia|reflexivity].
  - cbn [plan_loop]. destruct (past_end D (window w D i)) eqn:Ep.
    + exists 0%nat. split; [lia|reflexivity].
    + destruct (too_short (window w D i)) eqn:Et.
      * exists 0%nat. split; [lia|]. cbn [range map].
        pose proof (short_then_past_end w D i Hs Hi Et) as Hnext.
        destruct r as [|r]; [reflexivity|]. cbn [plan_loop]. now rewrite Hnext.
      * destruct (IH (i + 1) ltac:(lia)) as (k & Hk & Heq).
        exists (S k). split; [lia|]. cbn [range map]. now rewrite Heq.
Qed.

Lemma plan_contiguous (w : Worker) (D : Q) :
  (0 < D)%Q ->
  plan w D = map (window w D) (range 0 (List.length (plan w D))).
Proof.
  intros HD. unfold plan. destruct (actual_clips w D) as [e|n] eqn:Ha; [reflexivity|].
  destruct (Z_le_gt_dec n 0) as [Hn|Hn].
  - replace (Z.to_nat n) with 0%nat by lia. reflexivity.
  - assert (Hs : 0 < stride w) by (apply (PlanFacts.stride_pos w D HD n Ha); lia).
    destruct (plan_loop_contiguous w D (Z.to_nat n) 0 Hs ltac:(lia)) as (k & _ & Heq).
    rewrite Heq at 2. rewrite length_map, length_range. exact Heq.
Qed.

Lemma firstn_range (i : Z) (k m : nat) :
  firstn m (range i k) = range i (Nat.min m k).
Proof.
  revert i k. induction m as [|m IH]; intros i k; [reflexivity|].
  destruct k as [|k]; [reflexivity|]. cbn [range firstn Nat.min]. now rewrite IH.
Qed.

(** X14.  Clips are numbered 1, 2, 3, ... without a hole: the clip numbers
    of the plan, and of the clips that any run hands to the encoder, are
    the first positive integers in order. *)
Theorem clip_numbers_contiguous (env : Env) (w : Worker) (D : Q) :
  (0 < D)%Q ->
  map index (plan w D)
  = map (fun i => i + 1) (range 0 (List.length (plan w D)))
  /\ map number (clips (run env w))
     = map (fun i => i + 1) (range 0 (List.length (clips (run env w)))).
Proof.
  intros HD. split.
  - rewrite (plan_contiguous w D HD) at 1. rewrite map_map. reflexivity.
  - destruct (setup env w) as [did|D' n did] eqn:Hs.
    + now rewrite (run_clips_abort _ _ _ Hs).
    + destruct (RunFacts.setup_ready _ _ _ _ _ Hs) as (HD' & _).
      destruct (run_clips_prefix _ _ _ _ _ Hs) as (m & ->).
      rewrite (plan_contiguous w D' HD'), !map_map, !firstn_map, firstn_range,
        !length_map, length_range, map_map.
      reflexivity.
Qed.

Lemma range_consecutive (i : Z) (k : nat) (l1 l2 : list Z) (x y : Z) :
  range i k = l1 ++ x :: y :: l2 -> i <= x /\ y = x + 1.
Proof.
  revert i k. induction l1 as [|z l1 IH]; intros i k H.
  - destruct k as [|[|k]]; try discriminate. cbn in H.
    injection H as <- <- _. lia.
  - destruct k as [|k]; [discriminate|]. cbn in H. injection H as _ H.
    apply IH in H. lia.
Qed.

(** X15.  The plan leaves no gap.  Its first clip starts at 0, and of two
    consecutive clips the second has the next number, starts one stride
    ([clip_duration], less the overlap if there is one) after the first,
    no later than the first ends, and ends no earlier; without overlap it
    starts exactly where the first ends. *)
Theorem plan_no_gap (w : Worker) (D : Q) :
  (0 < D)%Q ->
  (forall c rest, plan w D = c :: rest -> index c = 1 /\ startSeconds c = 0)
  /\ (forall l1 a b l2,
        plan w D = l1 ++ a :: b :: l2 ->
        index b = index a + 1
        /\ startSeconds b = startSeconds a + stride w
        /\ (inject_Z (startSeconds b) <= endSeconds a)%Q
        /\ (endSeconds a <= endSeconds b)%Q
        /\ (overlap w <= 0 -> (endSeconds a == inject_Z (startSeconds b))%Q)).
Proof.
  intros HD. pose proof (plan_contiguous w D HD) as Hp.
  destruct (plan_indices w D HD) as (ks & _ & _ & _ & Hst & _).
  assert (Hs : plan w D <> [] -> 0 < stride w).
  { intros Hne. unfold plan in *. destruct (actual_clips w D) as [e|n] eqn:Ha;
      [contradiction|].
    apply (PlanFacts.stride_pos w D HD n Ha).
    destruct (Z.to_nat n) eqn:E; [contradiction|lia]. }
  clear ks Hst. split.
  - intros c rest Hc. rewrite Hc in Hp. cbn [List.length range map] in Hp.
    injection Hp as -> _. cbn [window index startSeconds].
    split; [reflexivity|].
    rewrite PlanFacts.clip_start_stride; [reflexivity|lia|].
    assert (0 < stride w) by (apply Hs; rewrite Hc; discriminate). lia.
  - intros l1 a b l2 Hab.
    assert (Hpos : 0 < stride w) by (apply Hs; rewrite Hab; now destruct l1).
    pose proof (stride_le_length w Hpos) as HL.
    rewrite Hab in Hp at 1. symmetry in Hp.
    apply map_eq_app in Hp. destruct Hp as (r1 & r2 & Hr & _ & Hr2).
    destruct r2 as [|x [|y r2]]; try discriminate.
    cbn [map] in Hr2. injection Hr2 as Ha Hb _.
    destruct (range_consecutive _ _ _ _ _ _ Hr) as (Hx & ->).
    assert (Hin : In b (plan w D)).
    { rewrite Hab. apply in_or_app. right. right. now left. }
    subst a b. cbn [window index startSeconds endSeconds].
    rewrite !PlanFacts.clip_start_stride by lia.
    assert (Hnext : (inject_Z ((x + 1) * stride w)
                     == inject_Z (x * stride w) + inject_Z (stride w))%Q).
    { replace ((x + 1) * stride w) with (x * stride w + stride w) by lia.
      rewrite inject_Z_plus. reflexivity. }
    assert (Hsum : forall z, (inject_Z (z + clip_duration w)
                              == inject_Z z + inject_Z (clip_duration w))%Q)
      by (intros; rewrite inject_Z_plus; reflexivity).
    assert (Hsl : (inject_Z (stride w) <= inject_Z (clip_duration w))%Q)
      by (rewrite <- Zle_Qle; lia).
    assert (Hs0 : (0 < inject_Z (stride w))%Q) by now apply PlanFacts.inject_Z_pos.
    assert (Hb : (inject_Z ((x + 1) * stride w) < D)%Q).
    { destruct (plan_indices w D HD) as (ks & Hks & _ & Hall & _).
      rewrite Hks in Hin. apply in_map_iff in Hin. destruct Hin as (k & Hk & Hkin).
      rewrite Forall_forall in Hall. destruct (Hall k Hkin) as (Hk0 & Hpe & _).
      assert (k = x + 1).
      { apply (f_equal index) in Hk. cbn [window index] in Hk. lia. }
      subst k. unfold past_end in Hpe. cbn [window startSeconds] in Hpe.
      rewrite PlanFacts.clip_start_stride in Hpe by lia.
      now apply PyFacts.ge_false in Hpe. }
    unfold clip_end.
    destruct (PyFacts.min_cases (inject_Z (x * stride w + clip_duration w)) D)
      as [[Ea Ha]|[Ea Ha]];
      destruct (PyFacts.min_cases (inject_Z ((x + 1) * stride w + clip_duration w)) D)
        as [[Eb Hb']|[Eb Hb']];
      rewrite Ea, Eb; pose proof (Hsum (x * stride w)) as H1;
      pose proof (Hsum ((x + 1) * stride w)) as H2;
      (split; [lia|]); (split; [lia|]); (split; [lra|]); (split; [lra|]);
      intros Hno; assert (Heq : stride w = clip_duration w)
        by (unfold stride; destruct (0 <? overlap w) eqn:E;
            [apply Z.ltb_lt in E; lia|reflexivity]);
      rewrite Heq in *; lra.
Qed.

(** ** What the plan covers *)

(** An index of the range is in the plan when no window up to it starts
    past the end and its own window is long enough. *)
Lemma In_plan_loop (w : Worker) (D : Q) (r : nat) (i0 i : Z) :
  i0 <= i < i0 + Z.of_nat r ->
  (forall j, i0 <= j <= i -> past_end D (window w D j) = false) ->
  too_short (window w D i) = false ->
  In (window w D i) (plan_loop w D r i0).
Proof.
  revert i0. induction r as [|r IH]; intros i0 Hi Hpe Hts; [lia|].
  cbn [plan_loop]. rewrite (Hpe i0) by lia.
  destruct (Z.eq_dec i0 i) as [->|Hne].
  - rewrite Hts. now left.
  - assert (Hin : In (window w D i) (plan_loop w D r (i0 + 1))).
    { apply IH; [lia| |assumption]. intros j Hj. apply Hpe. lia. }
    destruct (too_short (window w D i0)); [assumption|now right].
Qed.

(** An instant [t >= 0] lies in the window of index [floor(t / s)], for a
    positive stride [s] no larger than the clip length. *)
Lemma instant_index (s : Z) (t : Q) :
  0 < s -> (0 <= t)%Q ->
  let i := Qfloor (t / inject_Z s) in
  0 <= i /\ (inject_Z (i * s) <= t)%Q /\ (t < inject_Z ((i + 1) * s))%Q.
Proof.
  intros Hs Ht i. assert (Hq : (0 < inject_Z s)%Q) by now apply PlanFacts.inject_Z_pos.
  pose proof (Qfloor_le (t / inject_Z s)) as Hlo.
  pose proof (Qlt_floor (t / inject_Z s)) as Hhi. fold i in Hlo, Hhi.
  assert (Hm : (t / inject_Z s * inject_Z s == t)%Q) by (apply PlanFacts.div_mul; lra).
  split; [|split].
  - change 0 with (Qfloor (inject_Z 0)). apply Qfloor_resp_le.
    apply PlanFacts.div_pos_nonneg; assumption.
  - rewrite inject_Z_mult, <- Hm. apply Qmult_le_compat_r; lra.
  - rewrite inject_Z_mult, <- Hm at 1. apply Qmult_lt_compat_r; lra.
Qed.

(** Without overlap every instant [t] with [0 <= t <= D - 1] that the
    requested count reaches lies inside a planned clip. *)
Lemma no_overlap_plan_covers (w : Worker) (D t : Q) :
  0 < clip_duration w ->
  overlap w = 0 ->
  (0 <= t)%Q ->
  (t + 1 <= D)%Q ->
  (t < inject_Z (num_clips w * clip_duration w))%Q ->
  exists c,
    In c (plan w D)
    /\ (inject_Z (startSeconds c) <= t)%Q /\ (t < endSeconds c)%Q.
Proof.
  intros HL HO Ht HtD HtN.
  assert (HD : (0 < D)%Q) by lra.
  destruct (instant_index (clip_duration w) t HL Ht) as (Hi & Hlo & Hhi).
  set (i := Qfloor (t / inject_Z (clip_duration w))) in *.
  assert (HiN : i < num_clips w).
  { assert (H : (inject_Z (i * clip_duration w)
                 < inject_Z (num_clips w * clip_duration w))%Q) by lra.
    rewrite <- Zlt_Qlt in H. nia. }
  assert (HiC : i < Qceiling (D / inject_Z (clip_duration w))).
  { assert (H : (inject_Z i < D / inject_Z (clip_duration w))%Q).
    { apply below_quotient; [assumption|]. lra. }
    pose proof (Qle_ceiling (D / inject_Z (clip_duration w))) as Hc.
    rewrite Zlt_Qlt. lra. }
  exists (window w D i). split; [|split].
  - unfold plan. rewrite actual_clips_no_overlap by assumption.
    apply In_plan_loop.
    + lia.
    + intros j Hj. unfold past_end. cbn [window startSeconds].
      rewrite clip_start_no_overlap by assumption.
      apply PyFacts.ge_false, starts_before_end; [assumption|lia].
    + rewrite too_short_no_overlap by assumption. apply PyFacts.lt_false. lra.
  - cbn [window startSeconds]. now rewrite clip_start_no_overlap.
  - cbn [window endSeconds]. rewrite clip_start_no_overlap by assumption.
    unfold clip_end.
    replace (i * clip_duration w + clip_duration w)
      with ((i + 1) * clip_duration w) by lia.
    destruct (PyFacts.min_cases (inject_Z ((i + 1) * clip_duration w)) D)
      as [[-> _]|[-> _]]; lra.
Qed.

(** With overlap, in exact arithmetic: every instant [t] with
    [0 <= t <= D - 1] and [t + clip_duration - 2 * overlap <= D] that the
    requested count reaches lies inside a planned clip, and no planned clip
    reaches beyond [n * s + overlap] seconds. *)
Lemma overlap_plan_covers (w : Worker) (D : Q) :
  (0 < D)%Q ->
  0 < overlap w < clip_duration w ->
  let s := clip_duration w - overlap w in
  (forall t,
      (0 <= t)%Q ->
      (t + 1 <= D)%Q ->
      (t + inject_Z (clip_duration w - 2 * overlap w) <= D)%Q ->
      (t < inject_Z (num_clips w * s))%Q ->
      exists c,
        In c (plan w D)
        /\ (inject_Z (startSeconds c) <= t)%Q /\ (t < endSeconds c)%Q)
  /\ (forall n,
        actual_clips w D = inr n ->
        Forall (fun c => (endSeconds c <= inject_Z (n * s + overlap w))%Q)
               (plan w D)).
Proof.
  intros HD HO s.
  assert (Hov : (0 <? overlap w) = true) by (apply Z.ltb_lt; lia).
  assert (Hstride : stride w = s) by (unfold stride; now rewrite Hov).
  assert (Hs : 0 < s) by (subst s; lia).
  assert (Hsq : (0 < inject_Z s)%Q) by now apply PlanFacts.inject_Z_pos.
  assert (Hstart : forall i, 0 <= i -> clip_start w i = i * s).
  { intros i Hi. rewrite <- Hstride. apply PlanFacts.clip_start_stride; lia. }
  assert (Ha : actual_clips w D
               = inr (Z.min (num_clips w)
                            (Py.int ((D + inject_Z (overlap w)) / inject_Z s)))).
  { unfold actual_clips. rewrite Hov. fold s.
    rewrite PyFacts.truediv_nonzero; [reflexivity|lra]. }
  split.
  - intros t Ht HtD Htail HtN.
    destruct (instant_index s t Hs Ht) as (Hi & Hlo & Hhi).
    set (i := Qfloor (t / inject_Z s)) in *.
    assert (Hnext : (inject_Z ((i + 1) * s) == inject_Z (i * s) + inject_Z s)%Q).
    { replace ((i + 1) * s) with (i * s + s) by lia.
      rewrite inject_Z_plus. reflexivity. }
    assert (HiN : i < num_clips w).
    { assert (H : (inject_Z (i * s) < inject_Z (num_clips w * s))%Q) by lra.
      rewrite <- Zlt_Qlt in H. nia. }
    assert (Hq : (inject_Z (i + 1)
                  <= (D + inject_Z (overlap w)) / inject_Z s)%Q).
    { apply Qnot_lt_le. intros Hlt.
      apply (proj1 (PlanFacts.div_lt_iff _ _ _ Hsq)) in Hlt.
      rewrite <- inject_Z_mult in Hlt.
      assert (Hsplit : (inject_Z (clip_duration w - 2 * overlap w)
                        == inject_Z s - inject_Z (overlap w))%Q).
      { replace (clip_duration w - 2 * overlap w) with (s + - overlap w)
          by (subst s; lia).
        rewrite inject_Z_plus, inject_Z_opp. reflexivity. }
      lra. }
    assert (HiF : i + 1 <= Py.int ((D + inject_Z (overlap w)) / inject_Z s)).
    { rewrite PyFacts.int_floor.
      - rewrite <- (Qfloor_Z (i + 1)). now apply Qfloor_resp_le.
      - apply PlanFacts.div_pos_nonneg; [|assumption].
        assert (0 < inject_Z (overlap w))%Q by (apply PlanFacts.inject_Z_pos; lia).
        lra. }
    assert (Hl : (inject_Z s <= inject_Z (clip_duration w))%Q)
      by (rewrite <- Zle_Qle; subst s; lia).
    assert (Hsum : (inject_Z (i * s + clip_duration w)
                    == inject_Z (i * s) + inject_Z (clip_duration w))%Q)
      by (rewrite inject_Z_plus; reflexivity).
    exists (window w D i). split; [|split].
    + unfold plan. rewrite Ha. apply In_plan_loop.
      * lia.
      * intros j Hj. unfold past_end. cbn [window startSeconds].
        rewrite Hstart by lia. apply PyFacts.ge_false.
        assert (H : (inject_Z (j * s) <= inject_Z (i * s))%Q)
          by (rewrite <- Zle_Qle; nia).
        lra.
      * unfold too_short. cbn [window startSeconds endSeconds].
        rewrite Hstart by lia. apply PyFacts.lt_false. unfold clip_end.
        assert (H1 : (1 <= inject_Z s)%Q)
          by (change 1%Q with (inject_Z 1); rewrite <- Zle_Qle; lia).
        destruct (PyFacts.min_cases (inject_Z (i * s + clip_duration w)) D)
          as [[-> _]|[-> _]]; lra.
    + cbn [window startSeconds]. now rewrite Hstart.
    + cbn [window endSeconds]. rewrite Hstart by lia. unfold clip_end.
      destruct (PyFacts.min_cases (inject_Z (i * s + clip_duration w)) D)
        as [[-> _]|[-> _]]; lra.
  - intros n Hn. destruct (plan_indices w D HD) as (ks & -> & _ & Hall & _ & Hlt).
    specialize (Hlt n Hn). rewrite Forall_map, Forall_forall in *.
    intros k Hk. destruct (Hall k Hk) as (Hk0 & _). specialize (Hlt k Hk).
    cbn [window endSeconds]. rewrite Hstart by lia. unfold clip_end.
    assert (H : (inject_Z (k * s + clip_duration w)
                 <= inject_Z (n * s + overlap w))%Q).
    { rewrite <- Zle_Qle. subst s. nia. }
    destruct (PyFacts.min_cases (inject_Z (k * s + clip_duration w)) D)
      as [[-> ?]|[-> ?]]; lra.
Qed.

(* ------------------------------------------------------------------ *)
(** ** The further properties on concrete inputs *)

(** [adjust_color_channels] on the colour of the start button, darkened by
    20 as for its hover state. *)
Lemma adjust_color_channels_witness :
  ModernButton.parse_color "#4CAF50" = Some (76, 175, 80)
  /\ exists s,
       ModernButton.adjust_color "#4CAF50" (-20) = inr s
       /\ ModernButton.parse_color s
          = Some (Z.max 0 (Z.min 255 (76 + -20)),
                  Z.max 0 (Z.min 255 (175 + -20)),
                  Z.max 0 (Z.min 255 (80 + -20))).
Proof.
  split; [reflexivity|].
  exact (ColorFacts.adjust_color_channels "#4CAF50" (-20) 76 175 80 eq_refl).
Defined.

(** [adjust_color_compose]: the pressed colour of the start button (darker
    by 40) is its hover colour darkened by 20 again. *)
Lemma adjust_color_compose_witness :
  (ModernButton.parse_color "#4CAF50" = Some (76, 175, 80)
   /\ ((0 <= -20 /\ 0 <= -20) \/ (-20 <= 0 /\ -20 <= 0))
   /\ ModernButton.adjust_color "#4CAF50" (-20) = inr "#389b3c"%string)
  /\ ModernButton.adjust_color "#389b3c" (-20)
     = ModernButton.adjust_color "#4CAF50" (-20 + -20)
  /\ ModernButton.adjust_color "#389b3c" 0 = inr "#389b3c"%string.
Proof.
  assert (H1 : ModernButton.parse_color "#4CAF50" = Some (76, 175, 80))
    by reflexivity.
  assert (H2 : (0 <= -20 /\ 0 <= -20) \/ (-20 <= 0 /\ -20 <= 0))
    by (right; split; discriminate).
  assert (H3 : ModernButton.adjust_color "#4CAF50" (-20) = inr "#389b3c"%string)
    by reflexivity.
  split; [exact (conj H1 (conj H2 H3))|].
  exact (ColorFacts.adjust_color_compose "#4CAF50" "#389b3c" (-20) (-20) _ H1 H2 H3).
Defined.

(** [adjust_color_short] on the short form [#abc]. *)
Lemma adjust_color_short_witness :
  (String.length (ModernButton.lstrip_hash "#abc") < 5)%nat
  /\ ModernButton.adjust_color "#abc" 10 = inl Py.ValueError.
Proof.
  assert (H : (String.length (ModernButton.lstrip_hash "#abc") < 5)%nat)
    by (cbn; lia).
  split; [exact H|].
  exact (ColorFacts.adjust_color_short "#abc" 10 H).
Defined.

(** [get_video_info_no_video] on a file with a single audio stream. *)
Lemma get_video_info_no_video_witness :
  Forall (fun s => is_type "video" s = false)
         [{| codec_type := Some "audio"%string;
             codec_name := Some "aac"%string;
             width := None;
             height := None;
             r_frame_rate := Some "0/0"%string |}]
  /\ get_video_info Scenario.no_other_text
       (ProbeExit 0
          (Some {| format_duration := Present 200%Q;
                   format_size := Present 4096;
                   streams := [{| codec_type := Some "audio"%string;
                                  codec_name := Some "aac"%string;
                                  width := None;
                                  height := None;
                                  r_frame_rate := Some "0/0"%string |}] |}))
     = Some {| duration := 200%Q;
               size := 4096;
               video_codec := Some "unknown"%string;
               audio_codec := Some "aac"%string;
               vwidth := Some 0;
               vheight := Some 0;
               fps := 0 |}.
Proof.
  assert (H : Forall (fun s => is_type "video" s = false)
                     [{| codec_type := Some "audio"%string;
                         codec_name := Some "aac"%string;
                         width := None;
                         height := None;
                         r_frame_rate := Some "0/0"%string |}])
    by (constructor; [reflexivity | constructor]).
  split; [exact H|].
  exact (StreamFacts.get_video_info_no_video Scenario.no_other_text 200%Q 4096 _ H).
Defined.

(** [finished_once] at Scenario A of five clips, every encode verified. *)
Lemma finished_once_witness :
  In (Emit (finished "out" 5))
     (run (Scenario.env 150 Scenario.all_ok Scenario.never) (Scenario.worker 30 5 0))
  /\ "out"%string = SplitWorker.output_dir (Scenario.worker 30 5 0)
  /\ 1 <= 5 <= num_clips (Scenario.worker 30 5 0)
  /\ finishes (run (Scenario.env 150 Scenario.all_ok Scenario.never)
                   (Scenario.worker 30 5 0)) = [5]
  /\ exists before,
       run (Scenario.env 150 Scenario.all_ok Scenario.never) (Scenario.worker 30 5 0)
       = before ++ [Emit (finished "out" 5)]
       /\ ~ In (Emit (status_update Stopping)) before.
Proof.
  assert (H : In (Emit (finished "out" 5))
                 (run (Scenario.env 150 Scenario.all_ok Scenario.never)
                      (Scenario.worker 30 5 0))).
  { vm_compute. repeat first [left; reflexivity | right]. }
  split; [exact H|].
  exact (finished_once _ _ _ _ H).
Defined.

(** [progress_bounds] on a job whose third clip fails: 100 is never
    reported, and clip 5 is never completed. *)
Lemma progress_bounds_witness :
  Forall (fun p => 0 <= p <= 100)
         (percents (run (Scenario.env 150 (Scenario.fails_at 2) Scenario.never)
                        (Scenario.worker 30 5 0)))
  /\ (In 100 (percents (run (Scenario.env 150 (Scenario.fails_at 2) Scenario.never)
                            (Scenario.worker 30 5 0)))
      <-> In 5 (completed (run (Scenario.env 150 (Scenario.fails_at 2) Scenario.never)
                               (Scenario.worker 30 5 0)))).
Proof.
  destruct (progress_bounds (Scenario.env 150 (Scenario.fails_at 2) Scenario.never)
                            (Scenario.worker 30 5 0)) as [Hrange Hfull].
  split; [exact Hrange|].
  exact (Hfull 150%Q 5 _ eq_refl).
Defined.

(** [no_overlap_never_too_short] on a video of half a second. *)
Lemma no_overlap_never_too_short_witness :
  (0 < clip_duration (Scenario.worker 30 10 0)
   /\ overlap (Scenario.worker 30 10 0) = 0
   /\ 1 <= num_clips (Scenario.worker 30 10 0))
  /\ ~ In (Emit (error TooShort))
          (run (Scenario.env (1 # 2) Scenario.all_ok Scenario.never)
               (Scenario.worker 30 10 0)).
Proof.
  assert (H1 : 0 < clip_duration (Scenario.worker 30 10 0)) by reflexivity.
  assert (H2 : overlap (Scenario.worker 30 10 0) = 0) by reflexivity.
  assert (H3 : 1 <= num_clips (Scenario.worker 30 10 0)) by discriminate.
  split; [exact (conj H1 (conj H2 H3))|].
  exact (no_overlap_never_too_short
           (Scenario.env (1 # 2) Scenario.all_ok Scenario.never)
           (Scenario.worker 30 10 0) H1 H2 H3).
Defined.

(** [clip_numbers_contiguous] at Scenario B, with an encoder that fails on
    the third clip. *)
Lemma clip_numbers_contiguous_witness :
  (0 < 100)%Q
  /\ map index (plan (Scenario.worker 30 10 5) 100)
     = map (fun i => i + 1)
           (range 0 (List.length (plan (Scenario.worker 30 10 5) 100)))
  /\ map number
         (clips (run (Scenario.env 100 (Scenario.fails_at 2) Scenario.never)
                     (Scenario.worker 30 10 5)))
     = map (fun i => i + 1)
           (range 0 (List.length
                       (clips (run (Scenario.env 100 (Scenario.fails_at 2)
                                                 Scenario.never)
                                   (Scenario.worker 30 10 5))))).
Proof.
  assert (HD : (0 < 100)%Q) by reflexivity.
  split; [exact HD|].
  exact (clip_numbers_contiguous
           (Scenario.env 100 (Scenario.fails_at 2) Scenario.never)
           (Scenario.worker 30 10 5) 100 HD).
Defined.

(** [plan_no_gap] at Scenario B: the second clip starts 25 s after the
    first and 5 s before the first ends. *)
Lemma plan_no_gap_witness :
  (0 < 100)%Q
  /\ exists a b l2,
       plan (Scenario.worker 30 10 5) 100 = a :: b :: l2
       /\ index a = 1 /\ startSeconds a = 0
       /\ index b = index a + 1
       /\ startSeconds b = startSeconds a + stride (Scenario.worker 30 10 5)
       /\ (inject_Z (startSeconds b) <= endSeconds a)%Q
       /\ (endSeconds a <= endSeconds b)%Q.
Proof.
  assert (HD : (0 < 100)%Q) by reflexivity.
  split; [exact HD|].
  destruct (plan_no_gap (Scenario.worker 30 10 5) 100 HD) as [Hfirst Hnext].
  eexists _, _, _.
  split; [reflexivity|].
  destruct (Hfirst _ _ eq_refl) as [Hi Hs].
  destruct (Hnext [] _ _ _ eq_refl) as (Hb & Hsb & Hle & Hee & _).
  exact (conj Hi (conj Hs (conj Hb (conj Hsb (conj Hle Hee))))).
Defined.

(* ------------------------------------------------------------------ *)
(** ** The files of a run *)

Module FileFacts.

Import ClipFile.

Lemma length_append (a b : string) :
  String.length (a ++ b) = (String.length a + String.length b)%nat.
Proof. induction a as [|c a IH]; cbn; [reflexivity|now rewrite IH]. Qed.

Lemma chop_suffix_app (suffix s : string) :
  chop_suffix suffix (s ++ suffix) = Some s.
Proof.
  induction s as [|c s IH].
  - cbn [append]. destruct suffix; cbn; [reflexivity|].
    now rewrite Ascii.eqb_refl, String.eqb_refl.
  - cbn [append chop_suffix].
    destruct (String.eqb_spec (String c (s ++ suffix)) suffix) as [E|_].
    + exfalso. apply (f_equal String.length) in E. cbn in E.
      rewrite length_append in E. lia.
    + rewrite IH. reflexivity.
Qed.

Lemma uint_of_string_zeros (p : nat) (digits : string) (u : Decimal.uint) :
  DecimalString.NilZero.uint_of_string digits = Some u ->
  DecimalString.NilZero.uint_of_string (zeros p ++ digits)
  = Some (Nat.iter p Decimal.D0 u).
Proof.
  intros H. destruct digits as [|c digits]; [discriminate|].
  unfold DecimalString.NilZero.uint_of_string in *.
  induction p as [|p IH]; [exact H|].
  cbn [zeros append Nat.iter nat_rect].
  cbn [DecimalString.NilEmpty.uint_of_string].
  assert (Hin : DecimalString.NilEmpty.uint_of_string (zeros p ++ String c digits)
                = Some (Nat.iter p Decimal.D0 u)).
  { destruct p; [exact H|exact IH]. }
  fold (DecimalString.NilEmpty.uint_of_string (zeros p ++ String c digits)).
  rewrite Hin. reflexivity.
Qed.

Lemma of_uint_zeros (p : nat) (u : Decimal.uint) :
  Z.of_uint (Nat.iter p Decimal.D0 u) = Z.of_uint u.
Proof. induction p as [|p IH]; [reflexivity|]. cbn [Nat.iter nat_rect]. exact IH. Qed.

(** The digits of a number that is not negative read back as it. *)
Lemma format_03d_read (k : Z) :
  0 <= k ->
  option_map Z.of_uint (DecimalString.NilZero.uint_of_string (format_03d k))
  = Some k.
Proof.
  intros Hk. unfold format_03d.
  destruct (k <? 0) eqn:E; [apply Z.ltb_lt in E; lia|].
  assert (Hn : N.to_uint (Z.abs_N k) <> Decimal.Nil).
  { destruct (Z.abs_N k) as [|p]; [discriminate|]. apply DecimalPos.Unsigned.to_uint_nonnil. }
  rewrite (uint_of_string_zeros _ _ _ (DecimalString.NilZero.usu _ Hn)).
  cbn [option_map]. rewrite of_uint_zeros. unfold Z.of_uint.
  change (Pos.of_uint (N.to_uint (Z.abs_N k))) with (N.of_uint (N.to_uint (Z.abs_N k))).
  rewrite DecimalN.Unsigned.of_to, N2Z.inj_abs_N. f_equal. lia.
Qed.

Lemma clip_name_read (k : Z) : 0 <= k -> clip_number_of (clip_name k) = Some k.
Proof.
  intros Hk. unfold clip_number_of, clip_name. cbn [append strip_prefix].
  rewrite chop_suffix_app. now apply format_03d_read.
Qed.

Lemma NoDup_range (i : Z) (k : nat) : NoDup (range i k).
Proof.
  revert i. induction k as [|k IH]; intros i; [constructor|].
  cbn [range]. constructor; [|apply IH].
  intros Hin. apply In_range in Hin. lia.
Qed.

(** The clip numbers of a run are 1, 2, 3, ... in order. *)
Lemma run_clip_numbers (env : Env) (w : Worker) :
  map number (clips (run env w))
  = map (fun i => i + 1) (range 0 (List.length (clips (run env w)))).
Proof.
  destruct (setup env w) as [did|D n did] eqn:Hs.
  - now rewrite (run_clips_abort _ _ _ Hs).
  - destruct (RunFacts.setup_ready _ _ _ _ _ Hs) as (HD & _).
    destruct (run_clips_prefix _ _ _ _ _ Hs) as (m & ->).
    rewrite (plan_contiguous w D HD), !map_map, !firstn_map, firstn_range,
      !length_map, length_range, map_map.
    reflexivity.
Qed.

(** The names up to clip 999, computed. *)
Lemma name_length_check :
  forallb (fun n => (String.length (clip_name (Z.of_nat n)) =? 12)%nat) (seq 0 1000)
  = true.
Proof. vm_compute. reflexivity. Qed.

(** X18.  The file name of a clip tells its number: for every clip number
    that is not negative the name reads back as the number, so two clips
    with different numbers never share a file; and up to clip 999 every
    name has the same twelve characters' length, the number written with
    three digits. *)
Theorem clip_name_injective (j k : Z) :
  0 <= j -> 0 <= k ->
  clip_number_of (clip_name k) = Some k
  /\ (clip_name j = clip_name k -> j = k)
  /\ (k <= 999 -> String.length (clip_name k) = 12%nat).
Proof.
  intros Hj Hk. split; [now apply clip_name_read|]. split.
  - intros E. apply (f_equal clip_number_of) in E.
    rewrite !clip_name_read in E by assumption. congruence.
  - intros Hmax.
    pose proof name_length_check as Hall. rewrite forallb_forall in Hall.
    specialize (Hall (Z.to_nat k)). rewrite Z2Nat.id in Hall by assumption.
    apply Nat.eqb_eq, Hall, in_seq. lia.
Qed.

End FileFacts.

Import ClipFile.

(** X19.  No run writes two clips to the same file: the encodes of a run
    go, in order, to the files named after 1, 2, 3, ..., and these names
    are pairwise distinct. *)
Theorem run_files_distinct (env : Env) (w : Worker) :
  map (fun c => clip_name (number c)) (clips (run env w))
  = map (fun i => clip_name (i + 1)) (range 0 (List.length (clips (run env w))))
  /\ NoDup (map (fun c => clip_name (number c)) (clips (run env w))).
Proof.
  assert (Heq : map (fun c => clip_name (number c)) (clips (run env w))
                = map (fun i => clip_name (i + 1))
                      (range 0 (List.length (clips (run env w))))).
  { rewrite <- (map_map number clip_name), FileFacts.run_clip_numbers, map_map.
    reflexivity. }
  split; [exact Heq|]. rewrite Heq.
  apply NoDup_map_NoDup_ForallPairs; [|apply FileFacts.NoDup_range].
  intros i j Hi Hj E. apply In_range in Hi, Hj.
  apply (f_equal clip_number_of) in E.
  rewrite !FileFacts.clip_name_read in E by lia.
  injection E. lia.
Qed.

(* ------------------------------------------------------------------ *)
(** ** Pressing Start *)

Module StartFacts.

Ltac in_list H :=
  cbn in H; repeat (destruct H as [H|H]; [try discriminate H|]); try contradiction.

(** "Unexpected error" comes from the set-up alone: from [os.makedirs],
    or from the division of the clip count. *)
Lemma In_unexpected (env : Env) (w : Worker) (e : Py.exn) :
  In (Emit (error (Unexpected e))) (run env w) ->
  makedirs env = Some e
  \/ exists D, (0 < D)%Q /\ actual_clips w D = inl e.
Proof.
  intros Hin. destruct (setup env w) as [did|D n did] eqn:Hs.
  - unfold run in Hin. rewrite Hs in Hin. revert Hs Hin.
    unfold setup, check_ffmpeg.
    destruct (SplitWorker.which_ffmpeg env); cbn [negb];
      [|intros [= <-] Hin; cbn in Hin; exfalso; intuition discriminate].
    destruct (SplitWorker.ffmpeg_version env) as [[]|rc]; cbn [negb];
      try (intros [= <-] Hin; cbn in Hin; exfalso; intuition discriminate).
    destruct (rc =? 0); cbn [negb];
      [|intros [= <-] Hin; cbn in Hin; exfalso; intuition discriminate].
    destruct (get_video_info (eval_rest env) (ffprobe env)) as [info|];
      [|intros [= <-] Hin; cbn in Hin; exfalso; intuition discriminate].
    destruct (Qle_bool (duration info) 0) eqn:Ed;
      [intros [= <-] Hin; cbn in Hin; exfalso; intuition discriminate|].
    assert (HD : (0 < duration info)%Q).
    { apply Qnot_le_lt. intros H. apply Qle_bool_iff in H. congruence. }
    destruct (makedirs env) as [x|].
    { intros [= <-] Hin. left. in_list Hin. congruence. }
    destruct (actual_clips w (duration info)) as [x|m] eqn:Ea.
    { intros [= <-] Hin. right. exists (duration info). split; [exact HD|].
      in_list Hin. congruence. }
    destruct (m =? 0); [|discriminate].
    intros [= <-] Hin. exfalso. in_list Hin.
  - exfalso. destruct (RunFacts.run_ready _ _ _ _ _ Hs)
      as (ks & en & Hrun & _ & _ & _ & _ & He).
    destruct (RunFacts.setup_ready _ _ _ _ _ Hs)
      as (_ & _ & _ & _ & _ & _ & Hde & _).
    apply In_errors in Hin.
    rewrite Hrun, !TraceFacts.errors_app, Hde, TraceFacts.errors_successes,
      TraceFacts.errors_ending in Hin.
    cbn [app] in Hin. apply in_app_iff in Hin. destruct Hin as [Hin|Hin].
    + destruct en as [| |j msg]; try contradiction.
      destruct Hin as [->|[]]. destruct He as (_ & _ & Ho).
      apply outcome_failed_form in Ho. destruct Ho as [?|(x & ?)]; discriminate.
    + destruct (report_cases env w (is_cancel en) (Z.of_nat (List.length ks))
                             (Nat2Z.is_nonneg _))
        as [(Hr & _)|[(Hr & _)|(Hr & _)]];
        rewrite Hr in Hin; cbn in Hin; intuition discriminate.
Qed.

(** With an overlap below the clip length, and a positive length when
    there is no overlap, the clip count is defined and lies between 0 and
    the number requested. *)
Lemma actual_clips_defined (w : Worker) (D : Q) :
  (0 < D)%Q ->
  overlap w < clip_duration w ->
  0 < clip_duration w ->
  0 <= num_clips w ->
  exists n, actual_clips w D = inr n /\ 0 <= n <= num_clips w.
Proof.
  intros HD Hlt HL HN. unfold actual_clips.
  destruct (0 <? overlap w) eqn:Eo.
  - apply Z.ltb_lt in Eo.
    assert (Hs : (0 < inject_Z (clip_duration w - overlap w))%Q)
      by (apply PlanFacts.inject_Z_pos; lia).
    assert (HO : (0 < inject_Z (overlap w))%Q) by (apply PlanFacts.inject_Z_pos; lia).
    rewrite PyFacts.truediv_nonzero by lra.
    eexists. split; [reflexivity|].
    assert (Hq : (0 <= (D + inject_Z (overlap w))
                       / inject_Z (clip_duration w - overlap w))%Q)
      by (apply PlanFacts.div_pos_nonneg; lra).
    rewrite PyFacts.int_floor by exact Hq.
    pose proof (Qfloor_resp_le _ _ Hq) as Hf. change (Qfloor 0) with 0 in Hf. lia.
  - assert (Hl : (0 < inject_Z (clip_duration w))%Q)
      by (apply PlanFacts.inject_Z_pos; lia).
    rewrite PyFacts.truediv_nonzero by lra.
    eexists. split; [reflexivity|].
    assert (Hq : (0 <= D / inject_Z (clip_duration w))%Q)
      by (apply PlanFacts.div_pos_nonneg; lra).
    rewrite PyFacts.int_floor by exact Hq.
    pose proof (Qfloor_resp_le _ _ Hq) as Hf. change (Qfloor 0) with 0 in Hf.
    destruct (Py.lt 0 (Py.mod_ D (inject_Z (clip_duration w)))); lia.
Qed.

Ltac refused :=
  split;
  [ intros w; split;
    [ intros Hin; exfalso; in_list Hin
    | intros (f & dz & H1 & H2 & H3 & H4 & H5 & H6 & H7 & _); exfalso ]
  | intros _;
    first [ eexists [], _; reflexivity
          | eexists [Did (Subprocess FfmpegVersion)], _; reflexivity ] ].

(** X20.  Start creates a worker exactly when every check passes: a file
    and a folder are selected, the file exists, FFmpeg is found and
    [ffmpeg -version] exits 0, the overlap is below the clip length, and
    the disk is not low or the user chose to continue.  The worker then
    carries the settings of the widgets and a fresh sub-folder of the
    export folder.  When no worker is created the last thing
    [start_splitting] does is to show a message box: it never gives up
    silently. *)
Theorem start_splitting_starts (a : App) (d : Desk) :
  (forall w,
     In (StartWorker w) (start_splitting a d)
     <-> exists file dir,
           truthy (VideoSplitterApp.input_file a) = Some file
           /\ truthy (VideoSplitterApp.output_dir a) = Some dir
           /\ path_exists d = true
           /\ VideoSplitterApp.which_ffmpeg d = true
           /\ VideoSplitterApp.ffmpeg_version d = RunExit 0
           /\ overlap_input a < duration_input a
           /\ (low_space d = true -> reply_no d = false)
           /\ w = {| SplitWorker.input_file := file;
                     SplitWorker.clip_duration := duration_input a;
                     SplitWorker.num_clips := num_clips_input a;
                     SplitWorker.output_dir :=
                       output_subdir (path_join d) dir (duration_input a)
                                     (timestamp d);
                     SplitWorker.overlap := overlap_input a;
                     SplitWorker.use_copy := mode_index a =? 0;
                     SplitWorker.quality := quality_lower a |})
  /\ ((forall w, ~ In (StartWorker w) (start_splitting a d)) ->
      exists before b, start_splitting a d = before ++ [Box b]).
Proof.
  unfold start_splitting.
  destruct (truthy (VideoSplitterApp.input_file a)) as [file|] eqn:Ef;
    [|refused; discriminate].
  destruct (truthy (VideoSplitterApp.output_dir a)) as [dir|] eqn:Ed;
    [|refused; discriminate].
  destruct (path_exists d) eqn:Ep; cbn [negb]; [|refused; discriminate].
  unfold check_ffmpeg.
  destruct (VideoSplitterApp.which_ffmpeg d) eqn:Ew; cbn [negb];
    [|refused; discriminate].
  destruct (VideoSplitterApp.ffmpeg_version d) as [[]|rc] eqn:Ev; cbn [negb];
    try (refused; discriminate).
  destruct (rc =? 0) eqn:Erc; cbn [negb];
    [|refused; injection H5 as ->; discriminate].
  apply Z.eqb_eq in Erc. subst rc.
  destruct (duration_input a <=? overlap_input a) eqn:Eo;
    [refused; apply Z.leb_le in Eo; lia|].
  apply Z.leb_gt in Eo.
  destruct (low_space d) eqn:El; cbn [andb].
  - destruct (reply_no d) eqn:Er; [refused; specialize (H7 eq_refl); discriminate|].
    split.
    + intros w. split.
      * intros Hin. in_list Hin. injection Hin as <-.
        exists file, dir. repeat split; auto.
      * intros (f & dz & [= <-] & [= <-] & _ & _ & _ & _ & _ & ->).
        cbn. auto.
    + intros Hno. exfalso. eapply Hno. cbn. right. right. left. reflexivity.
  - split.
    + intros w. split.
      * intros Hin. in_list Hin. injection Hin as <-.
        exists file, dir. repeat split; auto. discriminate.
      * intros (f & dz & [= <-] & [= <-] & _ & _ & _ & _ & _ & ->).
        cbn. auto.
    + intros Hno. exfalso. eapply Hno. cbn. right. left. reflexivity.
Qed.

(** X21.  A job started from the window, whose spin boxes keep the clip
    length in 1..3600, the count in 1..1000 and the overlap in 0..60,
    never divides by zero: for every positive duration (a number) the clip
    count is defined and lies between 0 and the count requested, no run
    reports a ZeroDivisionError as "Unexpected error" unless [os.makedirs]
    raised it, and a "Creating n clips..." status names a count between 1
    and 1000. *)
Theorem started_worker_sound (a : App) (d : Desk) (w : Worker) :
  In (StartWorker w) (start_splitting a d) ->
  1 <= duration_input a <= 3600 ->
  1 <= num_clips_input a <= 1000 ->
  0 <= overlap_input a <= 60 ->
  (forall D, (0 < D)%Q ->
     exists n, actual_clips w D = inr n /\ 0 <= n <= num_clips w)
  /\ (forall env,
        In (Emit (error (Unexpected Py.ZeroDivisionError))) (run env w) ->
        makedirs env = Some Py.ZeroDivisionError)
  /\ (forall env n,
        In (Emit (status_update (Creating n))) (run env w) -> 1 <= n <= 1000).
Proof.
  intros Hin HL HN HO.
  assert (Hw : SplitWorker.clip_duration w = duration_input a
               /\ num_clips w = num_clips_input a
               /\ SplitWorker.overlap w = overlap_input a
               /\ overlap_input a < duration_input a).
  { revert Hin. unfold start_splitting.
    destruct (truthy (VideoSplitterApp.input_file a)); [|intros H; in_list H].
    destruct (truthy (VideoSplitterApp.output_dir a)); [|intros H; in_list H].
    destruct (negb (path_exists d)); [intros H; in_list H|].
    destruct (check_ffmpeg _ _) as [[ok msg] checked] eqn:Ec.
    assert (Hc : forall x, ~ In (StartWorker x) (map Did checked)).
    { intros x Hx. apply in_map_iff in Hx. destruct Hx as (? & ? & _). discriminate. }
    destruct (negb ok).
    { intros H. apply in_app_iff in H. destruct H as [H|H];
        [now apply Hc in H|in_list H]. }
    destruct (duration_input a <=? overlap_input a) eqn:Eo.
    { intros H. apply in_app_iff in H. destruct H as [H|H];
        [now apply Hc in H|in_list H]. }
    apply Z.leb_gt in Eo.
    destruct (low_space d && reply_no d).
    { intros H. apply in_app_iff in H. destruct H as [H|H];
        [now apply Hc in H|in_list H]. }
    intros H. apply in_app_iff in H. destruct H as [H|H]; [now apply Hc in H|].
    apply in_app_iff in H. destruct H as [H|H].
    { destruct (low_space d); in_list H. }
    in_list H. injection H as <-. cbn. auto. }
  destruct Hw as (EL & EN & EO & Hlt).
  assert (Hcount : forall D, (0 < D)%Q ->
            exists n, actual_clips w D = inr n /\ 0 <= n <= num_clips w).
  { intros D HD. apply actual_clips_defined; lia || assumption. }
  split; [exact Hcount|]. split.
  - intros env He. apply In_unexpected in He.
    destruct He as [He|(D & HD & He)]; [exact He|].
    destruct (Hcount D HD) as (n & Hn & _). congruence.
  - intros env n Hn. destruct (setup env w) as [did|D m did] eqn:Hs.
    + exfalso. unfold run in Hn. rewrite Hs in Hn. revert Hs Hn.
      unfold setup, check_ffmpeg.
      destruct (SplitWorker.which_ffmpeg env); cbn [negb];
        [|intros [= <-] H; in_list H].
      destruct (SplitWorker.ffmpeg_version env) as [[]|rc]; cbn [negb];
        try (intros [= <-] H; in_list H).
      destruct (rc =? 0); cbn [negb]; [|intros [= <-] H; in_list H].
      destruct (get_video_info (eval_rest env) (ffprobe env)) as [info|];
        [|intros [= <-] H; in_list H].
      destruct (Qle_bool (duration info) 0); [intros [= <-] H; in_list H|].
      destruct (makedirs env); [intros [= <-] H; in_list H|].
      destruct (actual_clips w (duration info)) as [x|k];
        [intros [= <-] H; in_list H|].
      destruct (k =? 0); [intros [= <-] H; in_list H|discriminate].
    + destruct (RunFacts.setup_ready _ _ _ _ _ Hs) as (HD & Ha & Hm & _).
      destruct (Hcount D HD) as (k & Hk & Hrange).
      assert (k = m) by congruence. subst k.
      assert (Hnm : n = m); [|lia].
      destruct (RunFacts.run_ready _ _ _ _ _ Hs) as (ks & en & Hrun & _).
      rewrite Hrun in Hn. clear Hrun. revert Hs Hn.
      unfold setup, check_ffmpeg.
      destruct (SplitWorker.which_ffmpeg env); cbn [negb]; [|discriminate].
      destruct (SplitWorker.ffmpeg_version env) as [[]|rc]; cbn [negb];
        try discriminate.
      destruct (rc =? 0); cbn [negb]; [|discriminate].
      destruct (get_video_info (eval_rest env) (ffprobe env)) as [info|];
        [|discriminate].
      destruct (Qle_bool (duration info) 0); [discriminate|].
      destruct (makedirs env); [discriminate|].
      destruct (actual_clips w (duration info)) as [x|k]; [discriminate|].
      destruct (k =? 0); [discriminate|].
      intros [= <- <- <-] H.
      apply in_app_iff in H. destruct H as [H|H]; [in_list H; congruence|].
      apply in_app_iff in H. destruct H as [H|H].
      * apply in_app_iff in H. destruct H as [H|H].
        -- apply In_success in H. destruct H as (j & _ & [H|[H|[H|H]]]); discriminate.
        -- destruct en; in_list H.
      * destruct (report_cases env w (is_cancel en) (Z.of_nat (List.length ks))
                               (Nat2Z.is_nonneg _))
          as [(Hr & _)|[(Hr & _)|(Hr & _)]];
          rewrite Hr in H; in_list H.
Qed.

End StartFacts.

(* ------------------------------------------------------------------ *)
(** ** The window during a job *)

Module UiFacts.

Import Ui.

Lemma flat_map_filter {A B : Type} (f : A -> list B) (p : A -> bool) (l : list A) :
  (forall x, p x = false -> f x = []) ->
  flat_map f (filter p l) = flat_map f l.
Proof.
  intros H. induction l as [|x l IH]; [reflexivity|].
  cbn. destruct (p x) eqn:E; cbn; rewrite IH; [reflexivity|].
  now rewrite (H x E).
Qed.

Lemma existsb_filter {A : Type} (q p : A -> bool) (l : list A) :
  (forall x, p x = false -> q x = false) ->
  existsb q (filter p l) = existsb q l.
Proof.
  intros H. induction l as [|x l IH]; [reflexivity|].
  cbn. destruct (p x) eqn:E; cbn; rewrite IH; [reflexivity|].
  now rewrite (H x E).
Qed.

Lemma errors_closings (l : list Action) :
  errors l
  = flat_map (fun s => match s with error e => [e] | _ => [] end) (closings l).
Proof.
  unfold errors, closings. symmetry. apply flat_map_filter.
  intros s H. destruct s; try reflexivity. discriminate H.
Qed.

Lemma finishes_closings (l : list Action) :
  finishes l
  = flat_map (fun s => match s with finished _ c => [c] | _ => [] end) (closings l).
Proof.
  unfold finishes, closings. symmetry. apply flat_map_filter.
  intros s H. destruct s; try reflexivity. discriminate H.
Qed.

Lemma terminal_closings (l : list Action) :
  existsb terminal (signals l) = existsb terminal (closings l).
Proof.
  unfold closings. symmetry. apply existsb_filter.
  intros s H. destruct s; try reflexivity; discriminate H.
Qed.

Lemma dialogs_closings (l : list Action) :
  flat_map dialog_of (signals l) = flat_map dialog_of (closings l).
Proof.
  unfold closings. symmetry. apply flat_map_filter.
  intros s H. destruct s; try reflexivity; discriminate H.
Qed.

(** What one event does to the controls, the timer, the dialogs and the
    worker. *)
Lemma handle_fields (clock : Clock) (ui : Window) (ev : Event) :
  controls (handle clock ui ev)
  = (if existsb terminal (signalled [ev]) then set_controls_enabled true
     else controls ui)
  /\ ui_timer (handle clock ui ev)
     = (if existsb terminal (signalled [ev]) then false else ui_timer ui)
  /\ dialogs (handle clock ui ev) = dialogs ui ++ flat_map dialog_of (signalled [ev])
  /\ worker (handle clock ui ev) = worker ui.
Proof.
  destruct ev as [s|running| |]; cbn.
  - destruct s; cbn; unfold setValue; try destruct (_ && _); cbn;
      rewrite ?app_nil_r; auto.
  - unfold stop_splitting. destruct (worker ui) eqn:Ew; [destruct running|]; cbn;
      rewrite ?app_nil_r, ?Ew; auto.
  - rewrite app_nil_r. auto.
  - rewrite app_nil_r. auto.
Qed.

Lemma signalled_cons (ev : Event) (evs : list Event) :
  signalled (ev :: evs) = signalled [ev] ++ signalled evs.
Proof. unfold signalled. cbn [flat_map]. now rewrite app_nil_r. Qed.

Lemma deliver_fields (clock : Clock) (evs : list Event) (ui : Window) :
  controls (deliver clock evs ui)
  = (if existsb terminal (signalled evs) then set_controls_enabled true
     else controls ui)
  /\ ui_timer (deliver clock evs ui)
     = (if existsb terminal (signalled evs) then false else ui_timer ui)
  /\ dialogs (deliver clock evs ui) = dialogs ui ++ flat_map dialog_of (signalled evs)
  /\ worker (deliver clock evs ui) = worker ui.
Proof.
  revert ui. induction evs as [|ev evs IH]; intros ui.
  - cbn. rewrite app_nil_r. auto.
  - unfold deliver in *. cbn [fold_left].
    destruct (IH (handle clock ui ev)) as (Hc & Ht & Hd & Hw).
    destruct (handle_fields clock ui ev) as (Hc1 & Ht1 & Hd1 & Hw1).
    rewrite (signalled_cons ev evs), existsb_app, flat_map_app, app_assoc.
    rewrite Hc, Ht, Hd, Hw, Hc1, Ht1, Hd1, Hw1.
    destruct (existsb terminal (signalled [ev]));
      destruct (existsb terminal (signalled evs)); cbn [orb]; auto.
Qed.

(** The closing signals of a run: at most the error of a failed clip,
    then the signal of the report or of the set-up that gave up; after
    "Stopping..." no clip has failed and [finished] does not follow. *)
Lemma run_closings (env : Env) (w : Worker) :
  exists pre last,
    closings (run env w) = pre ++ [last]
    /\ (pre = []
        \/ exists k e, (e = ClipTimeout k \/ exists x, e = ClipFailed k x)
                       /\ pre = [error e])
    /\ ((exists e, last = error e /\ completed (run env w) = [])
        \/ (last = finished (SplitWorker.output_dir w)
                            (Z.of_nat (List.length (completed (run env w))))
            /\ completed (run env w) <> []
            /\ stop_called env AfterLoop = false)
        \/ (last = status_update
                     (Stopped (Z.of_nat (List.length (completed (run env w)))))
            /\ completed (run env w) <> []
            /\ (pre = [] \/ stop_called env AfterLoop = true)))
    /\ (In (Emit (status_update Stopping)) (run env w) ->
        pre = [] /\ forall dir c, last <> finished dir c)
    /\ exists before, run env w = before ++ [Emit last].
Proof.
  pose proof (CourseFacts.setup_course env w) as Hc.
  destruct (setup env w) as [did|D n did] eqn:Hs.
  - destruct Hc as (_ & _ & before & e & -> & _ & Hq).
    destruct (RunFacts.setup_abort _ _ _ Hs) as (_ & Hcomp & _).
    exists [], (error e). unfold run. rewrite Hs.
    split; [now rewrite closings_app, (closings_quiet _ Hq)|].
    split; [now left|].
    split; [left; exists e; split; [reflexivity|exact Hcomp]|].
    destruct (RunFacts.setup_abort _ _ _ Hs) as (_ & _ & _ & _ & Hno).
    split; [intros Hin; contradiction|]. now exists before.
  - destruct Hc as (_ & _ & Hq).
    destruct (RunFacts.run_ready _ _ _ _ _ Hs)
      as (ks & e & Hrun & _ & _ & _ & _ & He).
    destruct (RunFacts.setup_ready _ _ _ _ _ Hs)
      as (_ & _ & _ & _ & _ & Hdc & _ & _ & _ & Hno).
    assert (Hrep := report_cases env w (is_cancel e) (Z.of_nat (List.length ks))
                                 (Nat2Z.is_nonneg _)).
    assert (Hcan : In (Emit (status_update Stopping)) (run env w) -> e = Cancel).
    { intros Hin. rewrite Hrun, !in_app_iff in Hin. destruct Hin as [H|[[H|H]|H]].
      - contradiction.
      - now apply not_In_successes in H.
      - destruct e; cbn in H; intuition discriminate.
      - destruct Hrep as [(Hr & _)|[(Hr & _)|(Hr & _)]]; rewrite Hr in H; cbn in H;
          intuition discriminate. }
    assert (Hcomp : completed (run env w) = map (fun k => k + 1) ks).
    { rewrite Hrun, !TraceFacts.completed_app, Hdc,
        TraceFacts.completed_successes, TraceFacts.completed_ending,
        TraceFacts.completed_report.
      cbn [app]. now rewrite !app_nil_r. }
    assert (Hlen : List.length (completed (run env w)) = List.length ks)
      by (now rewrite Hcomp, length_map).
    assert (Hnil : forall c, Z.of_nat (List.length ks) = c -> c <> 0 ->
                     completed (run env w) <> []).
    { intros c Hc Hnz E. rewrite E in Hlen. cbn in Hlen. lia. }
    assert (Hcl : closings (run env w)
                  = match e with Fail _ msg => [error msg] | _ => [] end
                      ++ closings (report env w (is_cancel e)
                                          (Z.of_nat (List.length ks)))).
    { rewrite Hrun, !closings_app, (closings_quiet _ Hq), closings_successes,
        closings_ending. reflexivity. }
    assert (Hpre : match e with Fail _ msg => [error msg] | _ => [] end = []
                   \/ exists k x, (x = ClipTimeout k \/ exists y, x = ClipFailed k y)
                        /\ match e with Fail _ msg => [error msg] | _ => [] end
                           = [error x]).
    { destruct e as [| |j msg]; [now left|now left|]. right.
      destruct He as (_ & _ & Ho). apply outcome_failed_form in Ho.
      exists (j + 1), msg. split; [exact Ho|reflexivity]. }
    rewrite Hcl, Hlen.
    set (loop := flat_map (success env w D n) ks ++ ending_trace w D n e) in Hrun.
    destruct Hrep as [(Hr & Hs' & Hlate & Hpos)|[(Hr & Hz)|(Hr & Hor & Hnz)]];
      rewrite Hr.
    + eexists _, _. split; [reflexivity|]. split; [exact Hpre|]. split.
      * right. left. split; [reflexivity|]. split; [|exact Hlate].
        apply (Hnil _ eq_refl). lia.
      * split; [intros Hin; apply Hcan in Hin; subst e; discriminate|].
        exists (did ++ loop ++ [Emit (status_update
                                       (Success (Z.of_nat (List.length ks))))]).
        rewrite Hrun, Hr, <- !app_assoc. reflexivity.
    + eexists _, _. split; [reflexivity|]. split; [exact Hpre|]. split.
      * left. exists NoClips. split; [reflexivity|].
        destruct (completed (run env w)); [reflexivity|]. cbn in Hlen. lia.
      * split.
        -- intros Hin. apply Hcan in Hin. subst e. split; [reflexivity|].
           discriminate.
        -- exists (did ++ loop). rewrite Hrun, Hr, <- !app_assoc. reflexivity.
    + eexists _, _. split; [reflexivity|]. split; [exact Hpre|]. split.
      * right. right. split; [reflexivity|]. split; [now apply (Hnil _ eq_refl)|].
        destruct Hor as [Hc'|Hstop]; [|now right].
        left. destruct e; try discriminate. reflexivity.
      * split.
        -- intros Hin. apply Hcan in Hin. subst e. split; [reflexivity|].
           discriminate.
        -- exists (did ++ loop). rewrite Hrun, Hr, <- !app_assoc. reflexivity.
Qed.


(** Start creates at most one worker. *)
Lemma started_worker (a : VideoSplitterApp.App) (d : VideoSplitterApp.Desk)
    (w : Worker) :
  In (VideoSplitterApp.StartWorker w) (VideoSplitterApp.start_splitting a d) ->
  started (VideoSplitterApp.start_splitting a d) = Some w.
Proof.
  unfold VideoSplitterApp.start_splitting, check_ffmpeg.
  destruct (VideoSplitterApp.truthy _); [|intros H; StartFacts.in_list H].
  destruct (VideoSplitterApp.truthy _); [|intros H; StartFacts.in_list H].
  destruct (VideoSplitterApp.path_exists d); cbn [negb];
    [|intros H; StartFacts.in_list H].
  destruct (VideoSplitterApp.which_ffmpeg d); cbn [negb];
    [|intros H; StartFacts.in_list H].
  destruct (VideoSplitterApp.ffmpeg_version d) as [[]|rc]; cbn [negb];
    try solve [intros H; StartFacts.in_list H].
  destruct (rc =? 0); cbn [negb]; [|intros H; StartFacts.in_list H].
  destruct (_ <=? _); [intros H; StartFacts.in_list H|].
  destruct (VideoSplitterApp.low_space d); cbn [andb].
  - destruct (VideoSplitterApp.reply_no d); intros H; StartFacts.in_list H.
    now injection H as <-.
  - intros H; StartFacts.in_list H. now injection H as <-.
Qed.

(** The window Start leaves when it creates a worker. *)
Lemma start_fields (clock : Clock) (a : VideoSplitterApp.App)
    (d : VideoSplitterApp.Desk) (ui : Window) (w : Worker) :
  started (VideoSplitterApp.start_splitting a d) = Some w ->
  controls (start_splitting clock a d ui) = set_controls_enabled false
  /\ ui_timer (start_splitting clock a d ui) = true
  /\ worker (start_splitting clock a d ui) = Some w
  /\ progress_bar (start_splitting clock a d ui) = 0
  /\ status_label (start_splitting clock a d ui) = status_label ui
  /\ open_folder_btn (start_splitting clock a d ui) = open_folder_btn ui
  /\ last_output_dir (start_splitting clock a d ui) = last_output_dir ui.
Proof. intros H. unfold start_splitting. rewrite H. cbn. auto 10. Qed.

(** What holds after the slot of the last signal holds at the end, when
    the events without a signal keep it. *)
Lemma deliver_last (clock : Clock) (P : Window -> Prop) (s : Signal) :
  (forall ui, P (slot clock s ui)) ->
  (forall ui ev, P ui -> signalled [ev] = [] -> P (handle clock ui ev)) ->
  forall evs sigs ui, signalled evs = sigs ++ [s] -> P (deliver clock evs ui).
Proof.
  intros Hslot Hkeep evs. induction evs as [|ev evs IH] using rev_ind;
    intros sigs ui Hs.
  - cbn in Hs. now destruct sigs.
  - unfold deliver in *. rewrite fold_left_app. cbn [fold_left].
    unfold signalled in Hs. rewrite flat_map_app in Hs.
    fold (signalled evs) in Hs. fold (signalled [ev]) in Hs.
    destruct ev as [s'|running| |].
    + cbn in Hs. apply app_inj_tail in Hs. destruct Hs as [_ ->]. apply Hslot.
    + cbn in Hs. rewrite app_nil_r in Hs. apply Hkeep; [|reflexivity]. eauto.
    + cbn in Hs. rewrite app_nil_r in Hs. apply Hkeep; [|reflexivity]. eauto.
    + cbn in Hs. rewrite app_nil_r in Hs. apply Hkeep; [|reflexivity]. eauto.
Qed.

Lemma consistent_new (clock : Clock) (which : bool) (version : RunResult) :
  consistent (new_window clock which version).
Proof.
  unfold new_window, check_system_requirements.
  destruct (check_ffmpeg which version) as [[ok msg] did].
  destruct ok; unfold consistent; cbn; repeat split; try discriminate; try lia;
    intros H; now contradiction H.
Qed.

Ltac settle :=
  unfold consistent; cbn; intuition (try discriminate; try lia; auto).

Lemma consistent_handle (clock : Clock) (ui : Window) (ev : Event) :
  consistent ui -> consistent (handle clock ui ev).
Proof.
  intros (Hc & Hw & Ho & Hp). destruct ev as [s|running| |]; cbn.
  - destruct s; cbn; try solve [settle].
    unfold setValue. destruct ((0 <=? percent) && (percent <=? 100)) eqn:E.
    + apply andb_true_iff in E. destruct E as [E1 E2].
      apply Z.leb_le in E1, E2. settle.
    + settle.
  - unfold stop_splitting. destruct (worker ui) eqn:Ew; [destruct running|];
      unfold consistent; cbn; rewrite ?Ew;
      intuition (try discriminate; try lia; auto).
  - settle.
  - settle.
Qed.

Lemma consistent_start (clock : Clock) (a : VideoSplitterApp.App)
    (d : VideoSplitterApp.Desk) (ui : Window) :
  consistent ui -> consistent (start_splitting clock a d ui).
Proof.
  intros (Hc & Hw & Ho & Hp). unfold start_splitting.
  destruct (started _) as [w|]; settle.
Qed.

Lemma consistent_life (clock : Clock) (inputs : list Input) (ui : Window) :
  consistent ui -> consistent (fold_left (react clock) inputs ui).
Proof.
  revert ui. induction inputs as [|i inputs IH]; intros ui H; [exact H|].
  cbn [fold_left]. apply IH. destruct i as [a d|ev]; cbn.
  - now apply consistent_start.
  - now apply consistent_handle.
Qed.

(** X22.  Through the whole life of a window, whatever is pressed and
    whatever the workers signal: the nine controls move together, Stop
    being enabled exactly when Start and the settings are disabled; the
    timer runs exactly while they are disabled, and then there is a
    worker; Open Output Folder is enabled exactly when there is a folder
    to open; and the progress bar stays between 0 and 100. *)
Theorem window_consistent (clock : Clock) (which : bool) (version : RunResult)
    (inputs : list Input) :
  exists enabled : bool,
    controls (life clock which version inputs) = set_controls_enabled enabled
    /\ ui_timer (life clock which version inputs) = negb enabled
    /\ (enabled = false -> worker (life clock which version inputs) <> None)
    /\ (open_folder_btn (life clock which version inputs) = true
        <-> last_output_dir (life clock which version inputs) <> None)
    /\ 0 <= progress_bar (life clock which version inputs) <= 100.
Proof.
  destruct (consistent_life clock inputs _ (consistent_new clock which version))
    as (Hc & Hw & Ho & Hp).
  fold (life clock which version inputs) in Hc, Hw, Ho, Hp.
  exists (negb (ui_timer (life clock which version inputs))).
  split; [exact Hc|]. split; [now rewrite negb_involutive|].
  split; [|split; [exact Ho|exact Hp]].
  intros E. apply Hw. now apply negb_false_iff.
Qed.

(** X23.  The window after a job.  Start has created the worker and the
    window has received the signals of its run, in order, among any
    presses of Stop and Clear Log and any ticks of the timer.  If the run
    emitted neither [error] nor [finished], which happens exactly when its
    only closing signal is the status "Operation stopped. c clips
    created.", then no slot gives the controls back: Start and the
    settings stay disabled, Stop stays enabled, the timer keeps running
    and no box is shown.  Otherwise the controls are enabled again, the
    timer is stopped, and the boxes shown are one "Error" box for each
    [error], in order, followed by one "Success!" box for the [finished]
    if there is one: one box or two. *)
Theorem window_after_job (clock : Clock) (a : VideoSplitterApp.App)
    (d : VideoSplitterApp.Desk) (w : Worker) (env : Env) (evs : list Event)
    (ui0 ui1 ui2 : Window) :
  In (VideoSplitterApp.StartWorker w) (VideoSplitterApp.start_splitting a d) ->
  ui1 = start_splitting clock a d ui0 ->
  signalled evs = signals (run env w) ->
  ui2 = deliver clock evs ui1 ->
  worker ui2 = Some w
  /\ (errors (run env w) = [] /\ finishes (run env w) = [] ->
      controls ui2 = set_controls_enabled false
      /\ ui_timer ui2 = true
      /\ dialogs ui2 = dialogs ui1
      /\ completed (run env w) <> []
      /\ closings (run env w)
         = [status_update (Stopped (Z.of_nat (List.length (completed (run env w)))))])
  /\ (errors (run env w) <> [] \/ finishes (run env w) <> [] ->
      controls ui2 = set_controls_enabled true
      /\ ui_timer ui2 = false
      /\ dialogs ui2
         = dialogs ui1 ++ map ErrorBox (errors (run env w))
             ++ map (SuccessBox (SplitWorker.output_dir w)) (finishes (run env w))
      /\ (1 <= List.length (errors (run env w)) + List.length (finishes (run env w))
          <= 2)%nat).
Proof.
  intros Hin -> Hsig ->.
  destruct (start_fields clock a d ui0 w (started_worker a d w Hin))
    as (Hc1 & Ht1 & Hw1 & _).
  destruct (deliver_fields clock evs (start_splitting clock a d ui0))
    as (Hc & Ht & Hd & Hw).
  rewrite Hc, Ht, Hd, Hw, Hc1, Ht1, Hw1, Hsig, terminal_closings, dialogs_closings,
    errors_closings, finishes_closings.
  clear Hc Ht Hd Hw Hc1 Ht1 Hw1 Hsig.
  destruct (run_closings env w) as (pre & last & -> & Hpre & Hlast & _).
  split; [reflexivity|].
  destruct Hpre as [->|(k & e & _ & ->)];
    destruct Hlast as [(e' & -> & Hcomp)|[(-> & Hcomp & _)|(-> & Hcomp & Hor)]];
    cbn; rewrite ?app_nil_r; split;
    try (intros [? ?]; discriminate);
    try (intros _; repeat split; auto; lia).
  intros [H|H]; now contradiction H.
Qed.

(** X24.  A cancelled job leaves the window locked.  When the loop has
    seen the stop flag after at least one clip was completed, the run ends
    with the status "Operation stopped. c clips created." and with neither
    [error] nor [finished]; once its signals are delivered the status
    label shows that text (or "Stopping...", if Stop was pressed again
    after it), no box has been shown, and Start and the settings are still
    disabled, Stop still enabled and the timer still running. *)
Theorem cancelled_job_locks_window (clock : Clock) (a : VideoSplitterApp.App)
    (d : VideoSplitterApp.Desk) (w : Worker) (env : Env) (evs : list Event)
    (ui0 ui1 ui2 : Window) :
  In (VideoSplitterApp.StartWorker w) (VideoSplitterApp.start_splitting a d) ->
  ui1 = start_splitting clock a d ui0 ->
  signalled evs = signals (run env w) ->
  ui2 = deliver clock evs ui1 ->
  In (Emit (status_update Stopping)) (run env w) ->
  completed (run env w) <> [] ->
  controls ui2 = set_controls_enabled false
  /\ start_btn (controls ui2) = false
  /\ stop_btn (controls ui2) = true
  /\ ui_timer ui2 = true
  /\ dialogs ui2 = dialogs ui1
  /\ (status_label ui2
      = LabelStatus (Stopped (Z.of_nat (List.length (completed (run env w)))))
      \/ status_label ui2 = LabelStatus Stopping).
Proof.
  intros Hin -> Hsig -> Hstop Hcomp.
  destruct (run_closings env w)
    as (pre & last & Hcl & _ & Hlast & Hcan & (before & Hrun)).
  destruct (Hcan Hstop) as [-> Hnf].
  destruct Hlast as [(e & _ & Hc0)|[(-> & _)|(-> & _ & _)]];
    [contradiction|exfalso; eapply Hnf; reflexivity|].
  destruct (start_fields clock a d ui0 w (started_worker a d w Hin))
    as (Hc1 & Ht1 & _).
  destruct (deliver_fields clock evs (start_splitting clock a d ui0))
    as (Hc & Ht & Hd & _).
  rewrite Hsig, terminal_closings, Hcl in Hc, Ht.
  rewrite Hsig, dialogs_closings, Hcl in Hd. cbn in Hc, Ht, Hd.
  rewrite Hc, Ht, Hd, Hc1, Ht1, app_nil_r.
  repeat (split; [reflexivity|]).
  apply (deliver_last clock
           (fun ui => status_label ui
                      = LabelStatus
                          (Stopped (Z.of_nat (List.length (completed (run env w)))))
                      \/ status_label ui = LabelStatus Stopping)
           (status_update (Stopped (Z.of_nat (List.length (completed (run env w))))))
           ltac:(intros ui; left; reflexivity))
    with (sigs := signals before).
  - intros ui ev H Hev. destruct ev as [s|running| |]; [discriminate Hev| | |].
    + cbn. unfold stop_splitting. destruct (worker ui); [destruct running|]; cbn; auto.
    + exact H.
    + exact H.
  - rewrite Hsig. rewrite Hrun at 1. now rewrite TraceFacts.signals_app.
Qed.

(** X25.  What the user sees of a failed clip.  When a clip fails after at
    least one clip was completed and [stop] is not called before the
    report, the window shows the "Error" box of the failure and then the
    "Success!" box with the number of clips made before it; the controls
    are enabled again, the timer is stopped, and Open Output Folder is
    enabled on the worker's output directory. *)
Theorem failed_clip_two_dialogs (clock : Clock) (a : VideoSplitterApp.App)
    (d : VideoSplitterApp.Desk) (w : Worker) (env : Env) (evs : list Event)
    (ui0 ui1 ui2 : Window) (e : ErrorMsg) :
  In (VideoSplitterApp.StartWorker w) (VideoSplitterApp.start_splitting a d) ->
  ui1 = start_splitting clock a d ui0 ->
  signalled evs = signals (run env w) ->
  ui2 = deliver clock evs ui1 ->
  In (Emit (error e)) (run env w) ->
  completed (run env w) <> [] ->
  stop_called env AfterLoop = false ->
  dialogs ui2
  = dialogs ui1
      ++ [ErrorBox e;
          SuccessBox (SplitWorker.output_dir w)
                     (Z.of_nat (List.length (completed (run env w))))]
  /\ controls ui2 = set_controls_enabled true
  /\ ui_timer ui2 = false
  /\ open_folder_btn ui2 = true
  /\ last_output_dir ui2 = Some (SplitWorker.output_dir w).
Proof.
  intros Hin -> Hsig -> Herr Hcomp Hlate.
  destruct (run_closings env w)
    as (pre & last & Hcl & Hpre & Hlast & _ & (before & Hrun)).
  apply In_errors in Herr. rewrite errors_closings, Hcl in Herr.
  assert (Hfin : last = finished (SplitWorker.output_dir w)
                                 (Z.of_nat (List.length (completed (run env w))))
                 /\ pre = [error e]).
  { destruct Hlast as [(e' & _ & Hc0)|[(-> & _)|(-> & _ & Hor)]];
      [contradiction| |].
    - split; [reflexivity|].
      destruct Hpre as [->|(k & x & _ & ->)]; cbn in Herr; [contradiction|].
      destruct Herr as [->|[]]. reflexivity.
    - exfalso. destruct Hor as [->|Hs]; [|congruence].
      cbn in Herr. contradiction. }
  destruct Hfin as [-> ->].
  destruct (deliver_fields clock evs (start_splitting clock a d ui0))
    as (Hc & Ht & Hd & _).
  rewrite Hsig, terminal_closings, Hcl in Hc, Ht.
  rewrite Hsig, dialogs_closings, Hcl in Hd. cbn in Hc, Ht, Hd.
  rewrite Hc, Ht, Hd.
  repeat (split; [reflexivity|]).
  apply (deliver_last clock
           (fun ui => open_folder_btn ui = true
                      /\ last_output_dir ui = Some (SplitWorker.output_dir w))
           (finished (SplitWorker.output_dir w)
                     (Z.of_nat (List.length (completed (run env w)))))
           ltac:(intros ui; split; reflexivity))
    with (sigs := signals before).
  - intros ui ev H Hev. destruct ev as [s|running| |]; [discriminate Hev| | |].
    + cbn. unfold stop_splitting. destruct (worker ui); [destruct running|]; cbn; auto.
    + exact H.
    + exact H.
  - rewrite Hsig. rewrite Hrun at 1. now rewrite TraceFacts.signals_app.
Qed.

(** The progress values of a run never decrease and stay within the range
    of the bar. *)
Lemma percents_course (env : Env) (w : Worker) :
  StronglySorted Z.le (percents (run env w))
  /\ Forall (fun p => 0 <= p <= 100) (percents (run env w)).
Proof.
  destruct (setup env w) as [did|D n did] eqn:Hs.
  - destruct (RunFacts.setup_abort _ _ _ Hs) as (Hp & _).
    unfold run. rewrite Hs, Hp. split; constructor.
  - destruct (run_ready_events _ _ _ _ _ Hs) as (ks & -> & _ & Hsorted & Hrange).
    split.
    + destruct ks as [|k0 ks']; [constructor|].
      assert (Hn : 0 < n).
      { inversion Hrange as [|? ? Hk0 _]; subst. lia. }
      apply sorted_map_mono with (lo := 0); auto.
      * intros k k' Hk Hkk'. now apply progress_percent_mono.
      * eapply Forall_impl; [|exact Hrange]. cbn beta. intros; lia.
    + rewrite Forall_map, Forall_forall. rewrite Forall_forall in Hrange.
      intros k Hk. specialize (Hrange k Hk). apply progress_percent_range. lia.
Qed.

Lemma last_cons (l : list Z) (a d : Z) : last (a :: l) d = last l a.
Proof.
  revert a d. induction l as [|b l IH]; intros a d; [reflexivity|].
  change (last (a :: b :: l) d) with (last (b :: l) d). now rewrite !IH.
Qed.

Lemma last_ge (l : list Z) (d : Z) :
  StronglySorted Z.le l -> Forall (fun x => d <= x) l -> d <= last l d.
Proof.
  revert d. induction l as [|a l IH]; intros d Hs Hd; [cbn; lia|].
  rewrite last_cons. inversion Hs as [|? ? Hs' Ha]; subst.
  inversion Hd as [|? ? Hda _]; subst.
  specialize (IH a Hs' Ha). lia.
Qed.

Lemma last_prefix_le (l1 l2 : list Z) (d : Z) :
  StronglySorted Z.le (l1 ++ l2) -> Forall (fun x => d <= x) (l1 ++ l2) ->
  last l1 d <= last (l1 ++ l2) d.
Proof.
  revert d. induction l1 as [|a l1 IH]; intros d Hs Hd.
  - cbn [app last]. now apply last_ge.
  - cbn [app] in *. rewrite !last_cons.
    inversion Hs as [|? ? Hs' Ha]; subst. now apply IH.
Qed.

Lemma signalled_app (a b : list Event) :
  signalled (a ++ b) = signalled a ++ signalled b.
Proof. apply flat_map_app. Qed.

(** The bar after some events: the last value in range that arrived. *)
Lemma deliver_progress (clock : Clock) (evs : list Event) (ui : Window) :
  Forall (fun p => 0 <= p <= 100)
         (flat_map (fun s => match s with progress p => [p] | _ => [] end)
                   (signalled evs)) ->
  progress_bar (deliver clock evs ui)
  = last (flat_map (fun s => match s with progress p => [p] | _ => [] end)
                   (signalled evs))
         (progress_bar ui).
Proof.
  revert ui. induction evs as [|ev evs IH]; intros ui Hr; [reflexivity|].
  unfold deliver in *. cbn [fold_left].
  rewrite (signalled_cons ev evs), flat_map_app in *.
  apply Forall_app in Hr. destruct Hr as [Hev Hr].
  rewrite (IH _ Hr). clear IH Hr. revert Hev.
  generalize (flat_map (fun s => match s with progress p => [p] | _ => [] end)
                       (signalled evs)) as rest.
  intros rest Hev. destruct ev as [s|running| |].
  - destruct s; cbn; try reflexivity.
    cbn in Hev. inversion Hev as [|? ? Hp _]; subst.
    change (last rest (progress_bar (setValue percent ui))
            = last (percent :: rest) (progress_bar ui)).
    rewrite last_cons. f_equal. unfold setValue.
    destruct (Z.leb_spec 0 percent); [|lia].
    destruct (Z.leb_spec percent 100); [|lia]. reflexivity.
  - cbn. unfold stop_splitting. destruct (worker ui); [destruct running|]; reflexivity.
  - reflexivity.
  - reflexivity.
Qed.

(** X26.  The progress bar follows the worker and never moves backwards.
    From the 0 that Start sets, every [progress] value of a run is within
    the range of the bar and is shown; at every moment of the delivery the
    bar shows no more than it shows at the end, which is the last value
    the run reported (0 when no clip was completed). *)
Theorem progress_bar_follows (clock : Clock) (a : VideoSplitterApp.App)
    (d : VideoSplitterApp.Desk) (w : Worker) (env : Env) (evs : list Event)
    (ui0 ui1 ui2 : Window) :
  In (VideoSplitterApp.StartWorker w) (VideoSplitterApp.start_splitting a d) ->
  ui1 = start_splitting clock a d ui0 ->
  signalled evs = signals (run env w) ->
  ui2 = deliver clock evs ui1 ->
  progress_bar ui1 = 0
  /\ progress_bar ui2 = last (percents (run env w)) 0
  /\ (forall evs1 evs2,
        evs = evs1 ++ evs2 ->
        0 <= progress_bar (deliver clock evs1 ui1) <= progress_bar ui2).
Proof.
  intros Hin -> Hsig ->.
  destruct (start_fields clock a d ui0 w (started_worker a d w Hin))
    as (_ & _ & _ & Hbar & _).
  destruct (percents_course env w) as [Hsorted Hrange].
  unfold percents in Hsorted, Hrange. rewrite <- Hsig in Hsorted, Hrange.
  assert (Hend : progress_bar (deliver clock evs (start_splitting clock a d ui0))
                 = last (percents (run env w)) 0).
  { rewrite (deliver_progress clock evs _ Hrange), Hbar, Hsig. reflexivity. }
  split; [exact Hbar|]. split; [exact Hend|].
  intros evs1 evs2 ->. clear Hend.
  rewrite signalled_app, flat_map_app in Hsorted, Hrange.
  pose proof (proj1 (Forall_app _ _ _) Hrange) as [Hr1 _].
  rewrite (deliver_progress clock (evs1 ++ evs2) _)
    by (rewrite signalled_app, flat_map_app; exact Hrange).
  rewrite (deliver_progress clock evs1 _ Hr1), Hbar, signalled_app, flat_map_app.
  assert (Hge : Forall (fun x => 0 <= x)
                  (flat_map (fun s => match s with progress p => [p] | _ => [] end)
                            (signalled evs1)
                   ++ flat_map (fun s => match s with progress p => [p] | _ => [] end)
                               (signalled evs2))).
  { eapply Forall_impl; [|exact Hrange]. cbn beta. intros; lia. }
  split.
  - apply last_ge; [|now apply Forall_app in Hge].
    clear - Hsorted. revert Hsorted.
    generalize (flat_map (fun s => match s with progress p => [p] | _ => [] end)
                         (signalled evs1)) as l1.
    generalize (flat_map (fun s => match s with progress p => [p] | _ => [] end)
                         (signalled evs2)) as l2.
    intros l2 l1. induction l1 as [|x l1 IH]; intros Hs; [constructor|].
    cbn [app] in Hs. inversion Hs as [|? ? Hs' Hx]; subst.
    constructor; [now apply IH|]. now apply Forall_app in Hx.
  - now apply last_prefix_le.
Qed.

End UiFacts.

(* ------------------------------------------------------------------ *)
(** ** The files, Start and the window on concrete inputs *)

(** [clip_name_injective] on clips 7 and 12. *)
Lemma clip_name_injective_witness :
  (0 <= 7 /\ 0 <= 12)
  /\ clip_number_of (clip_name 12) = Some 12
  /\ (clip_name 7 = clip_name 12 -> 7 = 12)
  /\ (12 <= 999 -> String.length (clip_name 12) = 12%nat).
Proof.
  assert (H7 : 0 <= 7) by discriminate.
  assert (H12 : 0 <= 12) by discriminate.
  split; [exact (conj H7 H12)|].
  exact (FileFacts.clip_name_injective 7 12 H7 H12).
Defined.

(** [window_after_job] at Scenario D, started from the window: the job is
    stopped while its second clip is encoded, and the window stays
    locked. *)
Lemma window_after_job_witness :
  (In (StartWorker (Session.job 30 5 0))
      (start_splitting (Scenario.app 30 5 0) Scenario.desk)
   /\ Ui.signalled
        (Session.events 9
           (run (Scenario.env 150 Scenario.all_ok (Scenario.before_iteration 2))
                (Session.job 30 5 0)))
      = signals (run (Scenario.env 150 Scenario.all_ok (Scenario.before_iteration 2))
                     (Session.job 30 5 0))
   /\ errors (run (Scenario.env 150 Scenario.all_ok (Scenario.before_iteration 2))
                  (Session.job 30 5 0)) = []
   /\ finishes (run (Scenario.env 150 Scenario.all_ok (Scenario.before_iteration 2))
                    (Session.job 30 5 0)) = [])
  /\ Ui.controls
       (Ui.deliver Session.clock
          (Session.events 9
             (run (Scenario.env 150 Scenario.all_ok (Scenario.before_iteration 2))
                  (Session.job 30 5 0)))
          (Session.started 30 5 0))
     = Ui.set_controls_enabled false
  /\ Ui.ui_timer
       (Ui.deliver Session.clock
          (Session.events 9
             (run (Scenario.env 150 Scenario.all_ok (Scenario.before_iteration 2))
                  (Session.job 30 5 0)))
          (Session.started 30 5 0))
     = true.
Proof.
  assert (H1 : In (StartWorker (Session.job 30 5 0))
                  (start_splitting (Scenario.app 30 5 0) Scenario.desk)).
  { vm_compute. right. left. reflexivity. }
  assert (H2 : Ui.signalled
                 (Session.events 9
                    (run (Scenario.env 150 Scenario.all_ok
                                       (Scenario.before_iteration 2))
                         (Session.job 30 5 0)))
               = signals (run (Scenario.env 150 Scenario.all_ok
                                            (Scenario.before_iteration 2))
                              (Session.job 30 5 0)))
    by reflexivity.
  assert (H3 : errors (run (Scenario.env 150 Scenario.all_ok
                                         (Scenario.before_iteration 2))
                           (Session.job 30 5 0)) = [])
    by reflexivity.
  assert (H4 : finishes (run (Scenario.env 150 Scenario.all_ok
                                           (Scenario.before_iteration 2))
                             (Session.job 30 5 0)) = [])
    by reflexivity.
  split; [exact (conj H1 (conj H2 (conj H3 H4)))|].
  destruct (UiFacts.window_after_job Session.clock _ _ _ _ _ Session.opened _ _
              H1 eq_refl H2 eq_refl) as (_ & Hlocked & _).
  destruct (Hlocked (conj H3 H4)) as (Hc & Ht & _).
  exact (conj Hc Ht).
Defined.

(** [cancelled_job_locks_window] at Scenario D, started from the
    window. *)
Lemma cancelled_job_locks_window_witness :
  (In (StartWorker (Session.job 30 5 0))
      (start_splitting (Scenario.app 30 5 0) Scenario.desk)
   /\ Ui.signalled
        (Session.events 9
           (run (Scenario.env 150 Scenario.all_ok (Scenario.before_iteration 2))
                (Session.job 30 5 0)))
      = signals (run (Scenario.env 150 Scenario.all_ok (Scenario.before_iteration 2))
                     (Session.job 30 5 0))
   /\ In (Emit (status_update Stopping))
         (run (Scenario.env 150 Scenario.all_ok (Scenario.before_iteration 2))
              (Session.job 30 5 0))
   /\ completed (run (Scenario.env 150 Scenario.all_ok (Scenario.before_iteration 2))
                     (Session.job 30 5 0)) <> [])
  /\ Ui.start_btn
       (Ui.controls
          (Ui.deliver Session.clock
             (Session.events 9
                (run (Scenario.env 150 Scenario.all_ok (Scenario.before_iteration 2))
                     (Session.job 30 5 0)))
             (Session.started 30 5 0)))
     = false
  /\ Ui.stop_btn
       (Ui.controls
          (Ui.deliver Session.clock
             (Session.events 9
                (run (Scenario.env 150 Scenario.all_ok (Scenario.before_iteration 2))
                     (Session.job 30 5 0)))
             (Session.started 30 5 0)))
     = true
  /\ Ui.status_label
       (Ui.deliver Session.clock
          (Session.events 9
             (run (Scenario.env 150 Scenario.all_ok (Scenario.before_iteration 2))
                  (Session.job 30 5 0)))
          (Session.started 30 5 0))
     = Ui.LabelStatus (Stopped 2).
Proof.
  assert (H1 : In (StartWorker (Session.job 30 5 0))
                  (start_splitting (Scenario.app 30 5 0) Scenario.desk)).
  { vm_compute. right. left. reflexivity. }
  assert (H2 : Ui.signalled
                 (Session.events 9
                    (run (Scenario.env 150 Scenario.all_ok
                                       (Scenario.before_iteration 2))
                         (Session.job 30 5 0)))
               = signals (run (Scenario.env 150 Scenario.all_ok
                                            (Scenario.before_iteration 2))
                              (Session.job 30 5 0)))
    by reflexivity.
  assert (H3 : In (Emit (status_update Stopping))
                  (run (Scenario.env 150 Scenario.all_ok
                                     (Scenario.before_iteration 2))
                       (Session.job 30 5 0))).
  { vm_compute. repeat first [left; reflexivity | right]. }
  assert (H4 : completed (run (Scenario.env 150 Scenario.all_ok
                                            (Scenario.before_iteration 2))
                              (Session.job 30 5 0)) <> [])
    by discriminate.
  split; [exact (conj H1 (conj H2 (conj H3 H4)))|].
  destruct (UiFacts.cancelled_job_locks_window Session.clock _ _ _ _ _
              Session.opened _ _ H1 eq_refl H2 eq_refl H3 H4)
    as (_ & Hstart & Hstop & _).
  split; [exact Hstart|]. split; [exact Hstop|]. reflexivity.
Defined.

(** [failed_clip_two_dialogs] at Scenario E, started from the window: the
    third clip fails after two were made. *)
Lemma failed_clip_two_dialogs_witness :
  (In (StartWorker (Session.job 30 5 0))
      (start_splitting (Scenario.app 30 5 0) Scenario.desk)
   /\ Ui.signalled
        (Session.events 9
           (run (Scenario.env 150 (Scenario.fails_at 2) Scenario.never)
                (Session.job 30 5 0)))
      = signals (run (Scenario.env 150 (Scenario.fails_at 2) Scenario.never)
                     (Session.job 30 5 0))
   /\ In (Emit (error (ClipFailed 3 FfmpegStderr)))
         (run (Scenario.env 150 (Scenario.fails_at 2) Scenario.never)
              (Session.job 30 5 0))
   /\ completed (run (Scenario.env 150 (Scenario.fails_at 2) Scenario.never)
                     (Session.job 30 5 0)) <> []
   /\ stop_called (Scenario.env 150 (Scenario.fails_at 2) Scenario.never) AfterLoop
      = false)
  /\ Ui.dialogs
       (Ui.deliver Session.clock
          (Session.events 9
             (run (Scenario.env 150 (Scenario.fails_at 2) Scenario.never)
                  (Session.job 30 5 0)))
          (Session.started 30 5 0))
     = [Ui.ErrorBox (ClipFailed 3 FfmpegStderr);
        Ui.SuccessBox "out/clips_30s_20240101_120000" 2]
  /\ Ui.open_folder_btn
       (Ui.deliver Session.clock
          (Session.events 9
             (run (Scenario.env 150 (Scenario.fails_at 2) Scenario.never)
                  (Session.job 30 5 0)))
          (Session.started 30 5 0))
     = true.
Proof.
  assert (H1 : In (StartWorker (Session.job 30 5 0))
                  (start_splitting (Scenario.app 30 5 0) Scenario.desk)).
  { vm_compute. right. left. reflexivity. }
  assert (H2 : Ui.signalled
                 (Session.events 9
                    (run (Scenario.env 150 (Scenario.fails_at 2) Scenario.never)
                         (Session.job 30 5 0)))
               = signals (run (Scenario.env 150 (Scenario.fails_at 2) Scenario.never)
                              (Session.job 30 5 0)))
    by reflexivity.
  assert (H3 : In (Emit (error (ClipFailed 3 FfmpegStderr)))
                  (run (Scenario.env 150 (Scenario.fails_at 2) Scenario.never)
                       (Session.job 30 5 0))).
  { vm_compute. repeat first [left; reflexivity | right]. }
  assert (H4 : completed (run (Scenario.env 150 (Scenario.fails_at 2) Scenario.never)
                              (Session.job 30 5 0)) <> [])
    by discriminate.
  assert (H5 : stop_called (Scenario.env 150 (Scenario.fails_at 2) Scenario.never)
                           AfterLoop = false)
    by reflexivity.
  split; [exact (conj H1 (conj H2 (conj H3 (conj H4 H5))))|].
  destruct (UiFacts.failed_clip_two_dialogs Session.clock _ _ _ _ _
              Session.opened _ _ _ H1 eq_refl H2 eq_refl H3 H4 H5)
    as (Hd & _ & _ & Ho & _).
  split; [exact Hd|exact Ho].
Defined.

(** [progress_bar_follows] at Scenario D, started from the window: the
    bar is at 20 after nine signals and ends at 40. *)
Lemma progress_bar_follows_witness :
  (In (StartWorker (Session.job 30 5 0))
      (start_splitting (Scenario.app 30 5 0) Scenario.desk)
   /\ Ui.signalled
        (Session.events 9
           (run (Scenario.env 150 Scenario.all_ok (Scenario.before_iteration 2))
                (Session.job 30 5 0)))
      = signals (run (Scenario.env 150 Scenario.all_ok (Scenario.before_iteration 2))
                     (Session.job 30 5 0)))
  /\ Ui.progress_bar
       (Ui.deliver Session.clock
          (Session.events 9
             (run (Scenario.env 150 Scenario.all_ok (Scenario.before_iteration 2))
                  (Session.job 30 5 0)))
          (Session.started 30 5 0))
     = 40
  /\ 0 <= Ui.progress_bar
            (Ui.deliver Session.clock
               (firstn 9
                  (Session.events 9
                     (run (Scenario.env 150 Scenario.all_ok
                                        (Scenario.before_iteration 2))
                          (Session.job 30 5 0))))
               (Session.started 30 5 0))
       <= 40.
Proof.
  assert (H1 : In (StartWorker (Session.job 30 5 0))
                  (start_splitting (Scenario.app 30 5 0) Scenario.desk)).
  { vm_compute. right. left. reflexivity. }
  assert (H2 : Ui.signalled
                 (Session.events 9
                    (run (Scenario.env 150 Scenario.all_ok
                                       (Scenario.before_iteration 2))
                         (Session.job 30 5 0)))
               = signals (run (Scenario.env 150 Scenario.all_ok
                                            (Scenario.before_iteration 2))
                              (Session.job 30 5 0)))
    by reflexivity.
  split; [exact (conj H1 H2)|].
  destruct (UiFacts.progress_bar_follows Session.clock _ _ _ _ _
              Session.opened _ _ H1 eq_refl H2 eq_refl)
    as (_ & Hend & Hmono).
  split; [exact Hend|].
  exact (Hmono (firstn 9 (Session.events 9
                            (run (Scenario.env 150 Scenario.all_ok
                                               (Scenario.before_iteration 2))
                                 (Session.job 30 5 0))))
               (skipn 9 (Session.events 9
                           (run (Scenario.env 150 Scenario.all_ok
                                              (Scenario.before_iteration 2))
                                (Session.job 30 5 0))))
               eq_refl).
Defined.

(* ------------------------------------------------------------------ *)
(** ** How soon a stop takes effect *)

Lemma clip_loop_stopped (env : Env) (w : Worker) (D : Q) (n k : Z)
    (r : nat) (i : Z) (s : bool) (c : Z) :
  stop_called env (AtIteration k) = true ->
  i <= k ->
  Forall (fun cmd => number cmd <= k) (clips (snd (clip_loop env w D n r i s c)))
  /\ Forall (fun j => j <= k) (completed (snd (clip_loop env w D n r i s c))).
Proof.
  intros Hk. revert i s c. induction r as [|r IH]; intros i s c Hi.
  - split; constructor.
  - rewrite LoopFacts.clip_loop_step.
    destruct (outcome env w D i s) as [| | |e|sz] eqn:Eo.
    + split; constructor.
    + split; constructor.
    + apply LoopFacts.outcome_skipped in Eo. destruct Eo as (_ & Hno & _).
      assert (i <> k) by (intros ->; congruence).
      apply IH. lia.
    + apply LoopFacts.outcome_failed in Eo. destruct Eo as (_ & Hno & _).
      assert (i <> k) by (intros ->; congruence).
      cbn [snd]. rewrite TraceFacts.clips_app, TraceFacts.completed_app.
      split; cbn; repeat constructor. cbn. lia.
    + apply LoopFacts.outcome_done in Eo. destruct Eo as (_ & Hno & _).
      assert (i <> k) by (intros ->; congruence).
      destruct (IH (i + 1) false (c + 1) ltac:(lia)) as [Hcl Hco].
      destruct (clip_loop env w D n r (i + 1) false (c + 1)) as [[s' c'] rest].
      cbn [snd] in *. rewrite TraceFacts.clips_app, TraceFacts.completed_app.
      change (Emit (clip_completed (i + 1) sz)
                :: Emit (progress (progress_percent i n)) :: rest)
        with ([Emit (clip_completed (i + 1) sz);
               Emit (progress (progress_percent i n))] ++ rest).
      rewrite TraceFacts.clips_app, TraceFacts.completed_app.
      split.
      * apply Forall_app. split; [cbn; repeat constructor; cbn; lia|].
        apply Forall_app. split; [constructor|exact Hcl].
      * apply Forall_app. split; [constructor|].
        apply Forall_app. split; [cbn; repeat constructor; lia|exact Hco].
Qed.

(** X27.  A stop takes effect at the next look at the flag.  When [stop()]
    is called before the loop reads the flag at index [k], the clip being
    encoded is not interrupted but no clip is started after it: every
    clip the run hands to the encoder, and every clip it reports as
    completed, is numbered [k] at most, so the run encodes at most [k]
    clips. *)
Theorem stop_takes_effect (env : Env) (w : Worker) (k : Z) :
  0 <= k ->
  stop_called env (AtIteration k) = true ->
  Forall (fun c => 1 <= number c <= k) (clips (run env w))
  /\ Forall (fun j => j <= k) (completed (run env w))
  /\ Z.of_nat (List.length (clips (run env w))) <= k.
Proof.
  intros Hk Hstop.
  assert (H : Forall (fun c => number c <= k) (clips (run env w))
              /\ Forall (fun j => j <= k) (completed (run env w))).
  { destruct (setup env w) as [did|D n did] eqn:Hs.
    - destruct (RunFacts.setup_abort _ _ _ Hs) as (_ & Hco & _ & Hcl & _).
      unfold run. rewrite Hs, Hco, Hcl. split; constructor.
    - destruct (RunFacts.setup_ready _ _ _ _ _ Hs)
        as (_ & _ & _ & _ & _ & Hdc & _ & _ & Hdcl & _).
      destruct (clip_loop_stopped env w D n k (Z.to_nat n) 0 false 0 Hstop Hk)
        as [Hcl Hco].
      unfold run. rewrite Hs.
      destruct (clip_loop env w D n (Z.to_nat n) 0 false 0) as [[s' c'] looped].
      cbn [snd] in *.
      rewrite !TraceFacts.clips_app, !TraceFacts.completed_app, Hdc, Hdcl,
        TraceFacts.clips_report, TraceFacts.completed_report, !app_nil_r.
      split; assumption. }
  destruct H as [Hcl Hco].
  pose proof (FileFacts.run_clip_numbers env w) as Hnum.
  assert (Hall : forall c, In c (clips (run env w)) -> 1 <= number c <= k).
  { intros c Hc. rewrite Forall_forall in Hcl. split; [|now apply Hcl].
    apply (in_map number) in Hc. rewrite Hnum in Hc.
    apply in_map_iff in Hc. destruct Hc as (i & <- & Hi).
    apply In_range in Hi. lia. }
  split; [now apply Forall_forall|]. split; [exact Hco|].
  destruct (clips (run env w)) as [|c0 cs] eqn:E; [cbn; lia|].
  rewrite <- E in *.
  assert (Hlast : In (Z.of_nat (List.length (clips (run env w))))
                     (map number (clips (run env w)))).
  { rewrite Hnum. apply in_map_iff.
    exists (Z.of_nat (List.length (clips (run env w))) - 1).
    split; [lia|]. apply In_range. rewrite E. cbn [List.length]. lia. }
  apply in_map_iff in Hlast. destruct Hlast as (c & Hc & Hin).
  rewrite <- Hc. now apply Hall.
Qed.

(** [stop_takes_effect] at Scenario D: stop is called while the second
    clip is encoded, and two clips are made. *)
Lemma stop_takes_effect_witness :
  (0 <= 2
   /\ stop_called (Scenario.env 150 Scenario.all_ok (Scenario.before_iteration 2))
                  (AtIteration 2) = true)
  /\ Forall (fun c => 1 <= number c <= 2)
            (clips (run (Scenario.env 150 Scenario.all_ok (Scenario.before_iteration 2))
                        (Scenario.worker 30 5 0)))
  /\ Forall (fun j => j <= 2)
            (completed (run (Scenario.env 150 Scenario.all_ok
                                          (Scenario.before_iteration 2))
                            (Scenario.worker 30 5 0)))
  /\ Z.of_nat (List.length
                 (clips (run (Scenario.env 150 Scenario.all_ok
                                           (Scenario.before_iteration 2))
                             (Scenario.worker 30 5 0)))) <= 2.
Proof.
  assert (H1 : 0 <= 2) by discriminate.
  assert (H2 : stop_called (Scenario.env 150 Scenario.all_ok
                                         (Scenario.before_iteration 2))
                           (AtIteration 2) = true)
    by reflexivity.
  split; [exact (conj H1 H2)|].
  exact (stop_takes_effect _ (Scenario.worker 30 5 0) 2 H1 H2).
Defined.

(* ------------------------------------------------------------------ *)
(** ** The clips of a run against the clip arithmetic *)

Lemma Forall_prefix {A : Type} (P : A -> Prop) (k : nat) (l : list A) :
  Forall P l -> Forall P (firstn k l).
Proof.
  intros H. rewrite <- (firstn_skipn k l) in H. now apply Forall_app in H.
Qed.

Lemma NoDup_prefix {A : Type} (k : nat) (l : list A) :
  NoDup l -> NoDup (firstn k l).
Proof.
  intros H. rewrite <- (firstn_skipn k l) in H. now apply NoDup_app_remove_r in H.
Qed.

(** The set-up that lets the loop start has announced the count. *)
Lemma ready_announced (env : Env) (w : Worker) (D : Q) (n : Z) (did : list Action) :
  setup env w = Ready D n did ->
  In (Emit (status_update (Creating n))) (run env w).
Proof.
  intros Hs. unfold run. rewrite Hs.
  destruct (clip_loop env w D n (Z.to_nat n) 0 false 0) as [[s' c'] looped].
  apply in_or_app. left. revert Hs. unfold setup, check_ffmpeg.
  destruct (SplitWorker.which_ffmpeg env); cbn [negb]; [|discriminate].
  destruct (SplitWorker.ffmpeg_version env) as [[]|rc]; cbn [negb]; try discriminate.
  destruct (rc =? 0); cbn [negb]; [|discriminate].
  destruct (get_video_info (eval_rest env) (ffprobe env)) as [info|]; [|discriminate].
  destruct (Qle_bool (duration info) 0); [discriminate|].
  destruct (makedirs env); [discriminate|].
  destruct (actual_clips w (duration info)) as [x|k]; [discriminate|].
  destruct (k =? 0); [discriminate|].
  intros [= <- <- <-]. cbn. intuition.
Qed.

(** What the encode command of a planned clip carries. *)
Lemma command_span (w : Worker) (c : ClipSpec) :
  number (command w c) = index c
  /\ seek (command w c) = startSeconds c
  /\ length_of (command w c) = (endSeconds c - inject_Z (startSeconds c))%Q
  /\ (inject_Z (seek (command w c)) + length_of (command w c) == endSeconds c)%Q.
Proof. repeat split. cbn. ring. Qed.

(** With no stop seen in the loop and an encoder that always passes, a
    run encodes and completes exactly the clips of the plan. *)
Lemma run_all_pass (env : Env) (w : Worker) (D : Q) (n : Z) (did : list Action) :
  setup env w = Ready D n did ->
  (forall i, stop_called env (AtIteration i) = false) ->
  (forall i, passes env i) ->
  clips (run env w) = map (command w) (plan w D)
  /\ completed (run env w) = map index (plan w D).
Proof.
  intros Hs Hstop Hpass.
  destruct (RunFacts.setup_ready _ _ _ _ _ Hs)
    as (HD & Ha & _ & _ & _ & Hdc & _ & _ & Hdcl & _).
  assert (Hp : plan w D = plan_loop w D (Z.to_nat n) 0).
  { unfold plan. now rewrite Ha. }
  assert (Hwin : map (fun s => window w D (index s - 1)) (plan w D) = plan w D).
  { rewrite (plan_contiguous w D HD) at 2. rewrite (plan_contiguous w D HD) at 1.
    rewrite map_map. apply map_ext. intros i. cbn [window index].
    now replace (i + 1 - 1) with i by lia. }
  unfold run. rewrite Hs, clip_loop_all_pass by assumption. rewrite <- Hp. split.
  - rewrite !TraceFacts.clips_app, Hdcl, TraceFacts.clips_successes,
      TraceFacts.clips_report, app_nil_r.
    cbn [app]. rewrite map_map.
    rewrite <- Hwin at 2. rewrite map_map. reflexivity.
  - rewrite !TraceFacts.completed_app, Hdc, TraceFacts.completed_successes,
      TraceFacts.completed_report, app_nil_r.
    cbn [app]. rewrite map_map. apply map_ext. intros s. lia.
Qed.

(** An instant inside a planned clip is inside an encoded one, when the
    run encodes the plan. *)
Lemma covered_by_run (env : Env) (w : Worker) (D t : Q) :
  clips (run env w) = map (command w) (plan w D) ->
  (exists c, In c (plan w D)
             /\ (inject_Z (startSeconds c) <= t)%Q /\ (t < endSeconds c)%Q) ->
  exists c, In c (clips (run env w))
            /\ (inject_Z (seek c) <= t)%Q
            /\ (t < inject_Z (seek c) + length_of c)%Q.
Proof.
  intros Hrun (c & Hin & Hlo & Hhi). exists (command w c).
  destruct (command_span w c) as (_ & Hs & _ & He).
  split; [rewrite Hrun; now apply in_map|]. rewrite Hs. split; [exact Hlo|].
  rewrite Hs in He. rewrite He. exact Hhi.
Qed.

(** "Video too short" names the probed duration. *)
Lemma In_too_short_probe (env : Env) (w : Worker) :
  In (Emit (error TooShort)) (run env w) ->
  exists info,
    get_video_info (eval_rest env) (ffprobe env) = Some info
    /\ (0 < duration info)%Q
    /\ actual_clips w (duration info) = inr 0.
Proof.
  intros Hin. destruct (setup env w) as [did|D n did] eqn:Hs.
  - unfold run in Hin. rewrite Hs in Hin. revert Hs Hin.
    unfold setup, check_ffmpeg.
    destruct (SplitWorker.which_ffmpeg env); cbn [negb];
      [|intros [= <-] Hin; cbn in Hin; exfalso; intuition discriminate].
    destruct (SplitWorker.ffmpeg_version env) as [[]|rc]; cbn [negb];
      try (intros [= <-] Hin; cbn in Hin; exfalso; intuition discriminate).
    destruct (rc =? 0); cbn [negb];
      [|intros [= <-] Hin; cbn in Hin; exfalso; intuition discriminate].
    destruct (get_video_info (eval_rest env) (ffprobe env)) as [info|];
      [|intros [= <-] Hin; cbn in Hin; exfalso; intuition discriminate].
    destruct (Qle_bool (duration info) 0) eqn:Ed;
      [intros [= <-] Hin; cbn in Hin; exfalso; intuition discriminate|].
    destruct (makedirs env);
      [intros [= <-] Hin; cbn in Hin; exfalso; intuition discriminate|].
    destruct (actual_clips w (duration info)) as [e|m] eqn:Ea;
      [intros [= <-] Hin; cbn in Hin; exfalso; intuition discriminate|].
    destruct (m =? 0) eqn:Em; [|discriminate].
    intros _ _. apply Z.eqb_eq in Em. subst m. exists info.
    split; [reflexivity|]. split; [|exact Ea].
    apply Qnot_le_lt. intros H. apply Qle_bool_iff in H. congruence.
  - exfalso. destruct (In_too_short env w Hin) as (D' & _ & _).
    destruct (RunFacts.run_ready _ _ _ _ _ Hs)
      as (ks & e & Hrun & _ & _ & _ & _ & He).
    destruct (RunFacts.setup_ready _ _ _ _ _ Hs)
      as (_ & _ & _ & _ & _ & _ & Hde & _).
    apply In_errors in Hin.
    rewrite Hrun, !TraceFacts.errors_app, Hde, TraceFacts.errors_successes,
      TraceFacts.errors_ending in Hin.
    cbn [app] in Hin. apply in_app_iff in Hin. destruct Hin as [Hin|Hin].
    + destruct e as [| |j msg]; try contradiction.
      destruct Hin as [->|[]]. destruct He as (_ & _ & Ho).
      apply outcome_failed_form in Ho. destruct Ho as [?|(x & ?)]; discriminate.
    + destruct (report_cases env w (is_cancel e) (Z.of_nat (List.length ks))
                             (Nat2Z.is_nonneg _))
        as [(Hr & _)|[(Hr & _)|(Hr & _)]];
        rewrite Hr in Hin; cbn in Hin; intuition discriminate.
Qed.

(** C5, as the code has it.  For a video of positive duration [D], a
    positive clip length [L] and no overlap, within the bounds where the
    floats of the clip count are exact ([D] up to [2 ^ 52] and [L] up to
    [2 ^ 31] seconds): the loop bound is [n = min(num_clips, ceil(D / L))];
    the window at every index [i] below it spans from [i * L] to
    [min((i + 1) * L, D)] and starts before the end of the video; the plan
    is these windows in order without those shorter than a second, which
    can only be the last, so it has [n] clips, or [n - 1] when less than a
    second of video is left at the start of the last window.  Every run on
    such a video announces "Creating n clips...", hands to the encoder a
    prefix of the plan and, when no stop is seen and every encode is
    verified, exactly the plan; for [D = 100], length 30 and 10 requested
    clips the run encodes the four clips 0-30, 30-60, 60-90 and 90-100. *)
Theorem no_overlap_windows (w : Worker) (D : Q) :
  (0 < D)%Q ->
  (D <= inject_Z (2 ^ 52))%Q ->
  0 < clip_duration w <= 2 ^ 31 ->
  overlap w = 0 ->
  let L := clip_duration w in
  let n := Z.min (num_clips w) (Qceiling (D / inject_Z L)) in
  actual_clips w D = inr n
  /\ (forall i, 0 <= i < n ->
        startSeconds (window w D i) = i * L
        /\ (endSeconds (window w D i) == Qmin (inject_Z ((i + 1) * L)) D)%Q
        /\ (inject_Z (i * L) < D)%Q)
  /\ plan w D = filter (fun c => negb (too_short c))
                       (map (window w D) (range 0 (Z.to_nat n)))
  /\ (forall i, 0 <= i < n - 1 -> too_short (window w D i) = false)
  /\ List.length (plan w D)
     = Z.to_nat (n - (if Py.lt (D - inject_Z ((n - 1) * L)) 1 then 1 else 0))
  /\ (forall env n' did,
        setup env w = Ready D n' did ->
        In (Emit (status_update (Creating n))) (run env w)
        /\ (exists k, clips (run env w) = firstn k (map (command w) (plan w D)))
        /\ ((forall i, stop_called env (AtIteration i) = false) ->
            (forall i, passes env i) ->
            clips (run env w) = map (command w) (plan w D)
            /\ completed (run env w) = map index (plan w D)))
  /\ clips (run (Scenario.env 100 Scenario.all_ok Scenario.never)
                (Scenario.worker 30 10 0))
     = [ FfmpegClip 1 0 30 StreamCopy;
         FfmpegClip 2 30 30 StreamCopy;
         FfmpegClip 3 60 30 StreamCopy;
         FfmpegClip 4 90 10 StreamCopy ].
Proof.
  intros HD _ [HL _] HO L n.
  destruct (no_overlap_plan w D HD HL HO) as (Ha & Hwin & Hplan & Hfull & Hlen & _).
  repeat (split; [assumption|]). split; [|reflexivity].
  intros env n' did Hs.
  destruct (RunFacts.setup_ready _ _ _ _ _ Hs) as (_ & Ha' & _).
  assert (n' = n) by (fold L n in Ha; congruence). subst n'.
  split; [exact (ready_announced _ _ _ _ _ Hs)|].
  split; [exact (run_clips_prefix _ _ _ _ _ Hs)|].
  intros Hstop Hpass. exact (run_all_pass _ _ _ _ _ Hs Hstop Hpass).
Qed.

(** [no_overlap_windows] at Scenario A. *)
Lemma no_overlap_windows_witness :
  ((0 < 100)%Q
   /\ (100 <= inject_Z (2 ^ 52))%Q
   /\ 0 < clip_duration (Scenario.worker 30 10 0) <= 2 ^ 31
   /\ overlap (Scenario.worker 30 10 0) = 0)
  /\ actual_clips (Scenario.worker 30 10 0) 100 = inr 4
  /\ In (Emit (status_update (Creating 4)))
        (run (Scenario.env 100 Scenario.all_ok Scenario.never) (Scenario.worker 30 10 0))
  /\ clips (run (Scenario.env 100 Scenario.all_ok Scenario.never)
                (Scenario.worker 30 10 0))
     = map (command (Scenario.worker 30 10 0)) (plan (Scenario.worker 30 10 0) 100)
  /\ completed (run (Scenario.env 100 Scenario.all_ok Scenario.never)
                    (Scenario.worker 30 10 0))
     = [1; 2; 3; 4].
Proof.
  assert (HD : (0 < 100)%Q) by reflexivity.
  assert (HB : (100 <= inject_Z (2 ^ 52))%Q) by discriminate.
  assert (HL : 0 < clip_duration (Scenario.worker 30 10 0) <= 2 ^ 31)
    by (split; [reflexivity|discriminate]).
  assert (HO : overlap (Scenario.worker 30 10 0) = 0) by reflexivity.
  split; [exact (conj HD (conj HB (conj HL HO)))|].
  destruct (no_overlap_windows (Scenario.worker 30 10 0) 100 HD HB HL HO)
    as (Ha & _ & _ & _ & _ & Hrun & _).
  split; [exact Ha|].
  destruct (Hrun (Scenario.env 100 Scenario.all_ok Scenario.never) 4 _ eq_refl)
    as (Hann & _ & Hall).
  split; [exact Hann|].
  exact (Hall (fun _ => eq_refl)
              (fun _ => ex_intro _ 2048 (conj eq_refl eq_refl))).
Defined.

(** C6.  For a video of positive duration [D] and [0 < overlap <
    clip_duration]: the start at index [i] is [i * (clip_duration -
    overlap)], a fixed multiple of the stride that does not depend on the
    previous window.  Every clip that a run on such a video hands to the
    encoder is numbered from 1 and starts at its own multiple of the
    stride, before the end of the video; no two of them share a start; and
    once an index has its start at or after the end of the video no clip
    of that index or a later one is encoded.  The same holds of the plan,
    whose windows end at [min(start + clip_duration, D)].  With [D] up to
    [2 ^ 52] and the clip length up to [2 ^ 31] seconds, where the
    subtraction of a start from [D] is exact, an encoded clip lasts from
    its start until [min(start + clip_duration, D)].  Where moreover
    [D + overlap] is a float, so that the clip count is computed without
    rounding, the loop bound is [min(num_clips, int((D + overlap) /
    stride))], the plan is the windows below it, cut at the first start at
    or after the end and without those shorter than a second, and a run in
    which no stop is seen and every encode is verified encodes exactly the
    plan.  For [D = 100], length 30, overlap 5 and 10 requested clips the
    run encodes four clips, starting at 0, 25, 50 and 75, the last one
    lasting 25 seconds, to 100. *)
Theorem overlap_fixed_stride (w : Worker) (D : Q) :
  (0 < D)%Q ->
  0 < overlap w < clip_duration w ->
  let step := clip_duration w - overlap w in
  (forall i, 0 <= i -> clip_start w i = i * step)
  /\ (forall env n did,
        setup env w = Ready D n did ->
        Forall (fun c => 1 <= number c
                         /\ seek c = (number c - 1) * step
                         /\ (inject_Z (seek c) < D)%Q)
               (clips (run env w))
        /\ NoDup (map seek (clips (run env w)))
        /\ (forall j, 0 <= j -> (D <= inject_Z (j * step))%Q ->
              Forall (fun c => number c <= j) (clips (run env w))))
  /\ Forall (fun c => 1 <= index c
                      /\ startSeconds c = (index c - 1) * step
                      /\ (inject_Z (startSeconds c) < D)%Q
                      /\ endSeconds c
                         = Py.min (inject_Z (startSeconds c + clip_duration w)) D)
            (plan w D)
  /\ NoDup (map startSeconds (plan w D))
  /\ ((D <= inject_Z (2 ^ 52))%Q ->
      clip_duration w <= 2 ^ 31 ->
      (forall env n did,
         setup env w = Ready D n did ->
         Forall (fun c => length_of c
                          = (Py.min (inject_Z (seek c + clip_duration w)) D
                             - inject_Z (seek c))%Q)
                (clips (run env w)))
      /\ (Py.is_float (D + inject_Z (overlap w)) ->
          actual_clips w D
          = inr (Z.min (num_clips w)
                       (Py.int ((D + inject_Z (overlap w)) / inject_Z step)))
          /\ plan w D
             = filter (fun c => negb (too_short c))
                 (take_while (fun c => Py.lt (inject_Z (startSeconds c)) D)
                    (map (window w D)
                       (range 0 (Z.to_nat
                                   (Z.min (num_clips w)
                                      (Py.int ((D + inject_Z (overlap w))
                                               / inject_Z step)))))))
          /\ (forall env n did,
                setup env w = Ready D n did ->
                (forall i, stop_called env (AtIteration i) = false) ->
                (forall i, passes env i) ->
                clips (run env w) = map (command w) (plan w D)
                /\ completed (run env w) = map index (plan w D))))
  /\ clips (run (Scenario.env 100 Scenario.all_ok Scenario.never)
                (Scenario.worker 30 10 5))
     = [ FfmpegClip 1 0 30 StreamCopy;
         FfmpegClip 2 25 30 StreamCopy;
         FfmpegClip 3 50 30 StreamCopy;
         FfmpegClip 4 75 25 StreamCopy ].
Proof.
  intros HD HO step.
  destruct (overlap_plan w D HD HO)
    as (Hstart & Ha & Hplan & Hstop & Hspecs & Hnodup & _).
  fold step in Hstart, Ha, Hplan, Hstop, Hspecs.
  assert (Hidx : Forall (fun c => 1 <= index c) (plan w D)).
  { rewrite (plan_contiguous w D HD), Forall_map, Forall_forall.
    intros i Hi. apply In_range in Hi. cbn [window index]. lia. }
  assert (Hfull : Forall (fun c => 1 <= index c
                      /\ startSeconds c = (index c - 1) * step
                      /\ (inject_Z (startSeconds c) < D)%Q
                      /\ endSeconds c
                         = Py.min (inject_Z (startSeconds c + clip_duration w)) D)
                         (plan w D)).
  { rewrite Forall_forall in *. intros c Hc. split; [now apply Hidx|now apply Hspecs]. }
  split; [exact Hstart|]. split; [|split; [exact Hfull|split; [exact Hnodup|split]]].
  - intros env n did Hs.
    destruct (run_clips_prefix _ _ _ _ _ Hs) as (k & Hk).
    rewrite Hk. split; [|split].
    + apply Forall_prefix. rewrite Forall_map.
      eapply Forall_impl; [|exact Hfull]. cbn beta.
      intros c (H1 & H2 & H3 & H4). cbn [command number seek].
      repeat split; auto.
    + rewrite <- firstn_map, map_map. apply NoDup_prefix.
      rewrite (map_ext _ startSeconds) by reflexivity. exact Hnodup.
    + intros j Hj HDj. apply Forall_prefix. rewrite Forall_map.
      eapply Forall_impl; [|exact (Hstop j Hj HDj)]. cbn beta. auto.
  - intros _ _. split.
    + intros env n did Hs.
      destruct (run_clips_prefix _ _ _ _ _ Hs) as (k & Hk).
      rewrite Hk. apply Forall_prefix. rewrite Forall_map.
      eapply Forall_impl; [|exact Hfull]. cbn beta.
      intros c (H1 & H2 & H3 & H4). cbn [command seek length_of].
      now rewrite H4.
    + intros _. split; [exact Ha|]. split; [exact Hplan|].
      intros env n did Hs Hnostop Hpass.
      exact (run_all_pass _ _ _ _ _ Hs Hnostop Hpass).
  - reflexivity.
Qed.

(** [overlap_fixed_stride] at Scenario B. *)
Lemma overlap_fixed_stride_witness :
  ((0 < 100)%Q
   /\ 0 < overlap (Scenario.worker 30 10 5) < clip_duration (Scenario.worker 30 10 5))
  /\ NoDup (map seek
                (clips (run (Scenario.env 100 Scenario.all_ok Scenario.never)
                            (Scenario.worker 30 10 5))))
  /\ clips (run (Scenario.env 100 Scenario.all_ok Scenario.never)
                (Scenario.worker 30 10 5))
     = map (command (Scenario.worker 30 10 5)) (plan (Scenario.worker 30 10 5) 100)
  /\ actual_clips (Scenario.worker 30 10 5) 100 = inr 4.
Proof.
  assert (HD : (0 < 100)%Q) by reflexivity.
  assert (HO : 0 < overlap (Scenario.worker 30 10 5)
               < clip_duration (Scenario.worker 30 10 5))
    by (split; reflexivity).
  split; [exact (conj HD HO)|].
  destruct (overlap_fixed_stride (Scenario.worker 30 10 5) 100 HD HO)
    as (_ & Hrun & _ & _ & Hcount & _).
  destruct (Hrun (Scenario.env 100 Scenario.all_ok Scenario.never) 4 _ eq_refl)
    as (_ & Hnodup & _).
  split; [exact Hnodup|].
  assert (HB : (100 <= inject_Z (2 ^ 52))%Q) by discriminate.
  assert (HL : clip_duration (Scenario.worker 30 10 5) <= 2 ^ 31) by discriminate.
  assert (HF : Py.is_float (100 + inject_Z (overlap (Scenario.worker 30 10 5)))).
  { exists 105, 0. split; [reflexivity|]. split; [split; discriminate|reflexivity]. }
  destruct (Hcount HB HL) as (_ & Hexact).
  destruct (Hexact HF) as (Ha & _ & Hall). split; [|exact Ha].
  exact (proj1 (Hall (Scenario.env 100 Scenario.all_ok Scenario.never) 4 _ eq_refl
                     (fun _ => eq_refl)
                     (fun _ => ex_intro _ 2048 (conj eq_refl eq_refl)))).
Defined.

(** X12.  With [0 < overlap < clip_duration], a clip length up to
    [2 ^ 31] seconds and at least one clip requested: for a duration [D]
    up to [2 ^ 52] with [D + overlap] a float, the clip count is zero
    exactly when [D + overlap < clip_duration - overlap]; and a run that
    reports "Video too short" has probed a positive duration [D] with
    [D + overlap < clip_duration - overlap]. *)
Theorem too_short_with_overlap (env : Env) (w : Worker) :
  0 < overlap w < clip_duration w ->
  clip_duration w <= 2 ^ 31 ->
  1 <= num_clips w ->
  (forall D, (0 < D)%Q ->
     (D <= inject_Z (2 ^ 52))%Q ->
     Py.is_float (D + inject_Z (overlap w)) ->
     (actual_clips w D = inr 0
      <-> (D + inject_Z (overlap w) < inject_Z (clip_duration w - overlap w))%Q))
  /\ (In (Emit (error TooShort)) (run env w) ->
      exists info,
        get_video_info (eval_rest env) (ffprobe env) = Some info
        /\ (0 < duration info)%Q
        /\ (duration info + inject_Z (overlap w)
            < inject_Z (clip_duration w - overlap w))%Q).
Proof.
  intros HO _ HN.
  destruct (too_short_count env w HO HN) as [Hcount _]. split.
  - intros D HD _ _. exact (Hcount D HD).
  - intros Hin. destruct (In_too_short_probe env w Hin) as (info & Hp & HD & Ha).
    exists info. split; [exact Hp|]. split; [exact HD|].
    now apply (Hcount (duration info) HD).
Qed.

(** [too_short_with_overlap] on a ten-second video, length 30, overlap 5. *)
Lemma too_short_with_overlap_witness :
  (0 < overlap (Scenario.worker 30 10 5) < clip_duration (Scenario.worker 30 10 5)
   /\ clip_duration (Scenario.worker 30 10 5) <= 2 ^ 31
   /\ 1 <= num_clips (Scenario.worker 30 10 5))
  /\ actual_clips (Scenario.worker 30 10 5) 10 = inr 0
  /\ exists info,
       get_video_info (eval_rest (Scenario.env 10 Scenario.all_ok Scenario.never))
                      (ffprobe (Scenario.env 10 Scenario.all_ok Scenario.never))
       = Some info
       /\ (0 < duration info)%Q
       /\ (duration info + inject_Z (overlap (Scenario.worker 30 10 5))
           < inject_Z (clip_duration (Scenario.worker 30 10 5)
                       - overlap (Scenario.worker 30 10 5)))%Q.
Proof.
  assert (H1 : 0 < overlap (Scenario.worker 30 10 5)
               < clip_duration (Scenario.worker 30 10 5))
    by (split; reflexivity).
  assert (H2 : clip_duration (Scenario.worker 30 10 5) <= 2 ^ 31) by discriminate.
  assert (H3 : 1 <= num_clips (Scenario.worker 30 10 5)) by discriminate.
  split; [exact (conj H1 (conj H2 H3))|].
  destruct (too_short_with_overlap
              (Scenario.env 10 Scenario.all_ok Scenario.never)
              (Scenario.worker 30 10 5) H1 H2 H3) as [Hcount Hrun].
  split.
  - assert (HD : (0 < 10)%Q) by reflexivity.
    assert (HB : (10 <= inject_Z (2 ^ 52))%Q) by discriminate.
    assert (HF : Py.is_float (10 + inject_Z (overlap (Scenario.worker 30 10 5)))).
    { exists 15, 0. split; [reflexivity|]. split; [split; discriminate|reflexivity]. }
    apply (Hcount 10%Q HD HB HF). reflexivity.
  - apply Hrun. vm_compute. tauto.
Defined.

(** X13.  With no overlap, at least one clip requested and a clip length
    up to [2 ^ 31] seconds, a video that lasts at least a second and no
    longer than one clip is planned as the single clip 1, from 0 to the
    end of the video; a run on it announces one clip, hands the encoder
    nothing or that clip alone, and that clip alone when no stop is seen
    and the encode is verified. *)
Theorem short_video_single_clip (w : Worker) (D : Q) :
  overlap w = 0 ->
  1 <= num_clips w ->
  (1 <= D)%Q ->
  (D <= inject_Z (clip_duration w))%Q ->
  clip_duration w <= 2 ^ 31 ->
  exists c,
    plan w D = [c]
    /\ index c = 1 /\ startSeconds c = 0 /\ (endSeconds c == D)%Q
    /\ number (command w c) = 1 /\ seek (command w c) = 0
    /\ (length_of (command w c) == D)%Q
    /\ (forall env n did,
          setup env w = Ready D n did ->
          n = 1
          /\ In (Emit (status_update (Creating 1))) (run env w)
          /\ (clips (run env w) = [] \/ clips (run env w) = [command w c])
          /\ ((forall i, stop_called env (AtIteration i) = false) ->
              (forall i, passes env i) ->
              clips (run env w) = [command w c]
              /\ completed (run env w) = [1])).
Proof.
  intros HO HN H1 HL _.
  destruct (short_video_plan w D HO HN H1 HL) as (c & Hplan & Hi & Hs & He).
  exists c. split; [exact Hplan|]. split; [exact Hi|]. split; [exact Hs|].
  split; [exact He|].
  assert (HD : (0 < D)%Q) by lra.
  assert (HLpos : 0 < clip_duration w).
  { assert (H : (inject_Z 0 < inject_Z (clip_duration w))%Q)
      by (change (inject_Z 0) with 0%Q; lra).
    now rewrite <- Zlt_Qlt in H. }
  assert (Hl : (0 < inject_Z (clip_duration w))%Q) by lra.
  assert (Hceil : Qceiling (D / inject_Z (clip_duration w)) = 1).
  { apply PyFacts.ceiling_unique.
    - change (inject_Z (1 - 1)) with 0%Q. apply Qlt_shift_div_l; lra.
    - apply PlanFacts.div_le_iff; [assumption|]. change (inject_Z 1) with 1%Q. lra. }
  destruct (no_overlap_plan w D HD HLpos HO) as (Ha & _).
  cbv zeta in Ha. rewrite Hceil in Ha.
  replace (Z.min (num_clips w) 1) with 1 in Ha by lia.
  split; [cbn; exact Hi|]. split; [cbn; exact Hs|].
  split; [cbn; rewrite Hs, He; change (inject_Z 0) with 0%Q; ring|].
  intros env n did Hset.
  destruct (RunFacts.setup_ready _ _ _ _ _ Hset) as (_ & Ha' & _).
  assert (n = 1) by congruence. subst n.
  split; [reflexivity|]. split; [exact (ready_announced _ _ _ _ _ Hset)|]. split.
  - destruct (run_clips_prefix _ _ _ _ _ Hset) as (k & Hk).
    rewrite Hk, Hplan. destruct k; [now left|right]. cbn. now destruct k.
  - intros Hstop Hpass.
    destruct (run_all_pass _ _ _ _ _ Hset Hstop Hpass) as (Hc & Hd).
    rewrite Hc, Hd, Hplan. cbn. now rewrite Hi.
Qed.

(** [short_video_single_clip] on a five-second video, length 30. *)
Lemma short_video_single_clip_witness :
  (overlap (Scenario.worker 30 10 0) = 0
   /\ 1 <= num_clips (Scenario.worker 30 10 0)
   /\ (1 <= 5)%Q
   /\ (5 <= inject_Z (clip_duration (Scenario.worker 30 10 0)))%Q
   /\ clip_duration (Scenario.worker 30 10 0) <= 2 ^ 31)
  /\ exists c,
       plan (Scenario.worker 30 10 0) 5 = [c]
       /\ index c = 1 /\ startSeconds c = 0 /\ (endSeconds c == 5)%Q
       /\ clips (run (Scenario.env 5 Scenario.all_ok Scenario.never)
                     (Scenario.worker 30 10 0))
          = [command (Scenario.worker 30 10 0) c].
Proof.
  assert (H1 : overlap (Scenario.worker 30 10 0) = 0) by reflexivity.
  assert (H2 : 1 <= num_clips (Scenario.worker 30 10 0)) by discriminate.
  assert (H3 : (1 <= 5)%Q) by discriminate.
  assert (H4 : (5 <= inject_Z (clip_duration (Scenario.worker 30 10 0)))%Q)
    by discriminate.
  assert (H5 : clip_duration (Scenario.worker 30 10 0) <= 2 ^ 31) by discriminate.
  split; [exact (conj H1 (conj H2 (conj H3 (conj H4 H5))))|].
  destruct (short_video_single_clip (Scenario.worker 30 10 0) 5 H1 H2 H3 H4 H5)
    as (c & Hp & Hi & Hs & He & _ & _ & _ & Hrun).
  exists c. split; [exact Hp|]. split; [exact Hi|]. split; [exact Hs|].
  split; [exact He|].
  destruct (Hrun (Scenario.env 5 Scenario.all_ok Scenario.never) 1 _ eq_refl)
    as (_ & _ & _ & Hall).
  exact (proj1 (Hall (fun _ => eq_refl)
                     (fun _ => ex_intro _ 2048 (conj eq_refl eq_refl)))).
Defined.

(** X16.  With no overlap, a clip length up to [2 ^ 31] seconds and a
    duration [D] up to [2 ^ 52]: every instant [t] of the video that
    leaves at least a second before the end and lies within the requested
    count of clip lengths is inside a planned clip, and inside a clip of
    the run when no stop is seen and every encode is verified. *)
Theorem no_overlap_covers (w : Worker) (D t : Q) :
  0 < clip_duration w <= 2 ^ 31 ->
  overlap w = 0 ->
  (D <= inject_Z (2 ^ 52))%Q ->
  (0 <= t)%Q ->
  (t + 1 <= D)%Q ->
  (t < inject_Z (num_clips w * clip_duration w))%Q ->
  (exists c,
     In c (plan w D)
     /\ (inject_Z (startSeconds c) <= t)%Q /\ (t < endSeconds c)%Q)
  /\ (forall env n did,
        setup env w = Ready D n did ->
        (forall i, stop_called env (AtIteration i) = false) ->
        (forall i, passes env i) ->
        exists c,
          In c (clips (run env w))
          /\ (inject_Z (seek c) <= t)%Q
          /\ (t < inject_Z (seek c) + length_of c)%Q).
Proof.
  intros [HL _] HO _ Ht0 Ht1 HtN.
  pose proof (no_overlap_plan_covers w D t HL HO Ht0 Ht1 HtN) as Hcov.
  split; [exact Hcov|].
  intros env n did Hs Hstop Hpass.
  apply (covered_by_run env w D t); [|exact Hcov].
  exact (proj1 (run_all_pass _ _ _ _ _ Hs Hstop Hpass)).
Qed.

(** [no_overlap_covers] at second 95 of Scenario A. *)
Lemma no_overlap_covers_witness :
  (0 < clip_duration (Scenario.worker 30 10 0) <= 2 ^ 31
   /\ overlap (Scenario.worker 30 10 0) = 0
   /\ (100 <= inject_Z (2 ^ 52))%Q
   /\ (0 <= 95)%Q
   /\ (95 + 1 <= 100)%Q
   /\ (95 < inject_Z (num_clips (Scenario.worker 30 10 0)
                      * clip_duration (Scenario.worker 30 10 0)))%Q)
  /\ (exists c,
        In c (plan (Scenario.worker 30 10 0) 100)
        /\ (inject_Z (startSeconds c) <= 95)%Q /\ (95 < endSeconds c)%Q)
  /\ exists c,
       In c (clips (run (Scenario.env 100 Scenario.all_ok Scenario.never)
                        (Scenario.worker 30 10 0)))
       /\ (inject_Z (seek c) <= 95)%Q
       /\ (95 < inject_Z (seek c) + length_of c)%Q.
Proof.
  assert (H1 : 0 < clip_duration (Scenario.worker 30 10 0) <= 2 ^ 31)
    by (split; [reflexivity|discriminate]).
  assert (H2 : overlap (Scenario.worker 30 10 0) = 0) by reflexivity.
  assert (HB : (100 <= inject_Z (2 ^ 52))%Q) by discriminate.
  assert (H3 : (0 <= 95)%Q) by discriminate.
  assert (H4 : (95 + 1 <= 100)%Q) by discriminate.
  assert (H5 : (95 < inject_Z (num_clips (Scenario.worker 30 10 0)
                               * clip_duration (Scenario.worker 30 10 0)))%Q)
    by reflexivity.
  split; [exact (conj H1 (conj H2 (conj HB (conj H3 (conj H4 H5)))))|].
  destruct (no_overlap_covers (Scenario.worker 30 10 0) 100 95 H1 H2 HB H3 H4 H5)
    as [Hplan Hrun].
  split; [exact Hplan|].
  exact (Hrun (Scenario.env 100 Scenario.all_ok Scenario.never) 4 _ eq_refl
              (fun _ => eq_refl)
              (fun _ => ex_intro _ 2048 (conj eq_refl eq_refl))).
Defined.

(** X17.  With [0 < overlap < clip_duration], a clip length up to
    [2 ^ 31] seconds, a duration [D] up to [2 ^ 52] and [D + overlap] a
    float: every instant [t] that leaves at least a second, and at least
    [clip_duration - 2 * overlap], before the end of the video and lies
    within the requested count of strides is inside a planned clip, and
    inside a clip of the run when no stop is seen and every encode is
    verified; and with [n] the clip count, no planned clip and no clip of
    a run ends after [n * stride + overlap]. *)
Theorem overlap_covers (w : Worker) (D : Q) :
  (0 < D)%Q ->
  (D <= inject_Z (2 ^ 52))%Q ->
  0 < overlap w < clip_duration w ->
  clip_duration w <= 2 ^ 31 ->
  Py.is_float (D + inject_Z (overlap w)) ->
  let s := clip_duration w - overlap w in
  (forall t,
      (0 <= t)%Q ->
      (t + 1 <= D)%Q ->
      (t + inject_Z (clip_duration w - 2 * overlap w) <= D)%Q ->
      (t < inject_Z (num_clips w * s))%Q ->
      (exists c,
         In c (plan w D)
         /\ (inject_Z (startSeconds c) <= t)%Q /\ (t < endSeconds c)%Q)
      /\ (forall env n did,
            setup env w = Ready D n did ->
            (forall i, stop_called env (AtIteration i) = false) ->
            (forall i, passes env i) ->
            exists c,
              In c (clips (run env w))
              /\ (inject_Z (seek c) <= t)%Q
              /\ (t < inject_Z (seek c) + length_of c)%Q))
  /\ (forall n,
        actual_clips w D = inr n ->
        Forall (fun c => (endSeconds c <= inject_Z (n * s + overlap w))%Q)
               (plan w D))
  /\ (forall env n did,
        setup env w = Ready D n did ->
        Forall (fun c => (inject_Z (seek c) + length_of c
                          <= inject_Z (n * s + overlap w))%Q)
               (clips (run env w))).
Proof.
  intros HD _ HO _ _ s.
  destruct (overlap_plan_covers w D HD HO) as [Hcov Hend].
  fold s in Hcov, Hend. split; [|split].
  - intros t H0 H1 H2 H3. pose proof (Hcov t H0 H1 H2 H3) as Hc.
    split; [exact Hc|].
    intros env n did Hs Hstop Hpass.
    apply (covered_by_run env w D t); [|exact Hc].
    exact (proj1 (run_all_pass _ _ _ _ _ Hs Hstop Hpass)).
  - exact Hend.
  - intros env n did Hs.
    destruct (RunFacts.setup_ready _ _ _ _ _ Hs) as (_ & Ha & _).
    destruct (run_clips_prefix _ _ _ _ _ Hs) as (k & Hk).
    rewrite Hk. apply Forall_prefix. rewrite Forall_map.
    eapply Forall_impl; [|exact (Hend n Ha)]. cbn beta.
    intros c Hc. destruct (command_span w c) as (_ & _ & _ & He).
    rewrite He. exact Hc.
Qed.

(** [overlap_covers] at second 60 of Scenario B. *)
Lemma overlap_covers_witness :
  ((0 < 100)%Q
   /\ (100 <= inject_Z (2 ^ 52))%Q
   /\ 0 < overlap (Scenario.worker 30 10 5) < clip_duration (Scenario.worker 30 10 5)
   /\ clip_duration (Scenario.worker 30 10 5) <= 2 ^ 31
   /\ Py.is_float (100 + inject_Z (overlap (Scenario.worker 30 10 5))))
  /\ (exists c,
        In c (clips (run (Scenario.env 100 Scenario.all_ok Scenario.never)
                         (Scenario.worker 30 10 5)))
        /\ (inject_Z (seek c) <= 60)%Q
        /\ (60 < inject_Z (seek c) + length_of c)%Q)
  /\ Forall (fun c => (endSeconds c <= inject_Z (4 * (30 - 5) + 5))%Q)
            (plan (Scenario.worker 30 10 5) 100)
  /\ Forall (fun c => (inject_Z (seek c) + length_of c
                       <= inject_Z (4 * (30 - 5) + 5))%Q)
            (clips (run (Scenario.env 100 Scenario.all_ok Scenario.never)
                        (Scenario.worker 30 10 5))).
Proof.
  assert (HD : (0 < 100)%Q) by reflexivity.
  assert (HB : (100 <= inject_Z (2 ^ 52))%Q) by discriminate.
  assert (HO : 0 < overlap (Scenario.worker 30 10 5)
               < clip_duration (Scenario.worker 30 10 5))
    by (split; reflexivity).
  assert (HL : clip_duration (Scenario.worker 30 10 5) <= 2 ^ 31) by discriminate.
  assert (HF : Py.is_float (100 + inject_Z (overlap (Scenario.worker 30 10 5)))).
  { exists 105, 0. split; [reflexivity|]. split; [split; discriminate|reflexivity]. }
  split; [exact (conj HD (conj HB (conj HO (conj HL HF))))|].
  destruct (overlap_covers (Scenario.worker 30 10 5) 100 HD HB HO HL HF)
    as (Hcover & Hend & Hrun).
  split; [|split].
  - assert (H1 : (0 <= 60)%Q) by discriminate.
    assert (H2 : (60 + 1 <= 100)%Q) by discriminate.
    assert (H3 : (60 + inject_Z (clip_duration (Scenario.worker 30 10 5)
                                 - 2 * overlap (Scenario.worker 30 10 5))
                  <= 100)%Q) by discriminate.
    assert (H4 : (60 < inject_Z (num_clips (Scenario.worker 30 10 5)
                                 * (clip_duration (Scenario.worker 30 10 5)
                                    - overlap (Scenario.worker 30 10 5))))%Q)
      by reflexivity.
    destruct (Hcover 60%Q H1 H2 H3 H4) as [_ Hr].
    exact (Hr (Scenario.env 100 Scenario.all_ok Scenario.never) 4 _ eq_refl
              (fun _ => eq_refl)
              (fun _ => ex_intro _ 2048 (conj eq_refl eq_refl))).
  - exact (Hend 4 eq_refl).
  - exact (Hrun (Scenario.env 100 Scenario.all_ok Scenario.never) 4 _ eq_refl).
Defined.

(** [StartFacts.started_worker_sound] on the job of Scenario B. *)
Lemma started_worker_sound_witness :
  (In (StartWorker (Session.job 30 10 5))
      (start_splitting (Scenario.app 30 10 5) Scenario.desk)
   /\ 1 <= duration_input (Scenario.app 30 10 5) <= 3600
   /\ 1 <= num_clips_input (Scenario.app 30 10 5) <= 1000
   /\ 0 <= overlap_input (Scenario.app 30 10 5) <= 60)
  /\ (forall D, (0 < D)%Q ->
        exists n, actual_clips (Session.job 30 10 5) D = inr n
                  /\ 0 <= n <= num_clips (Session.job 30 10 5))
  /\ (forall env,
        In (Emit (error (Unexpected Py.ZeroDivisionError)))
           (run env (Session.job 30 10 5)) ->
        makedirs env = Some Py.ZeroDivisionError)
  /\ (forall env n,
        In (Emit (status_update (Creating n))) (run env (Session.job 30 10 5)) ->
        1 <= n <= 1000).
Proof.
  assert (H1 : In (StartWorker (Session.job 30 10 5))
                  (start_splitting (Scenario.app 30 10 5) Scenario.desk)).
  { vm_compute. right. left. reflexivity. }
  assert (H2 : 1 <= duration_input (Scenario.app 30 10 5) <= 3600)
    by (split; discriminate).
  assert (H3 : 1 <= num_clips_input (Scenario.app 30 10 5) <= 1000)
    by (split; discriminate).
  assert (H4 : 0 <= overlap_input (Scenario.app 30 10 5) <= 60)
    by (split; discriminate).
  split; [exact (conj H1 (conj H2 (conj H3 H4)))|].
  exact (StartFacts.started_worker_sound _ _ _ H1 H2 H3 H4).
Defined.
